(** * Gospel message analyzer: a model of [consumers/project_consumer_eric.py]

    The consumer decodes one JSON line at a time, scores the message text
    against a fixed keyword taxonomy, derives a "faith impact" from the
    score and the sentiment, and updates the rolling buffers and the
    counters of the single [GospelAnalyzer] instance.

    Modelling choices:
    - Python's [float] is IEEE 754 binary64; it is the Standard Library's
      executable specification [SpecFloat] at precision 53 and maximal
      exponent 1024, so that every arithmetic step rounds as the
      interpreter does.  Python's [int] is [Z].
    - A [str] is a [string] whose characters are the code points 0..255,
      on which [str.lower] is written out in full.
    - The analyzer is a record; its methods and [process_message] are state
      transformers that return or raise, and what was changed before an
      exception stays changed.
    - [json.loads] and the parsing of a string by [float()] are parameters
      ([PyBuiltins]); [datetime.now()] is an argument of the call.
    - Logging is left out, and [update_chart], which only reads the
      analyzer, is the identity on it.  Of what it draws, the figures it
      computes are modelled: the keywords shown, the ticks of the time axis
      and the rates.  The keyword counter is a finite map here, so the
      order in which [dict.items()] lists it is an argument of
      [top_keywords].
    - Of [main], one pass over the lines read from the file is modelled;
      the file, the clock and the sleep between two passes are not. *)

From Stdlib Require Import ZArith String Ascii List Lia SpecFloat.
From stdpp Require Import gmap strings list sorting.

Local Open Scope Z_scope.
#[local] Set Warnings "-register-all".

Abbreviation float := spec_float.

(** ** binary64 arithmetic *)

Module F64.

Definition prec : Z := 53.
Definition emax : Z := 1024.

Definition mul : float -> float -> float := SFmul prec emax.
Definition add : float -> float -> float := SFadd prec emax.
Definition div : float -> float -> float := SFdiv prec emax.
Definition ltb : float -> float -> bool := SFltb.
Definition leb : float -> float -> bool := SFleb.
Definition eqb : float -> float -> bool := SFeqb.

(** [a > b] is [b < a], as in the interpreter's rich comparison. *)
Definition gtb (a b : float) : bool := ltb b a.

(** The binary64 values: canonical mantissa and exponent in range. *)
Definition is_binary64 (f : float) : Prop := valid_binary prec emax f = true.

Definition is_nan (f : float) : bool :=
  match f with S754_nan => true | _ => false end.

(** Conversion of an integer, rounded to nearest even (exact below 2^53). *)
Definition of_Z (z : Z) : float := binary_normalize prec emax z 0 false.

(** The value of a decimal literal [n/d]: the correctly rounded quotient
    of two exactly representable integers. *)
Definition lit (n d : Z) : float := div (of_Z n) (of_Z d).

(** The literals of the source. *)
Definition c0_1 : float := Eval vm_compute in lit 1 10.   (* 0x1.999999999999ap-4 *)
Definition c0_2 : float := Eval vm_compute in lit 2 10.   (* 0x1.999999999999ap-3 *)
Definition c0_3 : float := Eval vm_compute in lit 3 10.   (* 0x1.3333333333333p-2 *)
Definition c0_7 : float := Eval vm_compute in lit 7 10.   (* 0x1.6666666666666p-1 *)
Definition c0_8 : float := Eval vm_compute in lit 8 10.   (* 0x1.999999999999ap-1 *)
Definition c1_0 : float := Eval vm_compute in lit 1 1.    (* 0x1p+0 *)
Definition cm0_1 : float := Eval vm_compute in SFopp (lit 1 10).  (* -0.1 *)

(** Values the specification names. *)
Definition c0_4 : float := Eval vm_compute in lit 4 10.
Definition c0_6 : float := Eval vm_compute in lit 6 10.   (* 0x1.3333333333333p-1 *)
Definition c0_9 : float := Eval vm_compute in lit 9 10.
Definition c2_0 : float := Eval vm_compute in lit 2 1.
Definition cm0_5 : float := Eval vm_compute in SFopp (lit 5 10).

Definition zero : float := S754_zero false.

(** Python's two-argument [min(a, b)] and [max(a, b)]: the first argument
    is kept unless the second compares strictly smaller (larger).  A NaN
    in first position is therefore returned as it is. *)
Definition py_min (a b : float) : float := if ltb b a then b else a.
Definition py_max (a b : float) : float := if gtb b a then b else a.

End F64.

(** ** Python numbers

    [calculate_gospel_score] returns the [int] 0 on an empty text and a
    [float] otherwise. *)

Inductive pynum :=
| PInt (z : Z)
| PFloat (f : float).

(** The float an [int] operand is converted to in mixed arithmetic and
    comparisons (exact for the only integer that occurs, 0). *)
Definition to_float (x : pynum) : float :=
  match x with
  | PInt z => F64.of_Z z
  | PFloat f => f
  end.

(** [x * f] for a float [f]. *)
Definition num_mul (x : pynum) (f : float) : float := F64.mul (to_float x) f.

(** [x > f] for a float [f]. *)
Definition num_gtb (x : pynum) (f : float) : bool := F64.gtb (to_float x) f.

(** ** Strings *)

Module PyStr.

(** [str.lower] on one code point below 256: A-Z, and the Latin-1
    capitals U+00C0..U+00DE except the multiplication sign U+00D7. *)
Definition lower_char (c : ascii) : ascii :=
  let n := nat_of_ascii c in
  if ((65 <=? n) && (n <=? 90))%nat then ascii_of_nat (n + 32)
  else if ((192 <=? n) && (n <=? 222) && negb (n =? 215))%nat then ascii_of_nat (n + 32)
  else c.

Fixpoint lower (s : string) : string :=
  match s with
  | EmptyString => EmptyString
  | String c t => String (lower_char c) (lower t)
  end.

(** [needle in hay]: [needle] occurs as a contiguous substring. *)
Fixpoint contains (hay needle : string) : bool :=
  String.prefix needle hay ||
  match hay with
  | EmptyString => false
  | String _ t => contains t needle
  end.

(** [not s] for a string. *)
Definition is_empty (s : string) : bool :=
  match s with EmptyString => true | _ => false end.

End PyStr.

(** ** Decoded JSON values

    What [json.loads] builds: [None], [bool], [int], [float], [str], [list]
    and [dict].  An object keeps its members in document order; a repeated
    key takes its last value, as in the [dict] the decoder builds. *)

Inductive json :=
| JNull
| JBool (b : bool)
| JInt (z : Z)
| JFloat (f : float)
| JStr (s : string)
| JArr (l : list json)
| JObj (members : list (string * json)).

(** [d.get(key, default)] *)
Definition dict_get (d : list (string * json)) (key : string) (default : json) : json :=
  fold_left (fun acc kv => if String.eqb (fst kv) key then snd kv else acc) d default.

(** Truth value of an object, as [not x] tests it. *)
Definition truthy (v : json) : bool :=
  match v with
  | JNull => false
  | JBool b => b
  | JInt z => negb (z =? 0)
  | JFloat (S754_zero _) => false
  | JFloat _ => true
  | JStr s => negb (PyStr.is_empty s)
  | JArr l => match l with [] => false | _ => true end
  | JObj d => match d with [] => false | _ => true end
  end.

(** ** Exceptions and the analyzer's methods as state transformers *)

Inductive exn :=
| JSONDecodeError
| AttributeError
| TypeError
| ValueError
| OverflowError.

Inductive outcome (A : Type) :=
| Returned (a : A)
| Raised (e : exn).
Arguments Returned {A} a.
Arguments Raised {A} e.

(** The built-in functions the consumer calls and this file does not
    define: [json.loads] and the parsing of a [str] by [float()]. *)
Class PyBuiltins := {
  json_loads : string -> outcome json;
  float_of_str : string -> option float
}.

(** ** Hashable keys

    Members of a [set] and keys of a [dict] are compared by [==] and hash:
    [True], [1] and [1.0] are one key.  A NaN is kept as one key here. *)

Inductive pykey :=
| KNone
| KInt (z : Z)
| KFloat (f : float)
| KStr (s : string).

Definition integral_value (f : float) : option Z :=
  match f with
  | S754_zero _ => Some 0
  | S754_finite s m e =>
      let v := if s then Z.neg m else Z.pos m in
      if 0 <=? e then Some (v * 2 ^ e)
      else if v mod 2 ^ (- e) =? 0 then Some (v / 2 ^ (- e)) else None
  | _ => None
  end.

(** [None] for the unhashable [list] and [dict]. *)
Definition hash_key (v : json) : option pykey :=
  match v with
  | JNull => Some KNone
  | JBool b => Some (KInt (if b then 1 else 0))
  | JInt z => Some (KInt z)
  | JFloat f => Some (match integral_value f with Some z => KInt z | None => KFloat f end)
  | JStr s => Some (KStr s)
  | JArr _ | JObj _ => None
  end.

#[global] Instance float_eq_dec : EqDecision float.
Proof. solve_decision. Defined.

#[global] Instance pykey_eq_dec : EqDecision pykey.
Proof. solve_decision. Defined.

Definition float_code (f : float) : bool + bool + unit + bool * positive * Z :=
  match f with
  | S754_zero s => inl (inl (inl s))
  | S754_infinity s => inl (inl (inr s))
  | S754_nan => inl (inr tt)
  | S754_finite s m e => inr (s, m, e)
  end.

Definition float_decode (c : bool + bool + unit + bool * positive * Z) : float :=
  match c with
  | inl (inl (inl s)) => S754_zero s
  | inl (inl (inr s)) => S754_infinity s
  | inl (inr _) => S754_nan
  | inr (s, m, e) => S754_finite s m e
  end.

#[global] Instance float_countable : Countable float.
Proof. apply (inj_countable' float_code float_decode). by intros []. Defined.

Definition pykey_code (k : pykey) : unit + Z + float + string :=
  match k with
  | KNone => inl (inl (inl tt))
  | KInt z => inl (inl (inr z))
  | KFloat f => inl (inr f)
  | KStr s => inr s
  end.

Definition pykey_decode (c : unit + Z + float + string) : pykey :=
  match c with
  | inl (inl (inl _)) => KNone
  | inl (inl (inr z)) => KInt z
  | inl (inr f) => KFloat f
  | inr s => KStr s
  end.

#[global] Instance pykey_countable : Countable pykey.
Proof. apply (inj_countable' pykey_code pykey_decode). by intros []. Defined.

(** [d[k] += 1] on a [defaultdict(int)] *)
Definition bump `{Countable K} (k : K) (d : gmap K Z) : gmap K Z :=
  <[k := default 0 (d !! k) + 1]> d.

(** [d[k]] read without insertion: the count of a key, 0 when absent. *)
Definition count_of `{Countable K} (d : gmap K Z) (k : K) : Z := default 0 (d !! k).

(** ** [collections.deque] with [maxlen]

    [append] adds on the right and, when the length then exceeds [maxlen],
    drops the leftmost item. *)

Record deque (A : Type) := mk_deque { maxlen : nat; items : list A }.
Arguments mk_deque {A} maxlen items.
Arguments maxlen {A} d.
Arguments items {A} d.

Definition deque_append {A} (d : deque A) (x : A) : deque A :=
  let l := items d ++ [x] in
  mk_deque (maxlen d) (if (maxlen d <? length l)%nat then tail l else l).

(** ** The analyzer *)

Definition timestamp := Z.

Record GospelAnalyzer := mkGospelAnalyzer {
  max_points : nat;
  timestamps : deque timestamp;
  gospel_scores : deque pynum;
  faith_impact : deque float;
  total_messages : Z;
  gospel_messages : Z;
  high_impact_messages : Z;
  keyword_counts : gmap string Z;
  authors_sharing_gospel : gset pykey;
  category_gospel_counts : gmap pykey Z;
  bold_witness_count : Z;
  evangelistic_opportunities : Z
}.

(** [self.gospel_keywords], in insertion order. *)
Definition gospel_keywords : list (string * list string) :=
  [ ("salvation", ["salvation"; "saved"; "born again"; "redeemed"; "forgiven"]);
    ("jesus", ["jesus"; "christ"; "lord"; "savior"; "messiah"; "god"]);
    ("faith", ["faith"; "believe"; "trust"; "christian"; "prayer"]);
    ("scripture", ["bible"; "scripture"; "word"; "psalm"; "verse"; "biblical"]);
    ("grace", ["grace"; "mercy"; "forgiveness"; "love"; "blessed"]);
    ("witness", ["testimony"; "witness"; "share"; "proclaim"; "preach"]);
    ("truth", ["truth"; "righteousness"; "holy"; "pure"; "righteous"]);
    ("eternity", ["heaven"; "eternal"; "soul"; "spirit"; "heavenly"]) ]%string.

(** [GospelAnalyzer.__init__] *)
Definition init (max_points : nat) : GospelAnalyzer :=
  {| max_points := max_points;
     timestamps := mk_deque max_points [];
     gospel_scores := mk_deque max_points [];
     faith_impact := mk_deque max_points [];
     total_messages := 0;
     gospel_messages := 0;
     high_impact_messages := 0;
     keyword_counts := ∅;
     authors_sharing_gospel := ∅;
     category_gospel_counts := ∅;
     bold_witness_count := 0;
     evangelistic_opportunities := 0 |}.

(** The module-level instance, [GospelAnalyzer()] with [max_points=100]. *)
Definition gospel_analyzer : GospelAnalyzer := init 100.

(** A computation over the analyzer that returns or raises; what it
    changed before raising stays changed. *)
Definition M (A : Type) : Type := GospelAnalyzer -> outcome A * GospelAnalyzer.

#[global] Instance M_ret : MRet M := fun A x self => (Returned x, self).

#[global] Instance M_bind : MBind M := fun A B k c self =>
  match c self with
  | (Returned x, self') => k x self'
  | (Raised e, self') => (Raised e, self')
  end.

Definition raise {A} (e : exn) : M A := fun self => (Raised e, self).

Definition lift {A} (o : outcome A) : M A := fun self => (o, self).

Definition update (f : GospelAnalyzer -> GospelAnalyzer) : M unit :=
  fun self => (Returned tt, f self).

Definition when (b : bool) (c : M unit) : M unit := if b then c else mret tt.

(** [try: body  except Exception: pass] (the handlers only log). *)
Definition try_except (body : M unit) : M unit := fun self =>
  match body self with
  | (Returned x, self') => (Returned x, self')
  | (Raised _, self') => (Returned tt, self')
  end.

(** ** [GospelAnalyzer.calculate_gospel_score] *)

(** The loop variables [total_keywords], [found_categories] and the
    analyzer's [keyword_counts], which the loop updates in place. *)
Record scan := mk_scan {
  total_keywords : Z;
  found_categories : Z;
  scan_counts : gmap string Z
}.

(** Body of the inner loop; the boolean is [category_found]. *)
Definition scan_keyword (message_lower : string) (st : scan * bool) (keyword : string)
  : scan * bool :=
  let '(s, category_found) := st in
  if PyStr.contains message_lower keyword then
    (mk_scan (total_keywords s + 1)
             (if category_found then found_categories s else found_categories s + 1)
             (bump keyword (scan_counts s)),
     true)
  else st.

(** Body of the outer loop: [category_found = False], then the keywords. *)
Definition scan_category (message_lower : string) (s : scan) (entry : string * list string)
  : scan :=
  fst (fold_left (scan_keyword message_lower) (snd entry) (s, false)).

Definition scan_taxonomy (message_lower : string) (counts : gmap string Z) : scan :=
  fold_left (scan_category message_lower) gospel_keywords (mk_scan 0 0 counts).

(** [min(total_keywords * 0.2, 1.0) + found_categories * 0.1], then
    [min(..., 1.0)]. *)
Definition score_formula (total found : Z) : float :=
  let base_score := F64.py_min (F64.mul (F64.of_Z total) F64.c0_2) F64.c1_0 in
  let diversity_bonus := F64.mul (F64.of_Z found) F64.c0_1 in
  F64.py_min (F64.add base_score diversity_bonus) F64.c1_0.

Definition calculate_gospel_score (message_text : json) : M pynum :=
  if negb (truthy message_text) then mret (PInt 0)
  else
    match message_text with
    | JStr text =>
        fun self =>
          let s := scan_taxonomy (PyStr.lower text) (keyword_counts self) in
          (Returned (PFloat (score_formula (total_keywords s) (found_categories s))),
           {| max_points := max_points self;
              timestamps := timestamps self;
              gospel_scores := gospel_scores self;
              faith_impact := faith_impact self;
              total_messages := total_messages self;
              gospel_messages := gospel_messages self;
              high_impact_messages := high_impact_messages self;
              keyword_counts := scan_counts s;
              authors_sharing_gospel := authors_sharing_gospel self;
              category_gospel_counts := category_gospel_counts self;
              bold_witness_count := bold_witness_count self;
              evangelistic_opportunities := evangelistic_opportunities self |})
    | _ => raise AttributeError   (* no [lower] on a non-string *)
    end.

(** ** [GospelAnalyzer.calculate_faith_impact] *)

Definition calculate_faith_impact (gospel_score : pynum) (sentiment : float) : M float :=
  mret (num_mul gospel_score (F64.py_max sentiment F64.c0_3)).

(** ** [GospelAnalyzer.is_evangelistic_opportunity] *)

Definition opportunity_phrases : list string :=
  [ "what is the point"; "feeling lost"; "need hope"; "struggling";
    "what happens when"; "life is hard"; "need help"; "depressed";
    "lonely"; "purpose"; "meaning"; "why am i here"; "amazing"; "boring" ]%string.

(** The [for] loop that returns [True] at the first phrase found. *)
Definition has_phrase (message : string) : bool :=
  existsb (PyStr.contains message) opportunity_phrases.

Section Methods.
Context `{PyBuiltins}.

(** The built-in [float(x)]. *)
Definition py_float (x : json) : outcome float :=
  match x with
  | JFloat f => Returned f
  | JInt z =>
      match F64.of_Z z with
      | S754_infinity _ => Raised OverflowError
      | f => Returned f
      end
  | JBool b => Returned (F64.of_Z (if b then 1 else 0))
  | JStr s =>
      match float_of_str s with
      | Some f => Returned f
      | None => Raised ValueError
      end
  | JNull | JArr _ | JObj _ => Raised TypeError
  end.

Definition is_evangelistic_opportunity (message_data : list (string * json)) : M bool :=
  match dict_get message_data "message" (JStr "") with
  | JStr text =>
      let message := PyStr.lower text in
      sentiment ← lift (py_float (dict_get message_data "sentiment" (JInt 0)));
      if has_phrase message then mret true
      else mret (F64.ltb sentiment F64.cm0_1 || F64.gtb sentiment F64.c0_8)
  | _ => raise AttributeError
  end.

(** ** [update_chart]

    The renderer only reads the analyzer: nothing is drawn below two
    buffered scores, and above that the figure and the dashboard are built
    from the fields collected here.  Every failure inside is caught and
    logged there. *)

Record chart_data := mk_chart_data {
  chart_timestamps : list timestamp;
  chart_scores : list pynum;
  chart_impacts : list float;
  chart_keyword_counts : gmap string Z;
  chart_total : Z;
  chart_gospel : Z;
  chart_bold : Z;
  chart_opportunities : Z;
  chart_sharers : nat
}.

Definition chart_inputs (self : GospelAnalyzer) : option chart_data :=
  if (length (items (gospel_scores self)) <? 2)%nat then None
  else Some (mk_chart_data
               (items (timestamps self)) (items (gospel_scores self))
               (items (faith_impact self)) (keyword_counts self)
               (total_messages self) (gospel_messages self)
               (bold_witness_count self) (evangelistic_opportunities self)
               (size (authors_sharing_gospel self))).

Definition update_chart : M unit := fun self => (Returned tt, self).

(** ** [process_message] *)

Definition append_series (now : timestamp) (score : pynum) (impact : float)
    (self : GospelAnalyzer) : GospelAnalyzer :=
  {| max_points := max_points self;
     timestamps := deque_append (timestamps self) now;
     gospel_scores := deque_append (gospel_scores self) score;
     faith_impact := deque_append (faith_impact self) impact;
     total_messages := total_messages self;
     gospel_messages := gospel_messages self;
     high_impact_messages := high_impact_messages self;
     keyword_counts := keyword_counts self;
     authors_sharing_gospel := authors_sharing_gospel self;
     category_gospel_counts := category_gospel_counts self;
     bold_witness_count := bold_witness_count self;
     evangelistic_opportunities := evangelistic_opportunities self |}.

Definition incr_total (self : GospelAnalyzer) : GospelAnalyzer :=
  {| max_points := max_points self;
     timestamps := timestamps self;
     gospel_scores := gospel_scores self;
     faith_impact := faith_impact self;
     total_messages := total_messages self + 1;
     gospel_messages := gospel_messages self;
     high_impact_messages := high_impact_messages self;
     keyword_counts := keyword_counts self;
     authors_sharing_gospel := authors_sharing_gospel self;
     category_gospel_counts := category_gospel_counts self;
     bold_witness_count := bold_witness_count self;
     evangelistic_opportunities := evangelistic_opportunities self |}.

Definition incr_gospel (self : GospelAnalyzer) : GospelAnalyzer :=
  {| max_points := max_points self;
     timestamps := timestamps self;
     gospel_scores := gospel_scores self;
     faith_impact := faith_impact self;
     total_messages := total_messages self;
     gospel_messages := gospel_messages self + 1;
     high_impact_messages := high_impact_messages self;
     keyword_counts := keyword_counts self;
     authors_sharing_gospel := authors_sharing_gospel self;
     category_gospel_counts := category_gospel_counts self;
     bold_witness_count := bold_witness_count self;
     evangelistic_opportunities := evangelistic_opportunities self |}.

Definition add_author (k : pykey) (self : GospelAnalyzer) : GospelAnalyzer :=
  {| max_points := max_points self;
     timestamps := timestamps self;
     gospel_scores := gospel_scores self;
     faith_impact := faith_impact self;
     total_messages := total_messages self;
     gospel_messages := gospel_messages self;
     high_impact_messages := high_impact_messages self;
     keyword_counts := keyword_counts self;
     authors_sharing_gospel := {[k]} ∪ authors_sharing_gospel self;
     category_gospel_counts := category_gospel_counts self;
     bold_witness_count := bold_witness_count self;
     evangelistic_opportunities := evangelistic_opportunities self |}.

Definition incr_category (k : pykey) (self : GospelAnalyzer) : GospelAnalyzer :=
  {| max_points := max_points self;
     timestamps := timestamps self;
     gospel_scores := gospel_scores self;
     faith_impact := faith_impact self;
     total_messages := total_messages self;
     gospel_messages := gospel_messages self;
     high_impact_messages := high_impact_messages self;
     keyword_counts := keyword_counts self;
     authors_sharing_gospel := authors_sharing_gospel self;
     category_gospel_counts := bump k (category_gospel_counts self);
     bold_witness_count := bold_witness_count self;
     evangelistic_opportunities := evangelistic_opportunities self |}.

Definition incr_bold (self : GospelAnalyzer) : GospelAnalyzer :=
  {| max_points := max_points self;
     timestamps := timestamps self;
     gospel_scores := gospel_scores self;
     faith_impact := faith_impact self;
     total_messages := total_messages self;
     gospel_messages := gospel_messages self;
     high_impact_messages := high_impact_messages self + 1;
     keyword_counts := keyword_counts self;
     authors_sharing_gospel := authors_sharing_gospel self;
     category_gospel_counts := category_gospel_counts self;
     bold_witness_count := bold_witness_count self + 1;
     evangelistic_opportunities := evangelistic_opportunities self |}.

Definition incr_opportunities (self : GospelAnalyzer) : GospelAnalyzer :=
  {| max_points := max_points self;
     timestamps := timestamps self;
     gospel_scores := gospel_scores self;
     faith_impact := faith_impact self;
     total_messages := total_messages self;
     gospel_messages := gospel_messages self;
     high_impact_messages := high_impact_messages self;
     keyword_counts := keyword_counts self;
     authors_sharing_gospel := authors_sharing_gospel self;
     category_gospel_counts := category_gospel_counts self;
     bold_witness_count := bold_witness_count self;
     evangelistic_opportunities := evangelistic_opportunities self + 1 |}.

(** [s.add(x)] and [d[x] += 1] raise [TypeError] on an unhashable [x]. *)
Definition with_key (v : json) (f : pykey -> GospelAnalyzer -> GospelAnalyzer) : M unit :=
  match hash_key v with
  | Some k => update (f k)
  | None => raise TypeError
  end.

(** The branch taken when the decoded line is a [dict]; [now] is the
    value [datetime.now()] returns during the call. *)
Definition process_dict (now : timestamp) (message_dict : list (string * json)) : M unit :=
  let message_text := dict_get message_dict "message" (JStr "") in
  let author := dict_get message_dict "author" (JStr "Unknown") in
  sentiment ← lift (py_float (dict_get message_dict "sentiment" (JInt 0)));
  let category := dict_get message_dict "category" (JStr "other") in
  gospel_score ← calculate_gospel_score message_text;
  impact ← calculate_faith_impact gospel_score sentiment;
  update (append_series now gospel_score impact);;
  update incr_total;;
  when (num_gtb gospel_score F64.c0_3)
    (update incr_gospel;;
     with_key author add_author;;
     with_key category incr_category);;
  when (F64.gtb impact F64.c0_7) (update incr_bold);;
  opportunity ← is_evangelistic_opportunity message_dict;
  when opportunity (update incr_opportunities);;
  update_chart.

(** The [try] block on an already decoded line. *)
Definition process_decoded (now : timestamp) (decoded : outcome json) : M unit :=
  try_except
    (message_dict ← lift decoded;
     match message_dict with
     | JObj d => process_dict now d
     | _ => mret tt   (* logged: expected a dictionary *)
     end).

Definition process_message (now : timestamp) (message : string) : M unit :=
  process_decoded now (json_loads message).

End Methods.

(** ** Specification-level notions *)

(** The keywords of the taxonomy, all categories together. *)
Definition all_keywords : list string := concat (map snd gospel_keywords).

(** [k]: how many keywords of the taxonomy occur in the lower-cased text. *)
Definition keyword_hits (text : string) : Z :=
  Z.of_nat (length (List.filter (PyStr.contains (PyStr.lower text)) all_keywords)).

(** [c]: how many categories have at least one keyword in the text. *)
Definition category_hits (text : string) : Z :=
  Z.of_nat (length (List.filter
                      (fun entry => existsb (PyStr.contains (PyStr.lower text)) (snd entry))
                      gospel_keywords)).

(** The last [n] items of a list. *)
Definition lastn {A} (n : nat) (l : list A) : list A := drop (length l - n) l.

(** The cumulative part of the state only grows. *)
Record grows (self self' : GospelAnalyzer) : Prop := mk_grows {
  grows_total : total_messages self <= total_messages self';
  grows_gospel : gospel_messages self <= gospel_messages self';
  grows_bold : bold_witness_count self <= bold_witness_count self';
  grows_opportunities : evangelistic_opportunities self <= evangelistic_opportunities self';
  grows_keywords : forall k, count_of (keyword_counts self) k <= count_of (keyword_counts self') k;
  grows_categories : forall k,
      count_of (category_gospel_counts self) k <= count_of (category_gospel_counts self') k;
  grows_authors : authors_sharing_gospel self ⊆ authors_sharing_gospel self'
}.

(** The three rolling buffers have one capacity, [max_points], one length,
    and never hold more than the capacity. *)
Record buffers_ok (self : GospelAnalyzer) : Prop := mk_buffers_ok {
  ok_maxlen_t : maxlen (timestamps self) = max_points self;
  ok_maxlen_s : maxlen (gospel_scores self) = max_points self;
  ok_maxlen_i : maxlen (faith_impact self) = max_points self;
  ok_len_s : length (items (gospel_scores self)) = length (items (timestamps self));
  ok_len_i : length (items (faith_impact self)) = length (items (timestamps self));
  ok_bound : (length (items (timestamps self)) <= max_points self)%nat
}.

(** A computation relates every state it starts from to the state it
    leaves, whether it returns or raises. *)
Definition relates {A} (R : GospelAnalyzer -> GospelAnalyzer -> Prop) (c : M A) : Prop :=
  forall self, R self (snd (c self)).

(** The same two counts over any list of keywords and any taxonomy. *)
Definition hit_count (m : string) (kws : list string) : Z :=
  Z.of_nat (length (List.filter (PyStr.contains m) kws)).

(** How many of the keywords of [kws] found in [m] are [k]. *)
Definition found_times (m k : string) (kws : list string) : Z :=
  Z.of_nat (length (List.filter (fun kw => String.eqb kw k && PyStr.contains m kw) kws)).

Definition category_count (m : string) (cats : list (string * list string)) : Z :=
  Z.of_nat (length (List.filter (fun entry => existsb (PyStr.contains m) (snd entry)) cats)).

(** ** Valid records *)

(** The score as a function of the text alone, in the words of the
    specification; [calculate_gospel_score_text] below shows that it is
    what [calculate_gospel_score] returns. *)
Definition score_value (text : string) : pynum :=
  if PyStr.is_empty text then PInt 0
  else PFloat (score_formula (keyword_hits text) (category_hits text)).

Definition impact_value (text : string) (sentiment : float) : float :=
  num_mul (score_value text) (F64.py_max sentiment F64.c0_3).

Definition opportunity_value (text : string) (sentiment : float) : bool :=
  has_phrase (PyStr.lower text) ||
  (F64.ltb sentiment F64.cm0_1 || F64.gtb sentiment F64.c0_8).

(** The fields of a record of the data model: three texts and a number. *)
Record fields := mk_fields {
  f_text : string;
  f_author : string;
  f_category : string;
  f_sentiment : float
}.

Section ValidRecords.
Context `{PyBuiltins}.

(** A dictionary is a valid record when [message], [author] and [category]
    are absent or texts and [sentiment] is absent or converts to a float. *)
Definition dict_fields (d : list (string * json)) : option fields :=
  match dict_get d "message" (JStr ""), dict_get d "author" (JStr "Unknown"),
        dict_get d "category" (JStr "other"),
        py_float (dict_get d "sentiment" (JInt 0)) with
  | JStr text, JStr author, JStr category, Returned v =>
      Some (mk_fields text author category v)
  | _, _, _, _ => None
  end.

(** A line is a valid record when it decodes to such a dictionary. *)
Definition line_fields (line : string) : option fields :=
  match json_loads line with
  | Returned (JObj d) => dict_fields d
  | _ => None
  end.

(** The analyzer after a valid record, step by step as [process_message]
    goes. *)
Definition after_valid (now : timestamp) (f : fields) (self : GospelAnalyzer)
  : GospelAnalyzer :=
  let score := score_value (f_text f) in
  let impact := impact_value (f_text f) (f_sentiment f) in
  let a0 := snd (calculate_gospel_score (JStr (f_text f)) self) in
  let a1 := incr_total (append_series now score impact a0) in
  let a2 := if num_gtb score F64.c0_3
            then incr_category (KStr (f_category f))
                   (add_author (KStr (f_author f)) (incr_gospel a1))
            else a1 in
  let a3 := if F64.gtb impact F64.c0_7 then incr_bold a2 else a2 in
  if opportunity_value (f_text f) (f_sentiment f) then incr_opportunities a3 else a3.

(** Processing one line after another, each with the clock value read
    during its call. *)
Definition run (calls : list (timestamp * string)) (self : GospelAnalyzer) : GospelAnalyzer :=
  fold_left (fun a call => snd (process_message (fst call) (snd call) a)) calls self.

(** The three kinds of line the consumer rejects: [json.loads] raises; it
    returns a value that is no object; or [float()] raises on the
    sentiment.  The first kind is narrower than "not valid JSON": the
    decoder accepts the literals [NaN], [Infinity] and [-Infinity], which
    no JSON text contains (see [Rfc8259] below). *)
Definition rejected (line : string) : Prop :=
  (exists e, json_loads line = Raised e) \/
  (exists v, json_loads line = Returned v /\ forall d, v <> JObj d) \/
  (exists d e, json_loads line = Returned (JObj d) /\
               py_float (dict_get d "sentiment" (JInt 0)) = Raised e).

End ValidRecords.

(** ** Notions used to follow the rounding of a product

    The exponent a right shift settles on, and the float built from the
    mantissa and exponent left after the second shift. *)
Definition shift_exp (m e : Z) : Z :=
  e + Z.max (fexp F64.prec F64.emax (Zdigits2 m + e) - e) 0.

Definition round_result (s : bool) (m e : Z) : float :=
  match m with
  | Z0 => S754_zero s
  | Zpos p => if e <=? F64.emax - F64.prec then S754_finite s p e else S754_infinity s
  | Zneg _ => S754_nan
  end.

(** ** The values a score can take *)

(** Zero, or a normal number between 0.0625 and 1: a mantissa of 53 digits
    with an exponent from -56 to -53, or exactly [1.0]. *)
Definition unit_score (f : float) : bool :=
  match f with
  | S754_zero false => true
  | S754_finite false m e =>
      (2 ^ 52 <=? Z.pos m) && (Z.pos m <? 2 ^ 53) && (-56 <=? e) &&
      ((e <? -52) || ((e =? -52) && (Z.pos m =? 2 ^ 52)))
  | _ => false
  end.

Definition score_check (k c : Z) : bool :=
  unit_score (score_formula k c) &&
  F64.leb F64.zero (score_formula k c) && F64.leb (score_formula k c) F64.c1_0.

(** Every count of keywords and of categories the taxonomy allows. *)
Definition score_grid : list (Z * Z) :=
  k ← seqZ 0 43; c ← seqZ 0 9; [(k, c)].

(** ** Sample lines

    A line is written with [dq] for the double quote.  [sample_builtins]
    decodes the sample lines as CPython's [json.loads] does and reports any
    other line as undecodable; it converts no string to a float, which is
    what [float()] does with the only string tried here, "high". *)

Definition dq : string := String (ascii_of_nat 34) EmptyString.

(** A line with the four fields of the data model. *)
Definition line_faith : string :=
  ("{" ++ dq ++ "message" ++ dq ++ ": " ++ dq ++ "Jesus gives faith" ++ dq ++ ", "
   ++ dq ++ "author" ++ dq ++ ": " ++ dq ++ "Ann" ++ dq ++ ", "
   ++ dq ++ "sentiment" ++ dq ++ ": 0.9, "
   ++ dq ++ "category" ++ dq ++ ": " ++ dq ++ "humor" ++ dq ++ "}")%string.

Definition dict_faith : list (string * json) :=
  [ ("message", JStr "Jesus gives faith"); ("author", JStr "Ann");
    ("sentiment", JFloat F64.c0_9); ("category", JStr "humor") ]%string.

(** A line whose text scores 1.0 and whose sentiment is 2.0. *)
Definition line_bold : string :=
  ("{" ++ dq ++ "message" ++ dq ++ ": " ++ dq ++ "Jesus Christ is Lord, Savior and God" ++ dq
   ++ ", " ++ dq ++ "sentiment" ++ dq ++ ": 2.0}")%string.

Definition dict_bold : list (string * json) :=
  [ ("message", JStr "Jesus Christ is Lord, Savior and God");
    ("sentiment", JFloat F64.c2_0) ]%string.

(** The empty object: every field takes its default. *)
Definition line_empty : string := "{}".

(** A line whose sentiment does not convert. *)
Definition line_high : string :=
  ("{" ++ dq ++ "message" ++ dq ++ ": " ++ dq ++ "hello" ++ dq ++ ", "
   ++ dq ++ "sentiment" ++ dq ++ ": " ++ dq ++ "high" ++ dq ++ "}")%string.

Definition dict_high : list (string * json) :=
  [ ("message", JStr "hello"); ("sentiment", JStr "high") ]%string.

(** A line whose sentiment is the literal [NaN], which [json.loads]
    accepts. *)
Definition line_nan : string :=
  ("{" ++ dq ++ "message" ++ dq ++ ": " ++ dq ++ "jesus" ++ dq ++ ", "
   ++ dq ++ "sentiment" ++ dq ++ ": NaN}")%string.

Definition dict_nan : list (string * json) :=
  [ ("message", JStr "jesus"); ("sentiment", JFloat S754_nan) ]%string.

(** A JSON value that is no object, and a line that is no JSON. *)
Definition line_array : string := "[1, 2]".
Definition line_garbage : string := "not json".

Definition sample_loads (line : string) : outcome json :=
  if String.eqb line line_faith then Returned (JObj dict_faith)
  else if String.eqb line line_bold then Returned (JObj dict_bold)
  else if String.eqb line line_empty then Returned (JObj [])
  else if String.eqb line line_high then Returned (JObj dict_high)
  else if String.eqb line line_nan then Returned (JObj dict_nan)
  else if String.eqb line line_array then Returned (JArr [JInt 1; JInt 2])
  else Raised JSONDecodeError.

Definition sample_builtins : PyBuiltins :=
  {| json_loads := sample_loads; float_of_str := fun _ => None |}.

Definition fields_faith : fields := mk_fields "Jesus gives faith" "Ann" "humor" F64.c0_9.
Definition fields_bold : fields :=
  mk_fields "Jesus Christ is Lord, Savior and God" "Unknown" "other" F64.c2_0.
Definition fields_empty : fields := mk_fields "" "Unknown" "other" F64.zero.

Definition sample_calls : list (timestamp * string) :=
  [(1, line_faith); (2, line_empty); (3, line_bold)].

Definition sample_fields : list fields := [fields_faith; fields_empty; fields_bold].

(** The score of "jesus", 0.2 + 0.1 in binary64 (0.30000000000000004). *)
Definition score_jesus : float := S754_finite false 0x13333333333334 (-54).

(** With a keyword and a category found, the score is above 0.3. *)
Definition gospel_check (k c : Z) : bool :=
  (k =? 0) || (c =? 0) || F64.gtb (score_formula k c) F64.c0_3.

(** Two more lines: a message that is [null], and a list of authors. *)
Definition line_null : string :=
  ("{" ++ dq ++ "message" ++ dq ++ ": null, "
   ++ dq ++ "sentiment" ++ dq ++ ": 0.9}")%string.

Definition dict_null : list (string * json) :=
  [ ("message", JNull); ("sentiment", JFloat F64.c0_9) ]%string.

Definition line_coauthors : string :=
  ("{" ++ dq ++ "message" ++ dq ++ ": " ++ dq ++ "Jesus saves" ++ dq ++ ", "
   ++ dq ++ "author" ++ dq ++ ": [" ++ dq ++ "Ann" ++ dq ++ ", " ++ dq ++ "Bob" ++ dq ++ "]}")%string.

Definition dict_coauthors : list (string * json) :=
  [ ("message", JStr "Jesus saves"); ("author", JArr [JStr "Ann"; JStr "Bob"]) ]%string.

Definition edge_loads (line : string) : outcome json :=
  if String.eqb line line_null then Returned (JObj dict_null)
  else if String.eqb line line_coauthors then Returned (JObj dict_coauthors)
  else Raised JSONDecodeError.

Definition edge_builtins : PyBuiltins :=
  {| json_loads := edge_loads; float_of_str := fun _ => None |}.

(** ** Which lines are counted, and the counters' bookkeeping *)

(** The statements of [process_message] after [total_messages += 1]: the
    three conditional updates and the call of [update_chart]. *)
Definition record_counters `{PyBuiltins} (message_dict : list (string * json))
    (author category : json) (gospel_score : pynum) (impact : float) : M unit :=
  when (num_gtb gospel_score F64.c0_3)
    (update incr_gospel;;
     with_key author add_author;;
     with_key category incr_category);;
  when (F64.gtb impact F64.c0_7) (update incr_bold);;
  opportunity ← is_evangelistic_opportunity message_dict;
  when opportunity (update incr_opportunities);;
  update_chart.

(** A message [calculate_gospel_score] does not fail on: a text, or a
    value that tests false. *)
Definition message_accepted (v : json) : bool :=
  match v with
  | JStr _ => true
  | _ => negb (truthy v)
  end.

(** A dictionary that gets as far as [total_messages += 1]. *)
Definition dict_counted `{PyBuiltins} (d : list (string * json)) : bool :=
  match py_float (dict_get d "sentiment" (JInt 0)) with
  | Returned _ => message_accepted (dict_get d "message" (JStr ""))
  | Raised _ => false
  end.

Definition counted `{PyBuiltins} (line : string) : bool :=
  match json_loads line with
  | Returned (JObj d) => dict_counted d
  | _ => false
  end.

(** The counters agree with one another. *)
Record counters_ok (a : GospelAnalyzer) : Prop := mk_counters_ok {
  ck_gospel : 0 <= gospel_messages a <= total_messages a;
  ck_bold : 0 <= bold_witness_count a <= gospel_messages a;
  ck_high : high_impact_messages a = bold_witness_count a;
  ck_opportunities : 0 <= evangelistic_opportunities a <= total_messages a;
  ck_authors : Z.of_nat (size (authors_sharing_gospel a)) <= gospel_messages a;
  ck_categories : forall k,
      0 <= count_of (category_gospel_counts a) k <= gospel_messages a;
  ck_keywords : forall k, 0 <= count_of (keyword_counts a) k <= total_messages a
}.

(** ** JSON texts, in the words of RFC 8259

    The grammar that "valid JSON" refers to, as a recogniser of texts over
    the code points below 256.  [json.loads] accepts every such text, and
    besides them the literals [NaN], [Infinity] and [-Infinity]. *)

Module Rfc8259.

Definition quotation_mark : ascii := ascii_of_nat 34.

(** ws = *( %x20 / %x09 / %x0A / %x0D ) *)
Definition is_ws (c : ascii) : bool :=
  let n := nat_of_ascii c in ((n =? 32) || (n =? 9) || (n =? 10) || (n =? 13))%nat.

Fixpoint skip_ws (s : string) : string :=
  match s with
  | String c t => if is_ws c then skip_ws t else s
  | EmptyString => s
  end.

Definition is_digit (c : ascii) : bool :=
  let n := nat_of_ascii c in ((48 <=? n) && (n <=? 57))%nat.

Definition is_hexdig (c : ascii) : bool :=
  let n := nat_of_ascii c in
  (is_digit c || (65 <=? n) && (n <=? 70) || (97 <=? n) && (n <=? 102))%nat.

Fixpoint skip_digits (s : string) : string :=
  match s with
  | String c t => if is_digit c then skip_digits t else s
  | EmptyString => s
  end.

(** 1*DIGIT *)
Definition digits (s : string) : option string :=
  match s with
  | String c t => if is_digit c then Some (skip_digits t) else None
  | EmptyString => None
  end.

(** int = zero / ( digit1-9 *DIGIT ) *)
Definition int (s : string) : option string :=
  match s with
  | String c t => if Ascii.eqb c "0" then Some t else digits s
  | EmptyString => None
  end.

(** frac = decimal-point 1*DIGIT, if there is one *)
Definition opt_frac (s : string) : option string :=
  match s with
  | String c t => if Ascii.eqb c "." then digits t else Some s
  | EmptyString => Some s
  end.

(** exp = e [ minus / plus ] 1*DIGIT, if there is one *)
Definition opt_exp (s : string) : option string :=
  match s with
  | String c t =>
      if Ascii.eqb c "e" || Ascii.eqb c "E"
      then match t with
           | String c' t' => if Ascii.eqb c' "-" || Ascii.eqb c' "+" then digits t' else digits t
           | EmptyString => None
           end
      else Some s
  | EmptyString => Some s
  end.

(** number = [ minus ] int [ frac ] [ exp ] *)
Definition number (s : string) : option string :=
  let s' := match s with
            | String c t => if Ascii.eqb c "-" then t else s
            | EmptyString => s
            end in
  match int s' with
  | Some r => match opt_frac r with Some r' => opt_exp r' | None => None end
  | None => None
  end.

Definition is_escape (c : ascii) : bool :=
  Ascii.eqb c quotation_mark || Ascii.eqb c "\" || Ascii.eqb c "/" || Ascii.eqb c "b" ||
  Ascii.eqb c "f" || Ascii.eqb c "n" || Ascii.eqb c "r" || Ascii.eqb c "t".

(** *char quotation-mark, after the opening quotation mark:
    char = unescaped / escape ( one of eight characters / u 4HEXDIG ) *)
Fixpoint chars (s : string) : option string :=
  match s with
  | EmptyString => None
  | String c t =>
      if Ascii.eqb c quotation_mark then Some t
      else if Ascii.eqb c "\" then
        match t with
        | String e t' =>
            if is_escape e then chars t'
            else if Ascii.eqb e "u" then
              match t' with
              | String h1 (String h2 (String h3 (String h4 t''))) =>
                  if is_hexdig h1 && is_hexdig h2 && is_hexdig h3 && is_hexdig h4
                  then chars t'' else None
              | _ => None
              end
            else None
        | EmptyString => None
        end
      else if (32 <=? nat_of_ascii c)%nat then chars t
      else None
  end.

(** A literal name: [true], [false] or [null]. *)
Fixpoint literal (name s : string) : option string :=
  match name with
  | EmptyString => Some s
  | String a name' =>
      match s with
      | String b s' => if Ascii.eqb a b then literal name' s' else None
      | EmptyString => None
      end
  end.

(** The three productions that refer to one another: a value; the values
    of an array up to its closing bracket; the members of an object up to
    its closing brace. *)
Inductive production := Value | Elements | Members.

(** What is left of the text after the production, if the text starts
    with one; every call takes one unit of [fuel]. *)
Fixpoint parse (fuel : nat) (p : production) (s : string) : option string :=
  match fuel with
  | O => None
  | S n =>
      match p with
      | Value =>
          match s with
          | String c t =>
              if Ascii.eqb c "{" then
                match skip_ws t with
                | String c' t' =>
                    if Ascii.eqb c' "}" then Some t' else parse n Members (skip_ws t)
                | EmptyString => None
                end
              else if Ascii.eqb c "[" then
                match skip_ws t with
                | String c' t' =>
                    if Ascii.eqb c' "]" then Some t' else parse n Elements (skip_ws t)
                | EmptyString => None
                end
              else if Ascii.eqb c quotation_mark then chars t
              else
                match literal "true" s, literal "false" s, literal "null" s with
                | Some r, _, _ | None, Some r, _ | None, None, Some r => Some r
                | None, None, None => number s
                end
          | EmptyString => None
          end
      | Elements =>
          match parse n Value s with
          | Some r =>
              match skip_ws r with
              | String c t =>
                  if Ascii.eqb c "," then parse n Elements (skip_ws t)
                  else if Ascii.eqb c "]" then Some t
                  else None
              | EmptyString => None
              end
          | None => None
          end
      | Members =>
          match s with
          | String c t =>
              if Ascii.eqb c quotation_mark then
                match chars t with
                | Some r =>
                    match skip_ws r with
                    | String c1 t1 =>
                        if Ascii.eqb c1 ":" then
                          match parse n Value (skip_ws t1) with
                          | Some r2 =>
                              match skip_ws r2 with
                              | String c2 t2 =>
                                  if Ascii.eqb c2 "," then parse n Members (skip_ws t2)
                                  else if Ascii.eqb c2 "}" then Some t2
                                  else None
                              | EmptyString => None
                              end
                          | None => None
                          end
                        else None
                    | EmptyString => None
                    end
                | None => None
                end
              else None
          | EmptyString => None
          end
      end
  end.

(** JSON-text = ws value ws, recognised within [fuel] calls. *)
Definition accepts (fuel : nat) (text : string) : bool :=
  match parse fuel Value (skip_ws text) with
  | Some r => PyStr.is_empty (skip_ws r)
  | None => false
  end.

Definition valid_json (text : string) : Prop := exists fuel, accepts fuel text = true.

End Rfc8259.

(** ** [main]: one pass over the lines appended to the data file *)

Module PyStrip.

(** [str.isspace] on one code point below 256. *)
Definition is_space (c : ascii) : bool :=
  let n := nat_of_ascii c in
  ((9 <=? n) && (n <=? 13) || (28 <=? n) && (n <=? 32) || (n =? 133) || (n =? 160))%nat.

Fixpoint lstrip (s : string) : string :=
  match s with
  | EmptyString => EmptyString
  | String c t => if is_space c then lstrip t else s
  end.

Fixpoint rstrip (s : string) : string :=
  match s with
  | EmptyString => EmptyString
  | String c t =>
      match rstrip t with
      | EmptyString => if is_space c then EmptyString else String c EmptyString
      | r => String c r
      end
  end.

(** [s.strip()] *)
Definition strip (s : string) : string := rstrip (lstrip s).

(** [s.isspace() or not s] *)
Fixpoint blank (s : string) : bool :=
  match s with
  | EmptyString => true
  | String c t => is_space c && blank t
  end.

End PyStrip.

Section Main.
Context `{PyBuiltins}.

(** The body of [for line in file]; [now] is the clock reading the call of
    [process_message] would take. *)
Definition read_line (now : timestamp) (line : string) : M unit :=
  let line := PyStrip.strip line in
  when (negb (PyStr.is_empty line)) (process_message now line).

(** [for line in file: ...] over the lines after [last_position]. *)
Fixpoint read_lines (lines : list (timestamp * string)) : M unit :=
  match lines with
  | [] => mret tt
  | call :: rest => read_line (fst call) (snd call);; read_lines rest
  end.

(** One turn of [while True]: the inner [try] of [main]. *)
Definition poll (lines : list (timestamp * string)) : M unit :=
  try_except (read_lines lines).

End Main.

(** The records one pass hands to [process_message]. *)
Definition new_records (lines : list (timestamp * string)) : list (timestamp * string) :=
  List.filter (fun call => negb (PyStr.is_empty (snd call)))
    (map (fun call => (fst call, PyStrip.strip (snd call))) lines).

(** ** [update_chart]: the keywords shown *)

(** [sorted(items, key=lambda x: x[1], reverse=True)]: a stable sort, the
    larger counts first. *)
Fixpoint insert_desc (x : string * Z) (l : list (string * Z)) : list (string * Z) :=
  match l with
  | [] => [x]
  | y :: l' => if snd x <? snd y then y :: insert_desc x l' else x :: l
  end.

Definition sorted_desc (items : list (string * Z)) : list (string * Z) :=
  foldr insert_desc [] items.

(** [sorted(...)[:8]] *)
Definition top_keywords (items : list (string * Z)) : list (string * Z) :=
  take 8 (sorted_desc items).

(** ** [update_chart]: the ticks of the time axis *)

(** [l[::step]] for [step >= 1]: the items at the indices 0, [step],
    2 * [step], ...; [skip] counts the items to pass over before the next
    one is taken. *)
Fixpoint every {A} (step skip : nat) (l : list A) : list A :=
  match l with
  | [] => []
  | x :: l' =>
      match skip with
      | O => x :: every step (step - 1) l'
      | S skip' => every step skip' l'
      end
  end.

(** [timestamps[::max(1, len(timestamps)//5)]], set as ticks when more
    than ten times are buffered. *)
Definition xticks (timestamps : list timestamp) : option (list timestamp) :=
  if (10 <? length timestamps)%nat
  then Some (every (Nat.max 1 (length timestamps / 5)) 0 timestamps)
  else None.

(** ** The rates of the chart and of the dashboard *)

(** An [int] as an operand of [/]: exact, whatever its size. *)
Definition int_operand (z : Z) : float :=
  match z with
  | Z0 => S754_zero false
  | Zpos p => S754_finite false p 0
  | Zneg p => S754_finite true p 0
  end.

(** What [a / b] does for two ints: the correctly rounded quotient, or one
    of two errors. *)
Inductive quotient :=
| Quotient (q : float)
| ZeroDivisionError
| QuotientTooLarge.   (* OverflowError: integer division result too large *)

Definition int_truediv (a b : Z) : quotient :=
  if b =? 0 then ZeroDivisionError
  else match F64.div (int_operand a) (int_operand b) with
       | S754_infinity _ => QuotientTooLarge
       | q => Quotient q
       end.

(** The float [100] is converted to in [... * 100]. *)
Definition hundred : float := Eval vm_compute in F64.of_Z 100.

(** [(count / total) * 100] *)
Definition percentage (count total : Z) : quotient :=
  match int_truediv count total with
  | Quotient q => Quotient (F64.mul q hundred)
  | e => e
  end.

(** [gospel_rate], [witness_rate] and [opportunity_rate] of the fourth
    chart.  [None]: [update_chart] returned early, fewer than two scores
    being buffered, and reached no rate.  [Some None]: it went on, and the
    test [total_messages > 0] failed.  [Some (Some _)]: the three rates. *)
Definition chart_rates (self : GospelAnalyzer)
  : option (option (quotient * quotient * quotient)) :=
  match chart_inputs self with
  | None => None
  | Some d =>
      Some (if 0 <? chart_total d
            then Some (percentage (chart_gospel d) (chart_total d),
                       percentage (chart_bold d) (chart_total d),
                       percentage (chart_opportunities d) (chart_total d))
            else None)
  end.

(** [gospel_rate] of [create_dashboard], over [max(total_messages, 1)],
    whenever [create_dashboard] is called. *)
Definition dashboard_rate (self : GospelAnalyzer) : quotient :=
  percentage (gospel_messages self) (Z.max (total_messages self) 1).

(** A rate between 0 and 100. *)
Definition is_rate (q : quotient) : Prop :=
  exists r, q = Quotient r /\
            F64.leb F64.zero r = true /\ F64.leb r hundred = true.

(** ** The literals, bit for bit *)

Lemma literal_bits :
  F64.c0_1 = S754_finite false 0x1999999999999a (-56) /\
  F64.c0_2 = S754_finite false 0x1999999999999a (-55) /\
  F64.c0_3 = S754_finite false 0x13333333333333 (-54) /\
  F64.c0_7 = S754_finite false 0x16666666666666 (-53) /\
  F64.c0_8 = S754_finite false 0x1999999999999a (-53) /\
  F64.c1_0 = S754_finite false 0x10000000000000 (-52) /\
  F64.cm0_1 = S754_finite true 0x1999999999999a (-56) /\
  F64.c0_6 = S754_finite false 0x13333333333333 (-53) /\
  F64.add F64.c0_4 F64.c0_2 = S754_finite false 0x13333333333334 (-53).
Proof. vm_compute. repeat split; reflexivity. Qed.

(** ** Generic facts about the state transformers *)

Section Relates.
Variable R : GospelAnalyzer -> GospelAnalyzer -> Prop.
Hypothesis R_refl : forall a, R a a.
Hypothesis R_trans : forall a b c, R a b -> R b c -> R a c.

Lemma relates_ret {A} (x : A) : relates R (mret x).
Proof. intros self. apply R_refl. Qed.

Lemma relates_raise {A} (e : exn) : relates R (@raise A e).
Proof. intros self. apply R_refl. Qed.

Lemma relates_lift {A} (o : outcome A) : relates R (lift o).
Proof. intros self. apply R_refl. Qed.

Lemma relates_update (f : GospelAnalyzer -> GospelAnalyzer) :
  (forall self, R self (f self)) -> relates R (update f).
Proof. intros Hf self. apply Hf. Qed.

Lemma relates_bind {A B} (c : M A) (k : A -> M B) :
  relates R c -> (forall x, relates R (k x)) -> relates R (c ≫= k).
Proof.
  intros Hc Hk self. unfold mbind, M_bind.
  specialize (Hc self). destruct (c self) as [[x|e] self']; simpl in *.
  - eapply R_trans; [exact Hc | apply Hk].
  - exact Hc.
Qed.

Lemma relates_when (b : bool) (c : M unit) : relates R c -> relates R (when b c).
Proof. destruct b; simpl; [done | intros _; apply relates_ret]. Qed.

Lemma relates_try_except (c : M unit) : relates R c -> relates R (try_except c).
Proof.
  intros Hc self. unfold try_except. specialize (Hc self).
  destruct (c self) as [[x|e] self']; exact Hc.
Qed.

End Relates.

(** ** The keyword scan *)

Lemma hit_count_cons m kw kws :
  hit_count m (kw :: kws) = (if PyStr.contains m kw then 1 else 0) + hit_count m kws.
Proof.
  unfold hit_count. simpl. destruct (PyStr.contains m kw); simpl length; lia.
Qed.

Lemma hit_count_app m l1 l2 : hit_count m (l1 ++ l2) = hit_count m l1 + hit_count m l2.
Proof.
  unfold hit_count. rewrite List.filter_app, length_app. lia.
Qed.

Lemma hit_count_bounds m kws : 0 <= hit_count m kws <= Z.of_nat (length kws).
Proof.
  unfold hit_count. split; [lia |].
  apply inj_le. induction kws as [|kw kws IH]; simpl; [lia |].
  destruct (PyStr.contains m kw); simpl; lia.
Qed.

Lemma count_of_bump `{Countable K} (k k' : K) (d : gmap K Z) :
  count_of (bump k d) k' = count_of d k' + (if decide (k = k') then 1 else 0).
Proof.
  unfold count_of, bump. destruct (decide (k = k')) as [->|Hne].
  - rewrite lookup_insert_eq. simpl. reflexivity.
  - rewrite lookup_insert_ne by done. lia.
Qed.

Lemma scan_keyword_found m s b kw :
  PyStr.contains m kw = true ->
  scan_keyword m (s, b) kw =
    (mk_scan (total_keywords s + 1) (if b then found_categories s else found_categories s + 1)
       (bump kw (scan_counts s)), true).
Proof. intros Hkw. unfold scan_keyword. by rewrite Hkw. Qed.

Lemma scan_keyword_absent m st kw :
  PyStr.contains m kw = false -> scan_keyword m st kw = st.
Proof. intros Hkw. unfold scan_keyword. destruct st. by rewrite Hkw. Qed.

(** The inner loop, summarised: the total grows by the number of keywords
    found, the category counts once, counts never shrink. *)
Lemma scan_keywords_spec m kws s b :
  let r := fold_left (scan_keyword m) kws (s, b) in
  total_keywords (fst r) = total_keywords s + hit_count m kws /\
  found_categories (fst r) =
    found_categories s + (if b then 0 else if existsb (PyStr.contains m) kws then 1 else 0) /\
  snd r = b || existsb (PyStr.contains m) kws /\
  (forall k, count_of (scan_counts s) k <= count_of (scan_counts (fst r)) k).
Proof.
  revert s b. induction kws as [|kw kws IH]; intros s b.
  - unfold hit_count. simpl. repeat split; try lia.
    + destruct b; lia.
    + by rewrite orb_false_r.
  - cbn [fold_left existsb]. rewrite hit_count_cons.
    destruct (PyStr.contains m kw) eqn:Hkw.
    + rewrite (scan_keyword_found _ _ _ _ Hkw).
      destruct (IH (mk_scan (total_keywords s + 1)
                      (if b then found_categories s else found_categories s + 1)
                      (bump kw (scan_counts s))) true) as (Ht & Hf & Hb & Hc).
      cbn [total_keywords found_categories scan_counts] in Ht, Hf, Hb, Hc.
      cbv zeta. repeat split.
      * rewrite Ht. lia.
      * rewrite Hf. destruct b; simpl; lia.
      * rewrite Hb. by destruct b.
      * intros k. etrans; [| apply Hc]. rewrite count_of_bump. case_decide; lia.
    + rewrite (scan_keyword_absent _ _ _ Hkw).
      destruct (IH s b) as (Ht & Hf & Hb & Hc). cbv zeta.
      rewrite orb_false_l. split_and!; [lia | done | done | done].
Qed.

(** The outer loop over any taxonomy. *)
Lemma scan_categories_spec m cats s :
  let r := fold_left (scan_category m) cats s in
  total_keywords r = total_keywords s + hit_count m (concat (map snd cats)) /\
  found_categories r = found_categories s + category_count m cats /\
  (forall k, count_of (scan_counts s) k <= count_of (scan_counts r) k).
Proof.
  revert s. induction cats as [|[name kws] cats IH]; intros s; simpl.
  - unfold hit_count, category_count. simpl. repeat split; lia.
  - destruct (scan_keywords_spec m kws s false) as (Ht & Hf & _ & Hc). simpl in Ht, Hf, Hc.
    specialize (IH (scan_category m s (name, kws))). simpl in IH.
    destruct IH as (Ht' & Hf' & Hc'). unfold scan_category in *. simpl in *.
    repeat split.
    + rewrite Ht', Ht, hit_count_app. lia.
    + rewrite Hf', Hf. unfold category_count. simpl.
      destruct (existsb (PyStr.contains m) kws); simpl length; lia.
    + intros k. etrans; [apply Hc | apply Hc'].
Qed.

Lemma scan_taxonomy_total text counts :
  total_keywords (scan_taxonomy (PyStr.lower text) counts) = keyword_hits text.
Proof.
  unfold scan_taxonomy.
  destruct (scan_categories_spec (PyStr.lower text) gospel_keywords (mk_scan 0 0 counts))
    as (Ht & _ & _).
  rewrite Ht. reflexivity.
Qed.

Lemma scan_taxonomy_found text counts :
  found_categories (scan_taxonomy (PyStr.lower text) counts) = category_hits text.
Proof.
  unfold scan_taxonomy.
  destruct (scan_categories_spec (PyStr.lower text) gospel_keywords (mk_scan 0 0 counts))
    as (_ & Hf & _).
  rewrite Hf. reflexivity.
Qed.

Lemma scan_taxonomy_counts m counts k :
  count_of counts k <= count_of (scan_counts (scan_taxonomy m counts)) k.
Proof.
  unfold scan_taxonomy.
  destruct (scan_categories_spec m gospel_keywords (mk_scan 0 0 counts)) as (_ & _ & Hc).
  apply Hc.
Qed.

(** How often [k] is among the keywords of [kws] found in [m]. *)
Lemma found_times_cons m k kw kws :
  found_times m k (kw :: kws) =
    (if String.eqb kw k && PyStr.contains m kw then 1 else 0) + found_times m k kws.
Proof.
  unfold found_times. cbn [List.filter].
  destruct (String.eqb kw k && PyStr.contains m kw); cbn [length]; lia.
Qed.

Lemma found_times_app m k l1 l2 :
  found_times m k (l1 ++ l2) = found_times m k l1 + found_times m k l2.
Proof. unfold found_times. rewrite List.filter_app, length_app. lia. Qed.

Lemma scan_keywords_counts m kws s b k :
  count_of (scan_counts (fst (fold_left (scan_keyword m) kws (s, b)))) k =
    count_of (scan_counts s) k + found_times m k kws.
Proof.
  revert s b. induction kws as [|kw kws IH]; intros s b.
  - unfold found_times. cbn. lia.
  - cbn [fold_left]. rewrite found_times_cons.
    destruct (PyStr.contains m kw) eqn:Hkw.
    + rewrite (scan_keyword_found _ _ _ _ Hkw), IH. cbn [scan_counts].
      rewrite count_of_bump, andb_true_r.
      destruct (String.eqb_spec kw k); case_decide; try done; lia.
    + rewrite (scan_keyword_absent _ _ _ Hkw), IH, andb_false_r. lia.
Qed.

Lemma scan_categories_counts m cats s k :
  count_of (scan_counts (fold_left (scan_category m) cats s)) k =
    count_of (scan_counts s) k + found_times m k (concat (map snd cats)).
Proof.
  revert s. induction cats as [|[name kws] cats IH]; intros s.
  - unfold found_times. cbn. lia.
  - cbn [fold_left map concat snd]. rewrite IH, found_times_app.
    unfold scan_category. cbn [snd]. rewrite scan_keywords_counts. lia.
Qed.

Lemma found_times_NoDup m k kws :
  NoDup kws ->
  found_times m k kws = if bool_decide (k ∈ kws) && PyStr.contains m k then 1 else 0.
Proof.
  induction 1 as [|kw kws Hnotin Hnd IH].
  - reflexivity.
  - rewrite found_times_cons, IH.
    destruct (String.eqb_spec kw k) as [->|Hne]; cbn [andb];
      [destruct (bool_decide_reflect (k ∈ kws)), (bool_decide_reflect (k ∈ k :: kws))
      |destruct (bool_decide_reflect (k ∈ kws)), (bool_decide_reflect (k ∈ kw :: kws))];
      cbn [andb]; try destruct (PyStr.contains m k);
      first [lia | exfalso; rewrite ?elem_of_cons in *; intuition congruence].
Qed.

Lemma all_keywords_NoDup : NoDup all_keywords.
Proof. apply (bool_decide_unpack (NoDup all_keywords)). vm_compute. exact I. Qed.

Lemma all_keywords_length : length all_keywords = 42%nat.
Proof. reflexivity. Qed.

Lemma keyword_hits_range text : 0 <= keyword_hits text <= 42.
Proof.
  pose proof (hit_count_bounds (PyStr.lower text) all_keywords) as Hb.
  rewrite all_keywords_length in Hb. exact Hb.
Qed.

Lemma category_hits_range text : 0 <= category_hits text <= 8.
Proof.
  unfold category_hits. split; [lia |].
  change 8 with (Z.of_nat (length gospel_keywords)). apply inj_le.
  generalize gospel_keywords. intros l. induction l as [|e l IH]; simpl; [lia |].
  destruct (existsb _ _); simpl; lia.
Qed.

(** ** Rounding facts for binary64 products

    The product of two finite numbers is [binary_round_aux] applied to the
    exact product of the mantissas: one right shift down to 53 digits (or to
    the least exponent), rounding to nearest even, and one more shift when
    the rounding carried. *)

Lemma digits2_log2 p : Z.pos (digits2_pos p) = Z.log2 (Z.pos p) + 1.
Proof.
  induction p as [p IH|p IH|]; cbn [digits2_pos].
  - rewrite Pos2Z.inj_succ, IH, Pos2Z.inj_xI, Z.log2_succ_double by lia. lia.
  - rewrite Pos2Z.inj_succ, IH, Pos2Z.inj_xO, Z.log2_double by lia. lia.
  - reflexivity.
Qed.

Lemma digits2_bounds p :
  2 ^ (Z.pos (digits2_pos p) - 1) <= Z.pos p < 2 ^ Z.pos (digits2_pos p).
Proof.
  rewrite digits2_log2. replace (Z.log2 (Z.pos p) + 1 - 1) with (Z.log2 (Z.pos p)) by lia.
  apply Z.log2_spec. lia.
Qed.

Lemma Zdigits2_le m k : 0 <= k -> 0 <= m < 2 ^ k -> Zdigits2 m <= k.
Proof.
  intros Hk [Hm Hlt]. destruct m as [|p|p]; simpl; [lia | | lia].
  pose proof (digits2_bounds p) as [Hlo _].
  destruct (Z_le_gt_dec (Z.pos (digits2_pos p)) k) as [|Hgt]; [done |].
  assert (2 ^ k <= 2 ^ (Z.pos (digits2_pos p) - 1)) by (apply Z.pow_le_mono_r; lia).
  lia.
Qed.

Lemma shr_1_m mrs : 0 <= shr_m mrs -> shr_m (shr_1 mrs) = shr_m mrs / 2.
Proof.
  destruct mrs as [m r s]. cbn [shr_m shr_1]. intros Hm.
  destruct m as [|[p|p|]|p]; cbn [shr_m]; try lia.
  - reflexivity.
  - rewrite Pos2Z.inj_xI. apply Z.div_unique with 1; lia.
  - rewrite Pos2Z.inj_xO. apply Z.div_unique with 0; lia.
  - reflexivity.
Qed.

Lemma iter_shr_1_m p mrs :
  0 <= shr_m mrs -> shr_m (SpecFloat.iter_pos shr_1 p mrs) = shr_m mrs / 2 ^ Z.pos p.
Proof.
  revert mrs. induction p as [p IH|p IH|]; intros mrs Hm; cbn [SpecFloat.iter_pos].
  - assert (H1 : 0 <= shr_m (shr_1 mrs)) by (rewrite shr_1_m by done; apply Z.div_pos; lia).
    assert (H2 : 0 <= shr_m (SpecFloat.iter_pos shr_1 p (shr_1 mrs)))
      by (rewrite IH by done; apply Z.div_pos; lia).
    rewrite IH, IH, shr_1_m by done.
    rewrite !Z.div_div by lia. f_equal.
    replace (Z.pos p~1) with (1 + Z.pos p + Z.pos p) by lia.
    rewrite !Z.pow_add_r by lia. change (2 ^ 1) with 2. lia.
  - assert (H2 : 0 <= shr_m (SpecFloat.iter_pos shr_1 p mrs))
      by (rewrite IH by done; apply Z.div_pos; lia).
    rewrite IH, IH by done.
    rewrite !Z.div_div by lia. f_equal.
    replace (Z.pos p~0) with (Z.pos p + Z.pos p) by lia.
    rewrite Z.pow_add_r by lia. reflexivity.
  - rewrite shr_1_m by done. reflexivity.
Qed.

Lemma shr_spec mrs e n :
  0 <= shr_m mrs ->
  shr_m (fst (shr mrs e n)) = shr_m mrs / 2 ^ Z.max n 0 /\
  snd (shr mrs e n) = e + Z.max n 0.
Proof.
  intros Hm. destruct n as [|p|p]; cbn [shr fst snd].
  - change (Z.max 0 0) with 0. rewrite Z.div_1_r. lia.
  - rewrite iter_shr_1_m by done. replace (Z.max (Z.pos p) 0) with (Z.pos p) by lia. done.
  - replace (Z.max (Z.neg p) 0) with 0 by lia. rewrite Z.div_1_r. lia.
Qed.

Lemma shr_record_of_loc_m m l : shr_m (shr_record_of_loc m l) = m.
Proof. by destruct l as [|[]]. Qed.

Lemma round_nearest_even_range m l :
  m <= round_nearest_even m l <= m + 1.
Proof. destruct l as [|[]]; cbn [round_nearest_even]; try destruct (Z.even m); lia. Qed.

(** Normal form of a rounded exact product with mantissa [m] and
    exponent [e]. *)
Lemma binary_round_aux_shape s m e :
  0 <= m ->
  let e1 := shift_exp m e in
  exists mr,
    m / 2 ^ (e1 - e) <= mr <= m / 2 ^ (e1 - e) + 1 /\
    binary_round_aux F64.prec F64.emax s m e loc_Exact =
      round_result s (mr / 2 ^ (shift_exp mr e1 - e1)) (shift_exp mr e1).
Proof.
  intros Hm e1. unfold binary_round_aux, shr_fexp.
  pose proof (shr_spec (shr_record_of_loc m loc_Exact) e
                (fexp F64.prec F64.emax (Zdigits2 m + e) - e)) as H1.
  rewrite shr_record_of_loc_m in H1. specialize (H1 Hm).
  destruct (shr (shr_record_of_loc m loc_Exact) e _) as [mrs' e'] eqn:E1.
  cbn [fst snd] in H1. destruct H1 as [Hm' He'].
  set (mr := round_nearest_even (shr_m mrs') (loc_of_shr_record mrs')).
  assert (He1 : e' = e1) by (subst e1; unfold shift_exp; lia).
  assert (Hmr : shr_m mrs' <= mr <= shr_m mrs' + 1) by apply round_nearest_even_range.
  assert (Hm'0 : 0 <= shr_m mrs') by (rewrite Hm'; apply Z.div_pos; lia).
  pose proof (shr_spec (shr_record_of_loc mr loc_Exact) e'
                (fexp F64.prec F64.emax (Zdigits2 mr + e') - e')) as H2.
  rewrite shr_record_of_loc_m in H2. specialize (H2 ltac:(lia)).
  destruct (shr (shr_record_of_loc mr loc_Exact) e' _) as [mrs'' e''] eqn:E2.
  cbn [fst snd] in H2. destruct H2 as [Hm'' He''].
  exists mr. split.
  - replace (e1 - e) with (Z.max (fexp F64.prec F64.emax (Zdigits2 m + e) - e) 0)
      by (subst e1; unfold shift_exp; lia).
    rewrite <- Hm'. exact Hmr.
  - rewrite He1 in He'', Hm''.
    assert (He2 : e'' = shift_exp mr e1) by (unfold shift_exp; lia).
    replace (shift_exp mr e1 - e1)
      with (Z.max (fexp F64.prec F64.emax (Zdigits2 mr + e1) - e1) 0)
      by (unfold shift_exp; lia).
    rewrite <- Hm'', <- He2. unfold round_result. reflexivity.
Qed.

Lemma fexp_unfold x : fexp F64.prec F64.emax x = Z.max (x - 53) (-1074).
Proof. reflexivity. Qed.

Lemma Zdigits2_pos_bounds m :
  0 < m -> 1 <= Zdigits2 m /\ 2 ^ (Zdigits2 m - 1) <= m < 2 ^ Zdigits2 m.
Proof.
  destruct m as [|p|p]; try lia. intros _. cbn [Zdigits2].
  split; [lia | apply digits2_bounds].
Qed.

(** A shift from an exponent not below the least one keeps a positive
    mantissa positive. *)
Lemma shift_keeps_positive m e :
  0 < m -> -1074 <= e ->
  0 < m / 2 ^ (shift_exp m e - e) /\ -1074 <= shift_exp m e.
Proof.
  intros Hm He. destruct (Zdigits2_pos_bounds m Hm) as (Hd & Hlo & _).
  unfold shift_exp. rewrite fexp_unfold.
  set (d := Zdigits2 m) in *.
  assert (Hn : e + Z.max (Z.max (d + e - 53) (-1074) - e) 0 - e = Z.max (d - 53) 0) by lia.
  rewrite Hn. split; [| lia].
  apply Z.div_str_pos. split; [apply Z.pow_pos_nonneg; lia |].
  etrans; [| exact Hlo]. apply Z.pow_le_mono_r; lia.
Qed.

(** Rounding a positive exact value whose exponent is in range never
    gives zero: the result is finite and positive, or the infinity. *)
Lemma round_positive s m e :
  0 < m -> -1074 <= e ->
  binary_round_aux F64.prec F64.emax s m e loc_Exact = S754_infinity s \/
  exists p e', binary_round_aux F64.prec F64.emax s m e loc_Exact = S754_finite s p e'.
Proof.
  intros Hm He.
  destruct (binary_round_aux_shape s m e ltac:(lia)) as (mr & Hmr & ->).
  destruct (shift_keeps_positive m e Hm He) as [Ha He1].
  destruct (shift_keeps_positive mr (shift_exp m e) ltac:(lia) He1) as [Hb _].
  unfold round_result.
  destruct (mr / 2 ^ (shift_exp mr (shift_exp m e) - shift_exp m e)) as [|p|p]; try lia.
  destruct (_ <=? _); eauto.
Qed.

(** Rounding an exact value below one with a small exponent does not
    exceed one. *)
Lemma round_below_one m e :
  0 < m -> Zdigits2 m + e <= 0 -> e <= -53 ->
  F64.ltb F64.c1_0 (binary_round_aux F64.prec F64.emax false m e loc_Exact) = false.
Proof.
  intros Hm Hde He.
  destruct (binary_round_aux_shape false m e ltac:(lia)) as (mr & Hmr & ->).
  destruct (Zdigits2_pos_bounds m Hm) as (Hd & _ & Hhi).
  set (e1 := shift_exp m e) in *.
  assert (He1 : e1 = Z.max e (Z.max (Zdigits2 m + e - 53) (-1074)))
    by (subst e1; unfold shift_exp; rewrite fexp_unfold; lia).
  assert (Ha : 0 <= m / 2 ^ (e1 - e) < 2 ^ 53).
  { split; [apply Z.div_pos; [lia | apply Z.pow_pos_nonneg; lia] |].
    apply Z.div_lt_upper_bound; [apply Z.pow_pos_nonneg; lia |].
    rewrite <- Z.pow_add_r by lia.
    eapply Z.lt_le_trans; [exact Hhi | apply Z.pow_le_mono_r; lia]. }
  assert (Hmr0 : 0 <= mr <= 2 ^ 53) by lia.
  assert (Hdr : Zdigits2 mr <= 54).
  { apply Zdigits2_le; [lia |]. change (2 ^ 54) with (2 * 2 ^ 53). lia. }
  set (e2 := shift_exp mr e1) in *.
  assert (He2 : e2 = Z.max e1 (Z.max (Zdigits2 mr + e1 - 53) (-1074)))
    by (subst e2; unfold shift_exp; rewrite fexp_unfold; lia).
  assert (Hm2 : e2 = -52 -> mr / 2 ^ (e2 - e1) <= 2 ^ 52).
  { intros Heq. assert (e2 - e1 = 1) as -> by lia.
    change (2 ^ 1) with 2. apply Z.div_le_upper_bound; [lia |].
    change (2 * 2 ^ 52) with (2 ^ 53). lia. }
  unfold round_result.
  destruct (mr / 2 ^ (e2 - e1)) as [|p|p] eqn:Hq; try reflexivity.
  replace (e2 <=? F64.emax - F64.prec) with true
    by (symmetry; apply Z.leb_le; unfold F64.emax, F64.prec; lia).
  unfold F64.ltb, SFltb, F64.c1_0, SFcompare.
  destruct (Z.compare_spec (-52) e2) as [Heq|Hlt|Hgt]; try reflexivity; [| lia].
  specialize (Hm2 ltac:(lia)). rewrite Pos.compare_cont_spec. cbn [Pos.switch_Eq].
  destruct (Pos.compare_spec 4503599627370496 p) as [?|Hlt|?]; try reflexivity.
  change (2 ^ 52) with (Z.pos 4503599627370496) in Hm2. lia.
Qed.

Lemma score_grid_checked : forallb (fun kc => score_check (fst kc) (snd kc)) score_grid = true.
Proof. vm_compute. reflexivity. Qed.

Lemma score_formula_checked k c :
  0 <= k <= 42 -> 0 <= c <= 8 -> score_check k c = true.
Proof.
  intros Hk Hc.
  pose proof (proj1 (forallb_forall _ _) score_grid_checked (k, c)) as Hall.
  apply Hall. apply list_elem_of_In. unfold score_grid.
  apply list_elem_of_bind. exists k. split; [| apply elem_of_seqZ; lia].
  apply list_elem_of_bind. exists c. split; [by left | apply elem_of_seqZ; lia].
Qed.

Lemma unit_score_finite s :
  unit_score s = true -> F64.gtb s F64.zero = true ->
  exists m e, s = S754_finite false m e /\
    2 ^ 52 <= Z.pos m < 2 ^ 53 /\ -56 <= e /\ (e < -52 \/ e = -52 /\ Z.pos m = 2 ^ 52).
Proof.
  destruct s as [[]|[]|  |[] m e]; try discriminate. intros Hs _.
  exists m, e. split; [done |]. cbn [unit_score] in Hs.
  repeat (apply andb_prop in Hs as [Hs ?]). lia.
Qed.

Lemma ltb_c0_3_finite (m : positive) e :
  F64.ltb (S754_finite false m e) F64.c0_3 = false -> -54 <= e.
Proof.
  unfold F64.ltb, SFltb, F64.c0_3, SFcompare.
  destruct (Z.compare_spec e (-54)); first [lia | discriminate].
Qed.

Lemma ltb_c0_3_small (m : positive) e :
  F64.ltb (S754_finite false m e) F64.c0_3 = true -> e <= -54.
Proof.
  unfold F64.ltb, SFltb, F64.c0_3, SFcompare.
  destruct (Z.compare_spec e (-54)); first [lia | discriminate].
Qed.

Lemma binary64_mantissa s (m : positive) e :
  F64.is_binary64 (S754_finite s m e) -> Z.pos m < 2 ^ 53.
Proof.
  unfold F64.is_binary64, valid_binary, bounded, canonical_mantissa.
  intros Hv. apply andb_prop in Hv as [Hc _]. apply Z.eqb_eq in Hc.
  rewrite fexp_unfold in Hc. pose proof (digits2_bounds m) as [_ Hhi].
  eapply Z.lt_le_trans; [exact Hhi | apply Z.pow_le_mono_r; lia].
Qed.

(** A positive score times a sentiment floored at 0.3 is positive, unless
    the sentiment is a NaN. *)
Lemma mul_score_positive s v :
  unit_score s = true -> F64.gtb s F64.zero = true -> F64.is_nan v = false ->
  F64.gtb (F64.mul s (F64.py_max v F64.c0_3)) F64.zero = true.
Proof.
  intros Hs Hpos Hnan.
  destruct (unit_score_finite s Hs Hpos) as (ms & es & -> & Hms & Hes & _).
  assert (Hround : forall (mw : positive) ew, -54 <= ew ->
            F64.gtb (F64.mul (S754_finite false ms es) (S754_finite false mw ew)) F64.zero
            = true).
  { intros mw ew Hew. unfold F64.mul, SFmul. cbn [xorb].
    destruct (round_positive false (Z.pos (ms * mw)) (es + ew) ltac:(lia) ltac:(lia))
      as [-> | (p & e' & ->)]; reflexivity. }
  unfold F64.py_max, F64.gtb at 2.
  destruct (F64.ltb v F64.c0_3) eqn:Hlt.
  - apply Hround. lia.
  - destruct v as [sv|[]| |[] mv ev]; try discriminate; try reflexivity.
    apply Hround. by apply ltb_c0_3_finite with mv.
Qed.

Lemma round_negative_not_above m e :
  0 <= m -> F64.ltb F64.c1_0 (binary_round_aux F64.prec F64.emax true m e loc_Exact) = false.
Proof.
  intros Hm. destruct (binary_round_aux_shape true m e Hm) as (mr & _ & ->).
  unfold round_result. destruct (mr / _) as [|p|p]; try reflexivity.
  destruct (_ <=? _); reflexivity.
Qed.

(** A score times a binary64 sentiment below 0.3 does not exceed one. *)
Lemma mul_score_small s v :
  unit_score s = true -> F64.is_binary64 v -> F64.ltb v F64.c0_3 = true ->
  F64.gtb (F64.mul s v) F64.c1_0 = false.
Proof.
  intros Hs Hv Hlt. unfold F64.gtb.
  destruct s as [[]|[]| |[] ms es]; try discriminate.
  - destruct v as [sv|sv| |sv mv ev]; try reflexivity.
  - destruct v as [sv|[]| |[] mv ev]; try discriminate; try reflexivity.
    + unfold F64.mul, SFmul. cbn [xorb]. apply round_negative_not_above. lia.
    + unfold F64.mul, SFmul. cbn [xorb].
      cbn [unit_score] in Hs. repeat (apply andb_prop in Hs as [Hs ?]).
      pose proof (ltb_c0_3_small _ _ Hlt) as Hev.
      pose proof (binary64_mantissa _ _ _ Hv) as Hmv.
      assert (Hms : Z.pos ms <= 2 ^ (- es)).
      { destruct (Z_lt_dec es (-52)).
        - etrans; [| apply (Z.pow_le_mono_r 2 53); lia]. lia.
        - assert (es = -52) as -> by lia. lia. }
      assert (Hmv' : Z.pos mv < 2 ^ (-1 - ev)).
      { eapply Z.lt_le_trans; [exact Hmv | apply Z.pow_le_mono_r; lia]. }
      assert (Hprod : Z.pos (ms * mv) < 2 ^ (-1 - (es + ev))).
      { replace (-1 - (es + ev)) with (- es + (-1 - ev)) by lia.
        rewrite Z.pow_add_r, Pos2Z.inj_mul by lia.
        apply Z.le_lt_trans with (2 ^ (- es) * Z.pos mv).
        - apply Z.mul_le_mono_nonneg_r; lia.
        - apply Z.mul_lt_mono_pos_l; [apply Z.pow_pos_nonneg; lia | done]. }
      apply round_below_one; [lia | | lia].
      pose proof (Zdigits2_le (Z.pos (ms * mv)) (-1 - (es + ev)) ltac:(lia) ltac:(lia)).
      lia.
Qed.

(** ** Facts about the methods *)

Lemma truthy_text text : truthy (JStr text) = negb (PyStr.is_empty text).
Proof. reflexivity. Qed.

Lemma calculate_gospel_score_text text self :
  fst (calculate_gospel_score (JStr text) self) = Returned (score_value text).
Proof.
  unfold calculate_gospel_score, score_value. rewrite truthy_text, negb_involutive.
  destruct (PyStr.is_empty text); [reflexivity |].
  cbn [fst]. by rewrite scan_taxonomy_total, scan_taxonomy_found.
Qed.

Lemma calculate_gospel_score_pair text self :
  calculate_gospel_score (JStr text) self =
    (Returned (score_value text), snd (calculate_gospel_score (JStr text) self)).
Proof.
  rewrite <- (calculate_gospel_score_text text self).
  by destruct (calculate_gospel_score _ _).
Qed.

Section MethodFacts.
Context `{PyBuiltins}.

Lemma dict_fields_inv d f :
  dict_fields d = Some f ->
  dict_get d "message" (JStr "") = JStr (f_text f) /\
  dict_get d "author" (JStr "Unknown") = JStr (f_author f) /\
  dict_get d "category" (JStr "other") = JStr (f_category f) /\
  py_float (dict_get d "sentiment" (JInt 0)) = Returned (f_sentiment f).
Proof.
  unfold dict_fields. intros Hf.
  destruct (dict_get d "message" _); try discriminate.
  destruct (dict_get d "author" _); try discriminate.
  destruct (dict_get d "category" _); try discriminate.
  destruct (py_float _); try discriminate.
  by injection Hf as <-.
Qed.

Lemma is_evangelistic_opportunity_valid d f self :
  dict_fields d = Some f ->
  is_evangelistic_opportunity d self =
    (Returned (opportunity_value (f_text f) (f_sentiment f)), self).
Proof.
  intros (Hm & _ & _ & Hs)%dict_fields_inv.
  unfold is_evangelistic_opportunity, opportunity_value. rewrite Hm.
  unfold mbind, M_bind, lift. rewrite Hs.
  by destruct (has_phrase _).
Qed.

Lemma process_dict_valid now d f self :
  dict_fields d = Some f ->
  process_dict now d self = (Returned tt, after_valid now f self).
Proof.
  intros Hf.
  pose proof (fun a => is_evangelistic_opportunity_valid d f a Hf) as Hopp.
  destruct (dict_fields_inv d f Hf) as (Hm & Ha & Hc & Hs).
  unfold process_dict, after_valid. rewrite Hm, Ha, Hc, Hs.
  unfold mbind, M_bind, lift.
  rewrite calculate_gospel_score_pair.
  unfold calculate_faith_impact, mret, M_ret, update, impact_value.
  set (a0 := snd (calculate_gospel_score (JStr (f_text f)) self)).
  set (score := score_value (f_text f)).
  set (impact := num_mul score (F64.py_max (f_sentiment f) F64.c0_3)).
  unfold with_key. cbn [hash_key].
  destruct (num_gtb score F64.c0_3), (F64.gtb impact F64.c0_7);
    cbn [when]; unfold update, mret, M_ret; rewrite Hopp;
    destruct (opportunity_value _ _); reflexivity.
Qed.

Lemma process_message_valid now line f self :
  line_fields line = Some f ->
  process_message now line self = (Returned tt, after_valid now f self).
Proof.
  unfold line_fields, process_message, process_decoded. intros Hf.
  destruct (json_loads line) as [[| | | | |l|d]|e]; try discriminate.
  unfold try_except, mbind, M_bind, lift.
  by rewrite (process_dict_valid now d f self Hf).
Qed.

End MethodFacts.

(** ** The score *)

Lemma score_value_checked text :
  score_check (keyword_hits text) (category_hits text) = true.
Proof. apply score_formula_checked; [apply keyword_hits_range | apply category_hits_range]. Qed.

Lemma score_value_float text :
  to_float (score_value text) = score_formula (keyword_hits text) (category_hits text).
Proof.
  unfold score_value. destruct text as [|c text]; [| reflexivity].
  vm_compute. reflexivity.
Qed.

Lemma score_value_unit text :
  unit_score (to_float (score_value text)) = true /\
  F64.leb F64.zero (to_float (score_value text)) = true /\
  F64.leb (to_float (score_value text)) F64.c1_0 = true.
Proof.
  rewrite score_value_float. pose proof (score_value_checked text) as Hc.
  unfold score_check in Hc. apply andb_prop in Hc as [Hc H3]. apply andb_prop in Hc as [H1 H2].
  done.
Qed.

(** C1 (as amended): for every text the score is
    [min(min(k * 0.2, 1.0) + c * 0.1, 1.0)] in binary64 arithmetic, [k] the
    number of taxonomy keywords occurring in the lower-cased text and [c] the
    number of categories hit, the base clamped before the bonus is added
    and the sum clamped again; with two keywords in two categories this is
    [min(0.4, 1.0) + 0.2], the double 0x1.3333333333334p-1 next above 0.6. *)
Theorem gospel_score_formula (text : string) (self : GospelAnalyzer) :
  exists s,
    fst (calculate_gospel_score (JStr text) self) = Returned s /\
    to_float s = score_formula (keyword_hits text) (category_hits text) /\
    score_formula (keyword_hits text) (category_hits text) =
      F64.py_min
        (F64.add (F64.py_min (F64.mul (F64.of_Z (keyword_hits text)) F64.c0_2) F64.c1_0)
                 (F64.mul (F64.of_Z (category_hits text)) F64.c0_1))
        F64.c1_0 /\
    (keyword_hits text = 2 -> category_hits text = 2 ->
     to_float s = F64.add (F64.py_min F64.c0_4 F64.c1_0) F64.c0_2 /\
     to_float s = S754_finite false 0x13333333333334 (-53) /\
     F64.gtb (to_float s) F64.c0_6 = true).
Proof.
  exists (score_value text). split; [apply calculate_gospel_score_text |].
  split; [apply score_value_float |]. split; [reflexivity |].
  intros Hk Hc. rewrite score_value_float, Hk, Hc. by vm_compute.
Qed.

(** C6: the score depends on the text only, lies between 0 and 1, and is
    0 for the empty string. *)
Theorem gospel_score_deterministic_bounded (text : string) (self self' : GospelAnalyzer) :
  fst (calculate_gospel_score (JStr text) self) =
    fst (calculate_gospel_score (JStr text) self') /\
  (exists s, fst (calculate_gospel_score (JStr text) self) = Returned s /\
             F64.leb F64.zero (to_float s) = true /\
             F64.leb (to_float s) F64.c1_0 = true) /\
  fst (calculate_gospel_score (JStr "") self) = Returned (PInt 0).
Proof.
  split; [by rewrite !calculate_gospel_score_text |].
  split; [| reflexivity].
  exists (score_value text). split; [apply calculate_gospel_score_text |].
  apply score_value_unit.
Qed.

(** ** The faith impact *)

Lemma impact_value_positive text v :
  num_gtb (score_value text) F64.zero = true -> F64.is_nan v = false ->
  F64.gtb (impact_value text v) F64.zero = true.
Proof.
  intros Hpos Hnan. unfold impact_value, num_mul.
  apply mul_score_positive; [apply score_value_unit | exact Hpos | exact Hnan].
Qed.

Lemma impact_value_above_one text v :
  F64.is_binary64 v ->
  F64.gtb (num_mul (score_value text) v) F64.c1_0 = true ->
  impact_value text v = num_mul (score_value text) v.
Proof.
  intros Hv Hgt. unfold impact_value, F64.py_max, F64.gtb at 1.
  destruct (F64.ltb v F64.c0_3) eqn:Hlt; [| reflexivity].
  pose proof (mul_score_small (to_float (score_value text)) v
                (proj1 (score_value_unit text)) Hv Hlt) as Hsmall.
  unfold num_mul in Hgt. congruence.
Qed.

(** C3 (as amended): the faith impact is [s * max(v, 0.3)] for every score
    and sentiment, [max] keeping [v] unless [v < 0.3]; it is [s * 0.3] at
    [v = -0.5]; and it is strictly positive whenever [s > 0] is a score of
    a text and [v] is not a NaN. *)
Theorem faith_impact_floor (s : pynum) (v : float) (text : string) (self : GospelAnalyzer) :
  calculate_faith_impact s v self =
    (Returned (num_mul s (if F64.ltb v F64.c0_3 then F64.c0_3 else v)), self) /\
  calculate_faith_impact s F64.cm0_5 self = (Returned (num_mul s F64.c0_3), self) /\
  (forall x impact,
     fst (calculate_gospel_score (JStr text) self) = Returned x ->
     num_gtb x F64.zero = true ->
     F64.is_nan v = false ->
     fst (calculate_faith_impact x v self) = Returned impact ->
     F64.gtb impact F64.zero = true).
Proof.
  split; [reflexivity |]. split; [reflexivity |].
  intros x impact Hx Hpos Hnan Hi.
  rewrite calculate_gospel_score_text in Hx. injection Hx as <-.
  cbn in Hi. injection Hi as <-.
  by apply impact_value_positive.
Qed.

(** ** Every step of [process_message] keeps a relation that its primitive
    updates keep *)

Section Frame.
Context `{PyBuiltins}.
Variable R : GospelAnalyzer -> GospelAnalyzer -> Prop.
Hypothesis R_refl : forall a, R a a.
Hypothesis R_trans : forall a b c, R a b -> R b c -> R a c.
Hypothesis R_score : forall v, relates R (calculate_gospel_score v).
Hypothesis R_append : forall now s i a, R a (append_series now s i a).
Hypothesis R_total : forall a, R a (incr_total a).
Hypothesis R_gospel : forall a, R a (incr_gospel a).
Hypothesis R_author : forall k a, R a (add_author k a).
Hypothesis R_category : forall k a, R a (incr_category k a).
Hypothesis R_bold : forall a, R a (incr_bold a).
Hypothesis R_opportunities : forall a, R a (incr_opportunities a).

Lemma is_evangelistic_opportunity_pure d self :
  snd (is_evangelistic_opportunity d self) = self.
Proof.
  unfold is_evangelistic_opportunity.
  destruct (dict_get d "message" _); try reflexivity.
  unfold mbind, M_bind, lift. destruct (py_float _); [| reflexivity].
  by destruct (has_phrase _).
Qed.

Lemma with_key_relates v f :
  (forall k a, R a (f k a)) -> relates R (with_key v f).
Proof.
  intros Hf. unfold with_key. destruct (hash_key v).
  - apply relates_update. apply Hf.
  - by apply relates_raise.
Qed.

Lemma process_dict_relates now d : relates R (process_dict now d).
Proof.
  unfold process_dict.
  apply relates_bind; [done | by apply relates_lift |]. intros sentiment.
  apply relates_bind; [done | apply R_score |]. intros gospel_score.
  apply relates_bind; [done | by apply relates_ret |]. intros impact.
  apply relates_bind; [done | by apply relates_update |]. intros _.
  apply relates_bind; [done | by apply relates_update |]. intros _.
  apply relates_bind; [done | |]. 
  { apply relates_when; [done |].
    apply relates_bind; [done | by apply relates_update |]. intros _.
    apply relates_bind; [done | by apply with_key_relates |]. intros _.
    by apply with_key_relates. }
  intros _.
  apply relates_bind; [done | |].
  { apply relates_when; [done |]. by apply relates_update. }
  intros _.
  apply relates_bind; [done | |].
  { intros self. rewrite is_evangelistic_opportunity_pure. apply R_refl. }
  intros opportunity.
  apply relates_bind; [done | |].
  { apply relates_when; [done |]. by apply relates_update. }
  intros _ self. apply R_refl.
Qed.

Lemma process_message_relates now line : relates R (process_message now line).
Proof.
  unfold process_message, process_decoded. apply relates_try_except.
  apply relates_bind; [done | by apply relates_lift |].
  intros [| | | | | |d]; try by apply relates_ret.
  apply process_dict_relates.
Qed.

End Frame.

(** ** Rolling buffers *)

Lemma lastn_length {A} n (l : list A) : length (lastn n l) = Nat.min n (length l).
Proof. unfold lastn. rewrite length_drop. lia. Qed.

Lemma tail_drop_snoc {A} (l : list A) x k :
  (k <= length l)%nat -> tail (drop k l ++ [x]) = drop (S k) (l ++ [x]).
Proof.
  revert k. induction l as [|a l IH]; intros k Hk.
  - destruct k; [reflexivity | simpl in Hk; lia].
  - destruct k as [|k]; [reflexivity |]. simpl in Hk.
    cbn [drop app]. apply IH. lia.
Qed.

Lemma lastn_snoc {A} n (l : list A) x :
  (let l' := lastn n l ++ [x] in if (n <? length l')%nat then tail l' else l')
  = lastn n (l ++ [x]).
Proof.
  cbv zeta. unfold lastn. rewrite !length_app, length_drop. cbn [length].
  destruct (Nat.ltb_spec n (length l - (length l - n) + 1)) as [Hlt|Hge].
  - replace (length l + 1 - n)%nat with (S (length l - n)) by lia.
    apply tail_drop_snoc. lia.
  - replace (length l - n)%nat with 0%nat by lia.
    replace (length l + 1 - n)%nat with 0%nat by lia. reflexivity.
Qed.

Lemma deque_append_lastn {A} n (l : list A) x :
  deque_append (mk_deque n (lastn n l)) x = mk_deque n (lastn n (l ++ [x])).
Proof. unfold deque_append. cbn [maxlen items]. f_equal. apply lastn_snoc. Qed.

Lemma deque_append_maxlen {A} (d : deque A) x : maxlen (deque_append d x) = maxlen d.
Proof. reflexivity. Qed.

Lemma deque_append_length {A} (d : deque A) x :
  (length (items d) <= maxlen d)%nat ->
  length (items (deque_append d x)) = Nat.min (maxlen d) (S (length (items d))).
Proof.
  intros Hle. unfold deque_append. cbn [items]. rewrite length_app. cbn [length].
  destruct (Nat.ltb_spec (maxlen d) (length (items d) + 1)).
  - destruct (items d ++ [x]) eqn:Hl.
    + apply (f_equal length) in Hl. rewrite length_app in Hl. simpl in Hl. lia.
    + apply (f_equal length) in Hl. rewrite length_app in Hl. simpl in *. lia.
  - rewrite length_app. simpl. lia.
Qed.

Lemma deque_append_last {A} (d : deque A) x :
  (0 < maxlen d)%nat -> last (items (deque_append d x)) = Some x.
Proof.
  intros Hpos. unfold deque_append. cbn [items].
  destruct (maxlen d <? length (items d ++ [x]))%nat eqn:Hlt.
  - destruct (items d) as [|y l] eqn:Hl.
    + apply Nat.ltb_lt in Hlt. simpl in Hlt. lia.
    + cbn [app tail]. apply last_snoc.
  - apply last_snoc.
Qed.

(** ** The state after a valid record *)

Lemma scored_frame v self :
  let a := snd (calculate_gospel_score v self) in
  max_points a = max_points self /\ timestamps a = timestamps self /\
  gospel_scores a = gospel_scores self /\ faith_impact a = faith_impact self /\
  total_messages a = total_messages self.
Proof.
  unfold calculate_gospel_score. destruct (negb (truthy v)); [done |].
  destruct v; done.
Qed.

Lemma scored_frame_counters v self :
  let a := snd (calculate_gospel_score v self) in
  gospel_messages a = gospel_messages self /\
  high_impact_messages a = high_impact_messages self /\
  authors_sharing_gospel a = authors_sharing_gospel self /\
  category_gospel_counts a = category_gospel_counts self /\
  bold_witness_count a = bold_witness_count self /\
  evangelistic_opportunities a = evangelistic_opportunities self.
Proof.
  unfold calculate_gospel_score. destruct (negb (truthy v)); [done |].
  destruct v; done.
Qed.

Lemma empty_text_hits k : k ∈ all_keywords -> PyStr.contains "" k = false.
Proof.
  intros Hin%list_elem_of_In.
  assert (Hall : forallb (fun kw => negb (PyStr.contains "" kw)) all_keywords = true)
    by (vm_compute; reflexivity).
  apply negb_true_iff. exact (proj1 (forallb_forall _ _) Hall k Hin).
Qed.

(** X1: scoring a text adds one to the count of every taxonomy keyword
    that occurs in the lower-cased text and leaves every other count as it
    was. *)
Theorem keyword_counts_updated (text : string) (self : GospelAnalyzer) (k : string) :
  count_of (keyword_counts (snd (calculate_gospel_score (JStr text) self))) k =
    count_of (keyword_counts self) k +
    (if bool_decide (k ∈ all_keywords) && PyStr.contains (PyStr.lower text) k
     then 1 else 0).
Proof.
  unfold calculate_gospel_score. rewrite truthy_text, negb_involutive.
  destruct text as [|c text]; cbn [PyStr.is_empty snd keyword_counts mret M_ret].
  - destruct (bool_decide_reflect (k ∈ all_keywords)) as [Hin|Hout]; cbn [andb]; [| lia].
    change (PyStr.lower "") with EmptyString. rewrite (empty_text_hits k Hin). lia.
  - unfold scan_taxonomy. rewrite scan_categories_counts. cbn [scan_counts].
    fold all_keywords. by rewrite (found_times_NoDup _ _ _ all_keywords_NoDup).
Qed.

Section Claims.
Context `{PyBuiltins}.

Lemma after_valid_series now f self :
  let a := after_valid now f self in
  max_points a = max_points self /\
  timestamps a = deque_append (timestamps self) now /\
  gospel_scores a = deque_append (gospel_scores self) (score_value (f_text f)) /\
  faith_impact a =
    deque_append (faith_impact self) (impact_value (f_text f) (f_sentiment f)) /\
  total_messages a = total_messages self + 1.
Proof.
  destruct (scored_frame (JStr (f_text f)) self) as (Hp & Ht & Hs & Hi & Hn).
  unfold after_valid. cbv zeta.
  destruct (num_gtb _ _), (F64.gtb _ _), (opportunity_value _ _);
    cbn [max_points timestamps gospel_scores faith_impact total_messages
         incr_opportunities incr_bold incr_category add_author incr_gospel incr_total
         append_series];
    rewrite ?Hp, ?Ht, ?Hs, ?Hi, ?Hn; done.
Qed.

Lemma run_snoc calls call self :
  run (calls ++ [call]) self = snd (process_message (fst call) (snd call) (run calls self)).
Proof. unfold run. by rewrite fold_left_app. Qed.

(** After valid records only, the buffers are the last [n] entries of what
    was appended, under the capacity they were created with. *)
Lemma run_valid_buffers n calls fs :
  Forall2 (fun call f => line_fields (snd call) = Some f) calls fs ->
  let self := run calls (init n) in
  max_points self = n /\
  timestamps self = mk_deque n (lastn n (map fst calls)) /\
  gospel_scores self = mk_deque n (lastn n (map (fun f => score_value (f_text f)) fs)) /\
  faith_impact self =
    mk_deque n (lastn n (map (fun f => impact_value (f_text f) (f_sentiment f)) fs)) /\
  total_messages self = Z.of_nat (length calls).
Proof.
  revert fs. induction calls as [|call calls IH] using rev_ind; intros fs Hfs.
  - apply Forall2_nil_inv_l in Hfs as ->. done.
  - apply Forall2_app_inv_l in Hfs as (fs1 & fs2 & Hfs1 & Hfs2 & ->).
    apply Forall2_cons_inv_l in Hfs2 as (f & fs3 & Hf & Hnil & ->).
    apply Forall2_nil_inv_l in Hnil as ->.
    destruct (IH fs1 Hfs1) as (Hp & Ht & Hs & Hi & Hn).
    cbv zeta. rewrite run_snoc, (process_message_valid _ _ f _ Hf). cbn [snd].
    destruct (after_valid_series (fst call) f (run calls (init n)))
      as (Hp' & Ht' & Hs' & Hi' & Hn').
    rewrite Hp', Ht', Hs', Hi', Hn', Hp, Ht, Hs, Hi, Hn.
    rewrite !map_app, !deque_append_lastn, length_app. cbn [map length].
    split_and!; try done. lia.
Qed.

(** C4: for every record whose message is a text and whose sentiment
    converts, [is_evangelistic_opportunity] returns true exactly when the
    lower-cased message contains one of the phrases or the sentiment is
    below -0.1 or above 0.8, and leaves the analyzer as it was; it is true
    at sentiment 0.9 whatever the text, and false for "hello" at 0.0. *)
Theorem evangelistic_opportunity_iff
    (d : list (string * json)) (text : string) (v : float) (self : GospelAnalyzer) :
  dict_get d "message" (JStr "") = JStr text ->
  py_float (dict_get d "sentiment" (JInt 0)) = Returned v ->
  exists b,
    is_evangelistic_opportunity d self = (Returned b, self) /\
    (b = true <->
       (exists phrase, In phrase opportunity_phrases /\
                       PyStr.contains (PyStr.lower text) phrase = true) \/
       F64.ltb v F64.cm0_1 = true \/ F64.gtb v F64.c0_8 = true) /\
    (v = F64.c0_9 -> b = true) /\
    (text = "hello"%string -> v = F64.zero -> b = false).
Proof.
  intros Hm Hs. exists (opportunity_value text v). split_and!.
  - unfold is_evangelistic_opportunity, opportunity_value. rewrite Hm.
    unfold mbind, M_bind, lift. rewrite Hs. by destruct (has_phrase _).
  - unfold opportunity_value, has_phrase.
    rewrite !orb_true_iff, existsb_exists. reflexivity.
  - intros ->. unfold opportunity_value. apply orb_true_iff. right. reflexivity.
  - intros -> ->. reflexivity.
Qed.

(** C7 (as amended): a line that [json.loads] rejects, or whose decoded
    top-level value is not an object, or whose sentiment [float()] does not
    convert, is skipped: [process_message] returns normally and the
    analyzer is exactly as it was.  (The first kind is not all of "not
    valid JSON": the decoder accepts the literal [NaN], and a record with
    it is counted.) *)
Theorem malformed_line_skipped (now : timestamp) (line : string) (self : GospelAnalyzer) :
  rejected line -> process_message now line self = (Returned tt, self).
Proof.
  unfold process_message, process_decoded, try_except, mbind, M_bind, lift.
  intros [(e & ->) | [(v & -> & Hv) | (d & e & -> & Hs)]].
  - reflexivity.
  - destruct v; try reflexivity. by destruct (Hv members).
  - unfold process_dict, mbind, M_bind, lift. by rewrite Hs.
Qed.

Lemma grows_refl a : grows a a.
Proof. by constructor. Qed.

Lemma grows_trans a b c : grows a b -> grows b c -> grows a c.
Proof.
  intros [] []. constructor; try lia.
  - intros k. etrans; eauto.
  - intros k. etrans; eauto.
  - set_solver.
Qed.

Lemma calculate_gospel_score_grows v : relates grows (calculate_gospel_score v).
Proof.
  intros self. unfold calculate_gospel_score.
  destruct (negb (truthy v)); [apply grows_refl |].
  destruct v; try apply grows_refl.
  constructor; cbn; try done. intros k. apply scan_taxonomy_counts.
Qed.

Lemma incr_category_grows k a : grows a (incr_category k a).
Proof.
  constructor; cbn; try done. intros k'. rewrite count_of_bump. case_decide; lia.
Qed.

Lemma add_author_grows k a : grows a (add_author k a).
Proof. constructor; cbn; try done. set_solver. Qed.

(** C8: whatever the line, a call of [process_message] never decreases
    [total_messages], [gospel_messages], [bold_witness_count] or
    [evangelistic_opportunities], never decreases the count of any key of
    [keyword_counts] or [category_gospel_counts], and removes no author. *)
Theorem process_message_grows (now : timestamp) (line : string) (self : GospelAnalyzer) :
  grows self (snd (process_message now line self)).
Proof.
  apply process_message_relates.
  - apply grows_refl.
  - apply grows_trans.
  - apply calculate_gospel_score_grows.
  - intros; by constructor.
  - intros; constructor; cbn; try done; lia.
  - intros; constructor; cbn; try done; lia.
  - apply add_author_grows.
  - apply incr_category_grows.
  - intros; constructor; cbn; try done; lia.
  - intros; constructor; cbn; try done; lia.
Qed.

(** C9: every valid record adds exactly one to [total_messages], whatever
    its score, impact or opportunity status, so that after [N] valid
    records a fresh analyzer counts [N]. *)
Theorem total_messages_counts_valid_records
    (calls : list (timestamp * string)) (n : nat) (self : GospelAnalyzer) :
  Forall (fun call => is_Some (line_fields (snd call))) calls ->
  total_messages (run calls self) = total_messages self + Z.of_nat (length calls) /\
  total_messages (run calls (init n)) = Z.of_nat (length calls).
Proof.
  intros Hvalid.
  assert (Hgen : forall a,
             total_messages (run calls a) = total_messages a + Z.of_nat (length calls)).
  { induction Hvalid as [|call calls [f Hf] _ IH]; intros a; [cbn; lia |].
    unfold run in *. cbn [fold_left length].
    rewrite IH, (process_message_valid _ _ f _ Hf). cbn [snd].
    destruct (after_valid_series (fst call) f a) as (_ & _ & _ & _ & ->). lia. }
  split; [apply Hgen |]. rewrite Hgen. cbn. lia.
Qed.

Lemma buffers_ok_append now s i a :
  buffers_ok a -> buffers_ok (append_series now s i a).
Proof.
  intros [Hmt Hms Hmi Hls Hli Hb].
  constructor; cbn [timestamps gospel_scores faith_impact max_points append_series];
    rewrite ?deque_append_maxlen; try done.
  - rewrite !deque_append_length by lia. lia.
  - rewrite !deque_append_length by lia. lia.
  - rewrite deque_append_length by lia. lia.
Qed.

Lemma buffers_ok_scored v a :
  buffers_ok a -> buffers_ok (snd (calculate_gospel_score v a)).
Proof.
  intros [Hmt Hms Hmi Hls Hli Hb].
  destruct (scored_frame v a) as (Hp & Ht & Hs & Hi & _).
  constructor; rewrite ?Hp, ?Ht, ?Hs, ?Hi; done.
Qed.

(** C5: after valid records only, each of the three buffers holds the
    last [n] entries appended to it, [n] the capacity: the time, the score
    and the impact of one record stand at one index, the buffers have one
    length, at most [n], and the oldest entry leaves first.  Whatever the
    line, a call keeps the lengths equal and within the capacity. *)
Theorem rolling_buffers_aligned
    (n : nat) (calls : list (timestamp * string)) (fs : list fields) :
  Forall2 (fun call f => line_fields (snd call) = Some f) calls fs ->
  (items (timestamps (run calls (init n))) = lastn n (map fst calls) /\
   items (gospel_scores (run calls (init n))) =
     lastn n (map (fun f => score_value (f_text f)) fs) /\
   items (faith_impact (run calls (init n))) =
     lastn n (map (fun f => impact_value (f_text f) (f_sentiment f)) fs)) /\
  (length (items (gospel_scores (run calls (init n)))) =
     length (items (timestamps (run calls (init n)))) /\
   length (items (faith_impact (run calls (init n)))) =
     length (items (timestamps (run calls (init n)))) /\
   (length (items (timestamps (run calls (init n)))) <= n)%nat) /\
  (forall now line self,
     buffers_ok self -> buffers_ok (snd (process_message now line self))).
Proof.
  intros Hfs.
  destruct (run_valid_buffers n calls fs Hfs) as (_ & -> & -> & -> & _).
  cbn [items]. split_and!; try done.
  - rewrite !lastn_length, !length_map. by rewrite (Forall2_length _ _ _ Hfs).
  - rewrite !lastn_length, !length_map. by rewrite (Forall2_length _ _ _ Hfs).
  - rewrite lastn_length. lia.
  - intros now line self.
    apply (process_message_relates (fun a b => buffers_ok a -> buffers_ok b)); try done.
    + intros a b c Hab Hbc Ha. auto.
    + intros v a. apply buffers_ok_scored.
    + intros; by apply buffers_ok_append.
    + by intros a [].
    + by intros a [].
    + by intros k a [].
    + by intros k a [].
    + by intros a [].
    + by intros a [].
Qed.

(** C10: the faith impact is not clamped.  For a valid record whose score
    [s] is positive and whose binary64 sentiment [v] makes [s * v] exceed
    1, the impact [s * max(v, 0.3)] is [s * v], exceeds 1, and is the value
    appended to the rolling impact buffer. *)
Theorem faith_impact_unclamped
    (now : timestamp) (line : string) (f : fields) (self : GospelAnalyzer) (s : pynum) :
  line_fields line = Some f ->
  F64.is_binary64 (f_sentiment f) ->
  (0 < maxlen (faith_impact self))%nat ->
  fst (calculate_gospel_score (JStr (f_text f)) self) = Returned s ->
  num_gtb s F64.zero = true ->
  F64.gtb (num_mul s (f_sentiment f)) F64.c1_0 = true ->
  exists impact,
    fst (calculate_faith_impact s (f_sentiment f) self) = Returned impact /\
    impact = num_mul s (F64.py_max (f_sentiment f) F64.c0_3) /\
    impact = num_mul s (f_sentiment f) /\
    F64.gtb impact F64.c1_0 = true /\
    last (items (faith_impact (snd (process_message now line self)))) = Some impact.
Proof.
  intros Hf Hv Hcap Hs Hpos Hgt.
  rewrite calculate_gospel_score_text in Hs. injection Hs as <-.
  exists (impact_value (f_text f) (f_sentiment f)).
  pose proof (impact_value_above_one _ _ Hv Hgt) as Heq.
  split_and!.
  - reflexivity.
  - reflexivity.
  - exact Heq.
  - by rewrite Heq.
  - rewrite (process_message_valid _ _ f _ Hf). cbn [snd].
    destruct (after_valid_series now f self) as (_ & _ & _ & -> & _).
    by apply deque_append_last.
Qed.

(** C2 (as amended): [process_message] returns [None].  For a valid record
    it leaves the counters and the rolling buffers in the one analyzer,
    updated in place, and [update_chart], which changes nothing, reads its
    figures from that analyzer once two scores are buffered. *)
Theorem process_message_returns_none
    (now : timestamp) (line : string) (f : fields) (self : GospelAnalyzer) :
  line_fields line = Some f ->
  exists self',
    process_message now line self = (Returned tt, self') /\
    timestamps self' = deque_append (timestamps self) now /\
    gospel_scores self' = deque_append (gospel_scores self) (score_value (f_text f)) /\
    faith_impact self' =
      deque_append (faith_impact self) (impact_value (f_text f) (f_sentiment f)) /\
    total_messages self' = total_messages self + 1 /\
    update_chart self' = (Returned tt, self') /\
    ((2 <= length (items (gospel_scores self')))%nat ->
     chart_inputs self' =
       Some (mk_chart_data (items (timestamps self')) (items (gospel_scores self'))
               (items (faith_impact self')) (keyword_counts self')
               (total_messages self') (gospel_messages self')
               (bold_witness_count self') (evangelistic_opportunities self')
               (size (authors_sharing_gospel self')))).
Proof.
  intros Hf. exists (after_valid now f self).
  destruct (after_valid_series now f self) as (_ & Ht & Hs & Hi & Hn).
  split_and!; try done.
  - by apply process_message_valid.
  - intros Hlen. unfold chart_inputs.
    destruct (Nat.ltb_spec (length (items (gospel_scores (after_valid now f self)))) 2);
      [lia | reflexivity].
Qed.

(** X2: a valid record adds one to [gospel_messages], its author to the
    sharers and one to the count of its category exactly when its score
    exceeds 0.3; one to [bold_witness_count] and to [high_impact_messages]
    exactly when its impact exceeds 0.7; and one to
    [evangelistic_opportunities] exactly when it is an opportunity. *)
Theorem valid_record_counters
    (now : timestamp) (line : string) (f : fields) (self : GospelAnalyzer) :
  line_fields line = Some f ->
  forall self' gospel bold,
    self' = snd (process_message now line self) ->
    gospel = num_gtb (score_value (f_text f)) F64.c0_3 ->
    bold = F64.gtb (impact_value (f_text f) (f_sentiment f)) F64.c0_7 ->
    gospel_messages self' = gospel_messages self + (if gospel then 1 else 0) /\
    authors_sharing_gospel self' =
      (if gospel then {[KStr (f_author f)]} ∪ authors_sharing_gospel self
       else authors_sharing_gospel self) /\
    (forall k, count_of (category_gospel_counts self') k =
               count_of (category_gospel_counts self) k +
               (if gospel && bool_decide (KStr (f_category f) = k) then 1 else 0)) /\
    bold_witness_count self' = bold_witness_count self + (if bold then 1 else 0) /\
    high_impact_messages self' = high_impact_messages self + (if bold then 1 else 0) /\
    evangelistic_opportunities self' =
      evangelistic_opportunities self +
      (if opportunity_value (f_text f) (f_sentiment f) then 1 else 0).
Proof.
  intros Hf self' gospel bold -> -> ->.
  rewrite (process_message_valid _ _ f _ Hf). cbn [snd].
  destruct (scored_frame_counters (JStr (f_text f)) self) as (Hg & Hh & Ha & Hc & Hb & Ho).
  unfold after_valid. cbv zeta.
  destruct (num_gtb _ _), (F64.gtb _ _), (opportunity_value _ _);
    cbn [gospel_messages authors_sharing_gospel category_gospel_counts bold_witness_count
         high_impact_messages evangelistic_opportunities
         incr_opportunities incr_bold incr_category add_author incr_gospel incr_total
         append_series andb];
    rewrite ?Hg, ?Hh, ?Ha, ?Hc, ?Hb, ?Ho;
    split_and!; try done; try lia;
    intros k; rewrite ?count_of_bump; repeat case_decide; case_bool_decide; try done; lia.
Qed.

End Claims.

(** ** The claims at concrete inputs *)

(** C1, counterexample: "jesus faith" hits exactly "jesus" and "faith", two
    keywords in two categories, and its score is the double above 0.6, not
    0.6. *)
Lemma jesus_faith_score_is_not_0_6 :
  List.filter (PyStr.contains (PyStr.lower "jesus faith")) all_keywords
    = ["jesus"; "faith"]%string /\
  keyword_hits "jesus faith" = 2 /\ category_hits "jesus faith" = 2 /\
  fst (calculate_gospel_score (JStr "jesus faith") gospel_analyzer)
    = Returned (PFloat (S754_finite false 0x13333333333334 (-53))) /\
  F64.c0_6 = S754_finite false 0x13333333333333 (-53) /\
  F64.eqb (S754_finite false 0x13333333333334 (-53)) F64.c0_6 = false.
Proof. vm_compute. repeat split; reflexivity. Qed.

(** C1 at "Jesus and FAITH": two keywords in two categories. *)
Lemma gospel_score_formula_witness :
  exists s,
    fst (calculate_gospel_score (JStr "Jesus and FAITH") gospel_analyzer) = Returned s /\
    to_float s = S754_finite false 0x13333333333334 (-53).
Proof.
  destruct (gospel_score_formula "Jesus and FAITH" gospel_analyzer)
    as (s & Hs & _ & _ & Hexample).
  exists s. split; [exact Hs |].
  apply Hexample; vm_compute; reflexivity.
Defined.

(** C3, counterexample: the text "jesus" has a positive score, and with
    the sentiment NaN its impact is NaN, which is not positive; the line
    [line_nan] puts that NaN into the impact buffer. *)
Lemma nan_sentiment_impact_not_positive :
  fst (calculate_gospel_score (JStr "jesus") gospel_analyzer) = Returned (PFloat score_jesus) /\
  num_gtb (PFloat score_jesus) F64.zero = true /\
  fst (calculate_faith_impact (PFloat score_jesus) S754_nan gospel_analyzer)
    = Returned S754_nan /\
  F64.gtb S754_nan F64.zero = false /\
  items (faith_impact (snd (@process_message sample_builtins 1 line_nan gospel_analyzer)))
    = [S754_nan].
Proof. vm_compute. repeat split; reflexivity. Qed.

(** C3 at "jesus" and sentiment -0.5: the impact is positive. *)
Lemma faith_impact_floor_witness :
  F64.gtb (num_mul (PFloat score_jesus) (F64.py_max F64.cm0_5 F64.c0_3)) F64.zero = true.
Proof.
  destruct (faith_impact_floor (PFloat score_jesus) F64.cm0_5 "jesus" gospel_analyzer)
    as (_ & _ & Hpos).
  apply (Hpos (PFloat score_jesus)); vm_compute; reflexivity.
Defined.

(** C4 at the record ["hello", 0.0], no opportunity, and at a record with
    sentiment 0.9, an opportunity. *)
Lemma evangelistic_opportunity_iff_witness :
  @is_evangelistic_opportunity sample_builtins
     [("message", JStr "hello"); ("sentiment", JFloat F64.zero)]%string gospel_analyzer
  = (Returned false, gospel_analyzer) /\
  @is_evangelistic_opportunity sample_builtins dict_faith gospel_analyzer
  = (Returned true, gospel_analyzer).
Proof.
  split.
  - destruct (@evangelistic_opportunity_iff sample_builtins
                [("message", JStr "hello"); ("sentiment", JFloat F64.zero)]%string
                "hello" F64.zero gospel_analyzer eq_refl eq_refl)
      as (b & Hb & _ & _ & Hfalse).
    rewrite Hb, (Hfalse eq_refl eq_refl). reflexivity.
  - destruct (@evangelistic_opportunity_iff sample_builtins dict_faith
                "Jesus gives faith" F64.c0_9 gospel_analyzer eq_refl eq_refl)
      as (b & Hb & _ & Htrue & _).
    rewrite Hb, (Htrue eq_refl). reflexivity.
Defined.

(** C7 at one line of each rejected kind. *)
Lemma malformed_line_skipped_witness :
  @process_message sample_builtins 5 line_garbage gospel_analyzer
    = (Returned tt, gospel_analyzer) /\
  @process_message sample_builtins 5 line_array gospel_analyzer
    = (Returned tt, gospel_analyzer) /\
  @process_message sample_builtins 5 line_high gospel_analyzer
    = (Returned tt, gospel_analyzer).
Proof.
  split_and!; apply (@malformed_line_skipped sample_builtins).
  - left. exists JSONDecodeError. reflexivity.
  - right. left. exists (JArr [JInt 1; JInt 2]). split; [reflexivity | discriminate].
  - right. right. exists dict_high, ValueError. split; reflexivity.
Defined.

Lemma sample_calls_valid :
  Forall2 (fun call f => @line_fields sample_builtins (snd call) = Some f)
    sample_calls sample_fields.
Proof. repeat constructor. Qed.

(** C9 at three valid lines. *)
Lemma total_messages_counts_valid_records_witness :
  total_messages (@run sample_builtins sample_calls gospel_analyzer) = 3.
Proof.
  apply (proj2 (@total_messages_counts_valid_records sample_builtins
                  sample_calls 100 gospel_analyzer
                  ltac:(repeat constructor; eexists; reflexivity))).
Defined.

Lemma buffers_ok_init n : buffers_ok (init n).
Proof. constructor; cbn; lia. Qed.

(** C5 at three valid lines and capacity 2: the first entry has left; and
    at a malformed line after them, which keeps the lengths as they are. *)
Lemma rolling_buffers_aligned_witness :
  (items (timestamps (@run sample_builtins sample_calls (init 2))) = [2; 3] /\
   items (gospel_scores (@run sample_builtins sample_calls (init 2)))
     = [PInt 0; PFloat F64.c1_0] /\
   items (faith_impact (@run sample_builtins sample_calls (init 2)))
     = [F64.zero; F64.c2_0]) /\
  buffers_ok (snd (@process_message sample_builtins 4 line_nan (init 2))).
Proof.
  destruct (@rolling_buffers_aligned sample_builtins 2 sample_calls sample_fields
              sample_calls_valid) as ((-> & -> & ->) & _ & Hkeep).
  split.
  - vm_compute. repeat split; reflexivity.
  - apply Hkeep, buffers_ok_init.
Defined.

(** C10 at score 1.0 and sentiment 2.0: the impact 2.0 is buffered. *)
Lemma faith_impact_unclamped_witness :
  last (items (faith_impact (snd (@process_message sample_builtins 7 line_bold gospel_analyzer))))
    = Some F64.c2_0 /\
  F64.gtb F64.c2_0 F64.c1_0 = true.
Proof.
  destruct (@faith_impact_unclamped sample_builtins 7 line_bold fields_bold gospel_analyzer
              (PFloat F64.c1_0))
    as (impact & _ & _ & Heq & Hgt & Hlast).
  - reflexivity.
  - reflexivity.
  - cbn. lia.
  - vm_compute. reflexivity.
  - reflexivity.
  - reflexivity.
  - rewrite Hlast, Heq. vm_compute. split; reflexivity.
Defined.

(** C2 at two valid lines: [None] is returned, and after the second
    call the renderer reads two buffered scores and the count 2. *)
Lemma process_message_returns_none_witness :
  fst (@process_message sample_builtins 1 line_faith gospel_analyzer) = Returned tt /\
  exists self' chart,
    @process_message sample_builtins 2 line_bold
      (snd (@process_message sample_builtins 1 line_faith gospel_analyzer))
      = (Returned tt, self') /\
    chart_inputs self' = Some chart /\
    chart_timestamps chart = [1; 2] /\ chart_total chart = 2.
Proof.
  split.
  - destruct (@process_message_returns_none sample_builtins 1 line_faith fields_faith
                gospel_analyzer eq_refl) as (self' & -> & _).
    reflexivity.
  - destruct (@process_message_returns_none sample_builtins 2 line_bold fields_bold
                (snd (@process_message sample_builtins 1 line_faith gospel_analyzer)) eq_refl)
      as (self' & Hrun & Ht & Hs & _ & Hn & _ & Hchart).
    eexists self', _. split; [exact Hrun |]. split.
    + apply Hchart. rewrite Hs. vm_compute. lia.
    + cbn [chart_timestamps chart_total]. rewrite Ht, Hn. vm_compute. split; reflexivity.
Defined.

(** C2, counterexample: two calls on a valid line both return [None],
    while the analyzer counts one message after the first and two after
    the second: the value returned is no snapshot of the counters. *)
Lemma process_message_returns_no_snapshot :
  fst (@process_message sample_builtins 1 line_faith gospel_analyzer) = Returned tt /\
  fst (@process_message sample_builtins 2 line_faith
         (snd (@process_message sample_builtins 1 line_faith gospel_analyzer)))
    = Returned tt /\
  total_messages (snd (@process_message sample_builtins 1 line_faith gospel_analyzer)) = 1 /\
  total_messages
    (snd (@process_message sample_builtins 2 line_faith
            (snd (@process_message sample_builtins 1 line_faith gospel_analyzer)))) = 2.
Proof. vm_compute. repeat split; reflexivity. Qed.

(** X2 at the sample record: a gospel message and an opportunity, not a
    bold witness. *)
Lemma valid_record_counters_witness :
  gospel_messages (snd (@process_message sample_builtins 1 line_faith gospel_analyzer)) = 1 /\
  bold_witness_count (snd (@process_message sample_builtins 1 line_faith gospel_analyzer)) = 0 /\
  evangelistic_opportunities
    (snd (@process_message sample_builtins 1 line_faith gospel_analyzer)) = 1.
Proof.
  destruct (@valid_record_counters sample_builtins 1 line_faith fields_faith gospel_analyzer
              eq_refl _ _ _ eq_refl eq_refl eq_refl) as (Hg & _ & _ & Hb & _ & Ho).
  rewrite Hg, Hb, Ho. vm_compute. repeat split; reflexivity.
Defined.

(** ** Counted lines and the counters' bookkeeping *)

Lemma size_add_author (k : pykey) (X : gset pykey) :
  (size ({[k]} ∪ X) <= S (size X))%nat.
Proof.
  rewrite size_union_alt, size_singleton.
  pose proof (subseteq_size (X ∖ {[k]}) X (subseteq_difference_l X {[k]} X (reflexivity X))).
  lia.
Qed.

Lemma category_count_zero m cats :
  category_count m cats = 0 <-> hit_count m (concat (map snd cats)) = 0.
Proof.
  induction cats as [|[name kws] cats IH].
  - done.
  - cbn [map concat snd]. rewrite hit_count_app.
    pose proof (hit_count_bounds m kws). pose proof (hit_count_bounds m (concat (map snd cats))).
    assert (Hcons : category_count m ((name, kws) :: cats) =
                    (if existsb (PyStr.contains m) kws then 1 else 0) + category_count m cats).
    { unfold category_count. cbn [List.filter snd].
      destruct (existsb _ kws); cbn [length]; lia. }
    assert (Hcc : 0 <= category_count m cats) by (unfold category_count; lia).
    assert (Hex : existsb (PyStr.contains m) kws = true <-> 0 < hit_count m kws).
    { clear. induction kws as [|kw kws IH]; cbn [existsb].
      - unfold hit_count. cbn. split; [discriminate | lia].
      - rewrite hit_count_cons, orb_true_iff, IH.
        pose proof (hit_count_bounds m kws). destruct (PyStr.contains m kw); intuition lia. }
    rewrite Hcons. destruct (Z.eq_dec (hit_count m kws) 0) as [Hnone|Hsome].
    + assert (He : existsb (PyStr.contains m) kws = false).
      { destruct (existsb _ kws); [| done]. assert (0 < hit_count m kws) by by apply Hex. lia. }
      rewrite He. lia.
    + assert (He : existsb (PyStr.contains m) kws = true) by (apply Hex; lia).
      rewrite He. lia.
Qed.

Lemma category_hits_zero text : category_hits text = 0 <-> keyword_hits text = 0.
Proof. apply (category_count_zero (PyStr.lower text) gospel_keywords). Qed.

Lemma gospel_grid_checked :
  forallb (fun kc => gospel_check (fst kc) (snd kc)) score_grid = true.
Proof. vm_compute. reflexivity. Qed.

Lemma score_formula_gospel k c :
  1 <= k <= 42 -> 1 <= c <= 8 -> F64.gtb (score_formula k c) F64.c0_3 = true.
Proof.
  intros Hk Hc.
  pose proof (proj1 (forallb_forall _ _) gospel_grid_checked (k, c)) as Hall.
  assert (Hin : In (k, c) score_grid).
  { apply list_elem_of_In. unfold score_grid.
    apply list_elem_of_bind. exists k. split; [| apply elem_of_seqZ; lia].
    apply list_elem_of_bind. exists c. split; [by left | apply elem_of_seqZ; lia]. }
  specialize (Hall Hin). unfold gospel_check in Hall. cbn [fst snd] in Hall.
  destruct (Z.eqb_spec k 0); [lia |]. destruct (Z.eqb_spec c 0); [lia |]. exact Hall.
Qed.

(** A score is zero, when no keyword occurs, or above 0.3. *)
Lemma score_value_gospel text :
  (keyword_hits text = 0 /\ to_float (score_value text) = F64.zero /\
   num_gtb (score_value text) F64.c0_3 = false) \/
  (0 < keyword_hits text /\ num_gtb (score_value text) F64.c0_3 = true).
Proof.
  pose proof (keyword_hits_range text) as Hk. pose proof (category_hits_range text) as Hc.
  pose proof (category_hits_zero text) as Hz.
  destruct (Z.eq_dec (keyword_hits text) 0) as [Hk0|Hk0].
  - left. assert (Hc0 : category_hits text = 0) by (by apply Hz).
    unfold num_gtb. rewrite score_value_float, Hk0, Hc0. by vm_compute.
  - right. split; [lia |]. unfold num_gtb. rewrite score_value_float.
    apply score_formula_gospel; lia.
Qed.

(** Zero times anything is not above 0.7. *)
Lemma mul_zero_not_bold w : F64.gtb (F64.mul F64.zero w) F64.c0_7 = false.
Proof. by destruct w as [[]|[]| |[] m e]. Qed.

Lemma calculate_gospel_score_rejects v self :
  message_accepted v = false ->
  calculate_gospel_score v self = (Raised AttributeError, self).
Proof.
  unfold message_accepted, calculate_gospel_score.
  destruct v; try discriminate; intros Ht; apply negb_false_iff in Ht;
    rewrite Ht; reflexivity.
Qed.

Lemma calculate_gospel_score_accepts v self :
  message_accepted v = true ->
  exists score,
    calculate_gospel_score v self = (Returned score, snd (calculate_gospel_score v self)) /\
    unit_score (to_float score) = true /\
    (to_float score = F64.zero /\ num_gtb score F64.c0_3 = false \/
     num_gtb score F64.c0_3 = true).
Proof.
  intros Hacc. destruct v as [| | | |text| |]; cbn [message_accepted] in Hacc.
  5: { exists (score_value text). split; [apply calculate_gospel_score_pair |].
       split; [apply score_value_unit |].
       destruct (score_value_gospel text) as [(_ & Hz & Hf)|(_ & Ht)]; auto. }
  all: exists (PInt 0); unfold calculate_gospel_score; rewrite Hacc; auto.
Qed.

Lemma scored_keywords v self k :
  count_of (keyword_counts self) k
  <= count_of (keyword_counts (snd (calculate_gospel_score v self))) k
  <= count_of (keyword_counts self) k + 1.
Proof.
  unfold calculate_gospel_score. destruct (negb (truthy v)); [cbn; lia |].
  destruct v; try (cbn; lia). cbn [snd keyword_counts].
  unfold scan_taxonomy. rewrite scan_categories_counts. cbn [scan_counts]. fold all_keywords.
  rewrite (found_times_NoDup _ _ _ all_keywords_NoDup).
  destruct (_ && _); lia.
Qed.

Section Bookkeeping.
Context `{PyBuiltins}.

Lemma process_dict_unfold now d :
  process_dict now d =
    (sentiment ← lift (py_float (dict_get d "sentiment" (JInt 0)));
     gospel_score ← calculate_gospel_score (dict_get d "message" (JStr ""));
     impact ← calculate_faith_impact gospel_score sentiment;
     update (append_series now gospel_score impact);;
     update incr_total;;
     record_counters d (dict_get d "author" (JStr "Unknown"))
       (dict_get d "category" (JStr "other")) gospel_score impact).
Proof. reflexivity. Qed.

Lemma is_evangelistic_opportunity_outcome d self :
  is_evangelistic_opportunity d self = (fst (is_evangelistic_opportunity d self), self).
Proof.
  rewrite <- (is_evangelistic_opportunity_pure d self) at 3.
  by destruct (is_evangelistic_opportunity d self).
Qed.

(** What the conditional updates do to an analyzer, whichever of them
    raises. *)
Lemma record_counters_effect d author category score impact a :
  let b := snd (record_counters d author category score impact a) in
  (max_points b = max_points a /\ timestamps b = timestamps a /\
   gospel_scores b = gospel_scores a /\ faith_impact b = faith_impact a /\
   total_messages b = total_messages a /\ keyword_counts b = keyword_counts a) /\
  gospel_messages b = gospel_messages a + (if num_gtb score F64.c0_3 then 1 else 0) /\
  (bold_witness_count a <= bold_witness_count b
   <= bold_witness_count a + (if F64.gtb impact F64.c0_7 then 1 else 0)) /\
  high_impact_messages b - high_impact_messages a
    = bold_witness_count b - bold_witness_count a /\
  (evangelistic_opportunities a <= evangelistic_opportunities b
   <= evangelistic_opportunities a + 1) /\
  (size (authors_sharing_gospel b)
   <= size (authors_sharing_gospel a) + (if num_gtb score F64.c0_3 then 1 else 0))%nat /\
  (forall k, count_of (category_gospel_counts a) k
             <= count_of (category_gospel_counts b) k
             <= count_of (category_gospel_counts a) k
                + (if num_gtb score F64.c0_3 then 1 else 0)).
Proof.
  unfold record_counters, with_key, when, update_chart, update, raise, mbind, M_bind, mret, M_ret.
  destruct (num_gtb score F64.c0_3);
    [destruct (hash_key author) as [ka|]; [destruct (hash_key category) as [kc|] |] |];
    cbn [fst snd];
    try (destruct (F64.gtb impact F64.c0_7);
         rewrite is_evangelistic_opportunity_outcome;
         destruct (fst (is_evangelistic_opportunity d _)) as [[]|e]);
    cbn; try destruct (F64.gtb impact F64.c0_7);
    (split_and!; try done; try lia;
     try (intros k; rewrite ?count_of_bump; try case_decide; lia);
     try (pose proof (size_add_author ka (authors_sharing_gospel a)); lia)).
Qed.

End Bookkeeping.

Lemma bold_needs_gospel score w :
  (to_float score = F64.zero /\ num_gtb score F64.c0_3 = false \/
   num_gtb score F64.c0_3 = true) ->
  F64.gtb (num_mul score w) F64.c0_7 = true -> num_gtb score F64.c0_3 = true.
Proof.
  intros [[Hz _]|Hg] Hbold; [| done].
  unfold num_mul in Hbold. rewrite Hz, mul_zero_not_bold in Hbold. discriminate.
Qed.

Section CountedLines.
Context `{PyBuiltins}.

Lemma process_dict_uncounted now d self :
  dict_counted d = false -> snd (process_dict now d self) = self.
Proof.
  unfold dict_counted. rewrite process_dict_unfold. unfold mbind, M_bind, lift.
  destruct (py_float _) as [v|e]; [| done]. intros Hrej.
  by rewrite (calculate_gospel_score_rejects _ self Hrej).
Qed.

(** A counted dictionary: the score is computed, the series and the total
    are updated, and the conditional updates follow. *)
Lemma process_dict_counted now d self :
  dict_counted d = true ->
  exists v score,
    py_float (dict_get d "sentiment" (JInt 0)) = Returned v /\
    fst (calculate_gospel_score (dict_get d "message" (JStr "")) self) = Returned score /\
    unit_score (to_float score) = true /\
    (to_float score = F64.zero /\ num_gtb score F64.c0_3 = false \/
     num_gtb score F64.c0_3 = true) /\
    snd (process_dict now d self) =
      snd (record_counters d (dict_get d "author" (JStr "Unknown"))
             (dict_get d "category" (JStr "other")) score
             (num_mul score (F64.py_max v F64.c0_3))
             (incr_total
                (append_series now score (num_mul score (F64.py_max v F64.c0_3))
                   (snd (calculate_gospel_score (dict_get d "message" (JStr "")) self))))).
Proof.
  unfold dict_counted. rewrite process_dict_unfold. unfold mbind, M_bind, lift.
  destruct (py_float _) as [v|e]; [| done]. intros Hacc.
  destruct (calculate_gospel_score_accepts _ self Hacc) as (score & Hrun & Hunit & Hcases).
  exists v, score. rewrite Hrun. cbn [fst]. split_and!; try done.
Qed.

Lemma process_message_uncounted now line self :
  counted line = false -> process_message now line self = (Returned tt, self).
Proof.
  unfold counted, process_message, process_decoded, try_except, mbind, M_bind, lift.
  destruct (json_loads line) as [[| | | | | |d]|e]; try done. intros Hd.
  pose proof (process_dict_uncounted now d self Hd) as Hsame.
  destruct (process_dict now d self) as [[[]|e] a]; cbn [snd] in Hsame; by subst.
Qed.

Lemma process_message_counted now line self :
  counted line = true ->
  exists d, json_loads line = Returned (JObj d) /\ dict_counted d = true /\
            snd (process_message now line self) = snd (process_dict now d self).
Proof.
  unfold counted, process_message, process_decoded, try_except, mbind, M_bind, lift.
  destruct (json_loads line) as [[| | | | | |d]|e]; try done. intros Hd.
  exists d. split_and!; try done.
  by destruct (process_dict now d self) as [[[]|e] a].
Qed.

Lemma process_message_counted_series now line self :
  counted line = true ->
  exists score impact,
    total_messages (snd (process_message now line self)) = total_messages self + 1 /\
    timestamps (snd (process_message now line self))
      = deque_append (timestamps self) now /\
    gospel_scores (snd (process_message now line self))
      = deque_append (gospel_scores self) score /\
    faith_impact (snd (process_message now line self))
      = deque_append (faith_impact self) impact.
Proof.
  intros Hc.
  destruct (process_message_counted now line self Hc) as (d & _ & Hd & ->).
  destruct (process_dict_counted now d self Hd) as (v & score & _ & _ & _ & _ & ->).
  exists score, (num_mul score (F64.py_max v F64.c0_3)).
  destruct (record_counters_effect d (dict_get d "author" (JStr "Unknown"))
              (dict_get d "category" (JStr "other")) score
              (num_mul score (F64.py_max v F64.c0_3))
              (incr_total
                 (append_series now score (num_mul score (F64.py_max v F64.c0_3))
                    (snd (calculate_gospel_score (dict_get d "message" (JStr "")) self)))))
    as ((_ & -> & -> & -> & -> & _) & _).
  destruct (scored_frame (dict_get d "message" (JStr "")) self) as (_ & Ht & Hs & Hi & Hn).
  cbn. rewrite Ht, Hs, Hi, Hn. done.
Qed.

(** X3: a line that is not counted leaves the analyzer exactly as it was;
    a counted line adds one to [total_messages] and one entry to each of the
    three rolling buffers.  (A line is counted when it decodes to an object
    whose sentiment converts and whose message is a text or a false
    value.) *)
Theorem counted_or_untouched (now : timestamp) (line : string) (self : GospelAnalyzer) :
  (counted line = false -> process_message now line self = (Returned tt, self)) /\
  (counted line = true ->
   exists score impact,
     total_messages (snd (process_message now line self)) = total_messages self + 1 /\
     timestamps (snd (process_message now line self))
       = deque_append (timestamps self) now /\
     gospel_scores (snd (process_message now line self))
       = deque_append (gospel_scores self) score /\
     faith_impact (snd (process_message now line self))
       = deque_append (faith_impact self) impact).
Proof.
  split; [apply process_message_uncounted | apply process_message_counted_series].
Qed.

Lemma counters_ok_init n : counters_ok (init n).
Proof.
  constructor; cbn; try lia; done.
Qed.

Lemma process_message_counters_ok now line self :
  counters_ok self -> counters_ok (snd (process_message now line self)).
Proof.
  intros Hok. destruct (counted line) eqn:Hc.
  2: { by rewrite (process_message_uncounted now line self Hc). }
  destruct (process_message_counted now line self Hc) as (d & _ & Hd & ->).
  destruct (process_dict_counted now d self Hd) as (v & score & _ & _ & _ & Hcases & ->).
  set (msg := dict_get d "message" (JStr "")) in *.
  set (impact := num_mul score (F64.py_max v F64.c0_3)) in *.
  set (a1 := incr_total (append_series now score impact (snd (calculate_gospel_score msg self)))).
  destruct (record_counters_effect d (dict_get d "author" (JStr "Unknown"))
              (dict_get d "category" (JStr "other")) score impact a1)
    as ((_ & _ & _ & _ & Htot & Hkw) & Hg & Hb & Hh & Ho & Hsz & Hcat).
  destruct (scored_frame_counters msg self) as (Hg0 & Hh0 & Ha0 & Hc0 & Hb0 & Ho0).
  destruct (scored_frame msg self) as (_ & _ & _ & _ & Hn0).
  assert (Hbold : F64.gtb impact F64.c0_7 = true -> num_gtb score F64.c0_3 = true)
    by apply (bold_needs_gospel _ _ Hcases).
  destruct Hok as [Kg Kb Kh Ko Ka Kc Kk].
  cbn [a1 total_messages gospel_messages bold_witness_count high_impact_messages
       evangelistic_opportunities authors_sharing_gospel category_gospel_counts
       keyword_counts incr_total append_series] in Htot, Hkw, Hg, Hb, Hh, Ho, Hsz, Hcat.
  rewrite ?Hg0, ?Hh0, ?Ha0, ?Hc0, ?Hb0, ?Ho0, ?Hn0 in *.
  assert (Hgate : (if F64.gtb impact F64.c0_7 then 1 else 0)
                  <= (if num_gtb score F64.c0_3 then 1 else 0)).
  { destruct (F64.gtb impact F64.c0_7); [rewrite Hbold by done |];
      destruct (num_gtb score F64.c0_3); lia. }
  assert (Hg1 : 0 <= (if num_gtb score F64.c0_3 then 1 else 0) <= 1)
    by (destruct (num_gtb score F64.c0_3); lia).
  constructor; rewrite ?Htot, ?Hg, ?Hkw; try lia.
  - destruct (num_gtb score F64.c0_3); lia.
  - intros k. specialize (Hcat k). specialize (Kc k). lia.
  - intros k. pose proof (scored_keywords msg self k). specialize (Kk k). lia.
Qed.

(** X4: from a fresh analyzer of any capacity and after any lines, the
    counters agree: [gospel_messages] is at most [total_messages], a bold
    witness is always a gospel message, [high_impact_messages] equals
    [bold_witness_count], opportunities are at most the total, there are
    at most as many authors and at most as large a category count as
    gospel messages, and no keyword count exceeds the total. *)
Theorem counters_agree (n : nat) (calls : list (timestamp * string)) :
  counters_ok (run calls (init n)).
Proof.
  induction calls as [|call calls IH] using rev_ind.
  - apply counters_ok_init.
  - unfold run in *. rewrite fold_left_app. cbn [fold_left].
    by apply process_message_counters_ok.
Qed.

(** The counted lines among the calls. *)
Lemma run_counted_series n calls :
  maxlen (gospel_scores (run calls (init n))) = n /\
  length (items (gospel_scores (run calls (init n))))
    = Nat.min n (length (List.filter (fun call => counted (snd call)) calls)) /\
  total_messages (run calls (init n))
    = Z.of_nat (length (List.filter (fun call => counted (snd call)) calls)) /\
  timestamps (run calls (init n))
    = mk_deque n (lastn n (map fst (List.filter (fun call => counted (snd call)) calls))).
Proof.
  induction calls as [|call calls IH] using rev_ind.
  { cbn. split_and!; try done. lia. }
  destruct IH as (Hmax & Hlen & Htot & Hts).
  rewrite run_snoc, List.filter_app. cbn [List.filter].
  destruct (counted (snd call)) eqn:Hc.
  - destruct (process_message_counted_series (fst call) (snd call) (run calls (init n)) Hc)
      as (score & impact & -> & -> & -> & _).
    rewrite deque_append_maxlen, deque_append_length by lia.
    rewrite Hts, deque_append_lastn, map_app, !length_app. cbn [map length].
    split_and!; try done; lia.
  - rewrite (process_message_uncounted _ _ _ Hc). cbn [snd].
    rewrite app_nil_r. done.
Qed.

(** X5: from a fresh analyzer of capacity [n], [total_messages] is the
    number of counted lines, the buffered times are the clock readings of
    the last [n] counted lines, and [update_chart] has figures to draw
    exactly when the capacity is at least 2 and at least two lines were
    counted. *)
Theorem chart_needs_two_counted (n : nat) (calls : list (timestamp * string)) :
  total_messages (run calls (init n))
    = Z.of_nat (length (List.filter (fun call => counted (snd call)) calls)) /\
  items (timestamps (run calls (init n)))
    = lastn n (map fst (List.filter (fun call => counted (snd call)) calls)) /\
  (is_Some (chart_inputs (run calls (init n))) <->
   (2 <= n /\ 2 <= length (List.filter (fun call => counted (snd call)) calls))%nat).
Proof.
  destruct (run_counted_series n calls) as (_ & Hlen & Htot & Hts).
  split; [exact Htot |]. split; [by rewrite Hts |].
  unfold chart_inputs. rewrite Hlen.
  destruct (Nat.ltb_spec (Nat.min n (length (List.filter
              (fun call => counted (snd call)) calls))) 2) as [Hlt|Hge].
  - split; [intros [x Hx]; discriminate | lia].
  - split; [lia | eauto].
Qed.

Lemma dict_get_absent d key default :
  key ∉ map fst d -> dict_get d key default = default.
Proof.
  unfold dict_get. revert default.
  induction d as [|[k v] d IH]; intros default Hnot; [done |].
  cbn [fold_left fst snd map] in *.
  apply not_elem_of_cons in Hnot as [Hne Hnot].
  destruct (String.eqb_spec k key); [congruence |]. by apply IH.
Qed.

(** X6: an object with none of the keys [message], [author], [sentiment]
    and [category] is counted with the defaults: score 0 and impact 0.0 are
    buffered, [total_messages] grows by one, and nothing else changes. *)
Theorem record_without_fields
    (now : timestamp) (line : string) (d : list (string * json)) (self : GospelAnalyzer) :
  json_loads line = Returned (JObj d) ->
  "message"%string ∉ map fst d -> "author"%string ∉ map fst d ->
  "sentiment"%string ∉ map fst d -> "category"%string ∉ map fst d ->
  process_message now line self =
    (Returned tt, incr_total (append_series now (PInt 0) F64.zero self)).
Proof.
  intros Hl Hm Ha Hs Hc.
  unfold process_message, process_decoded, try_except, mbind at 1, M_bind at 1, lift.
  rewrite Hl. unfold process_dict, is_evangelistic_opportunity.
  rewrite !(dict_get_absent d "message" _ Hm), !(dict_get_absent d "author" _ Ha),
    !(dict_get_absent d "sentiment" _ Hs), !(dict_get_absent d "category" _ Hc).
  reflexivity.
Qed.

(** X7: when the message is a false value that is no text ([null],
    [false], [0], [[]] or an empty object) and the sentiment converts, the
    record is counted with score 0, and the call then stops at the
    opportunity test: nothing else changes, whatever the sentiment. *)
Theorem false_message_counted
    (now : timestamp) (line : string) (d : list (string * json)) (v : float)
    (self : GospelAnalyzer) :
  json_loads line = Returned (JObj d) ->
  truthy (dict_get d "message" (JStr "")) = false ->
  (forall text, dict_get d "message" (JStr "") <> JStr text) ->
  py_float (dict_get d "sentiment" (JInt 0)) = Returned v ->
  fst (is_evangelistic_opportunity d self) = Raised AttributeError /\
  process_message now line self =
    (Returned tt,
     incr_total (append_series now (PInt 0) (num_mul (PInt 0) (F64.py_max v F64.c0_3)) self)).
Proof.
  intros Hl Hf Hnt Hs.
  assert (Hopp : forall a, is_evangelistic_opportunity d a = (Raised AttributeError, a)).
  { intros a. unfold is_evangelistic_opportunity.
    destruct (dict_get d "message" (JStr "")) as [| | | |text| |]; try done.
    by destruct (Hnt text). }
  split; [by rewrite Hopp |].
  unfold process_message, process_decoded, try_except, mbind at 1, M_bind at 1, lift.
  rewrite Hl, process_dict_unfold. unfold mbind, M_bind, lift. rewrite Hs.
  unfold calculate_gospel_score. rewrite Hf. cbn [negb mret M_ret calculate_faith_impact].
  unfold update, record_counters, mbind, M_bind.
  replace (num_gtb (PInt 0) F64.c0_3) with false by reflexivity. cbn [when mret M_ret].
  replace (F64.gtb (num_mul (PInt 0) (F64.py_max v F64.c0_3)) F64.c0_7) with false
    by (symmetry; apply mul_zero_not_bold).
  cbn [when mret M_ret]. by rewrite Hopp.
Qed.

(** X8: when a keyword occurs in the text but the author is a list or an
    object, the record is counted as a gospel message and the call stops
    there: no author is added, no category is counted, and neither the
    bold-witness nor the opportunity test is made. *)
Theorem unhashable_author_stops_update
    (now : timestamp) (line : string) (d : list (string * json)) (text : string) (v : float)
    (self : GospelAnalyzer) :
  json_loads line = Returned (JObj d) ->
  dict_get d "message" (JStr "") = JStr text ->
  py_float (dict_get d "sentiment" (JInt 0)) = Returned v ->
  hash_key (dict_get d "author" (JStr "Unknown")) = None ->
  0 < keyword_hits text ->
  process_message now line self =
    (Returned tt,
     incr_gospel
       (incr_total
          (append_series now (score_value text) (impact_value text v)
             (snd (calculate_gospel_score (JStr text) self))))).
Proof.
  intros Hl Hm Hs Ha Hk.
  destruct (score_value_gospel text) as [(Hz & _)|(_ & Hg)]; [lia |].
  unfold process_message, process_decoded, try_except, mbind at 1, M_bind at 1, lift.
  rewrite Hl, process_dict_unfold. unfold mbind, M_bind, lift. rewrite Hs, Hm.
  rewrite calculate_gospel_score_pair. cbn [calculate_faith_impact mret M_ret].
  unfold update, record_counters, mbind, M_bind. fold (impact_value text v).
  rewrite Hg. cbn [when]. unfold update, with_key, mbind, M_bind. rewrite Ha. reflexivity.
Qed.

End CountedLines.

(** X6 at the empty object. *)
Lemma record_without_fields_witness :
  @process_message sample_builtins 2 line_empty gospel_analyzer =
    (Returned tt, incr_total (append_series 2 (PInt 0) F64.zero gospel_analyzer)).
Proof.
  apply (@record_without_fields sample_builtins 2 line_empty [] gospel_analyzer eq_refl);
    apply not_elem_of_nil.
Defined.

(** X7 at a record whose message is [null] and whose sentiment is 0.9. *)
Lemma false_message_counted_witness :
  fst (@is_evangelistic_opportunity edge_builtins dict_null gospel_analyzer)
    = Raised AttributeError /\
  @process_message edge_builtins 1 line_null gospel_analyzer =
    (Returned tt,
     incr_total
       (append_series 1 (PInt 0) (num_mul (PInt 0) (F64.py_max F64.c0_9 F64.c0_3))
          gospel_analyzer)).
Proof.
  apply (@false_message_counted edge_builtins 1 line_null dict_null F64.c0_9 gospel_analyzer
           eq_refl eq_refl); [discriminate | reflexivity].
Defined.

(** X8 at a record with two authors in a list. *)
Lemma unhashable_author_stops_update_witness :
  @process_message edge_builtins 1 line_coauthors gospel_analyzer =
    (Returned tt,
     incr_gospel
       (incr_total
          (append_series 1 (score_value "Jesus saves") (impact_value "Jesus saves" F64.zero)
             (snd (calculate_gospel_score (JStr "Jesus saves") gospel_analyzer))))).
Proof.
  apply (@unhashable_author_stops_update edge_builtins 1 line_coauthors dict_coauthors
           "Jesus saves" F64.zero gospel_analyzer eq_refl eq_refl eq_refl eq_refl eq_refl).
Defined.

(** ** A gospel message is a text with a keyword *)

Lemma hit_count_pos m kws :
  0 < hit_count m kws <-> exists kw, kw ∈ kws /\ PyStr.contains m kw = true.
Proof.
  induction kws as [|kw kws IH].
  - unfold hit_count. cbn. split; [lia | intros (kw & Hin & _); by apply elem_of_nil in Hin].
  - rewrite hit_count_cons. pose proof (hit_count_bounds m kws) as Hb. split.
    + intros Hpos. destruct (PyStr.contains m kw) eqn:Hc.
      * exists kw. split; [by left | done].
      * destruct (proj1 IH ltac:(lia)) as (kw' & Hin & Hc'). exists kw'. split; [by right | done].
    + intros (kw' & Hin & Hc'). apply elem_of_cons in Hin as [->|Hin].
      * rewrite Hc'. lia.
      * assert (0 < hit_count m kws) by (apply IH; eauto). destruct (PyStr.contains m kw); lia.
Qed.

(** X9: the score of a text is above 0.3, the threshold of a gospel
    message, exactly when at least one keyword of the taxonomy occurs in the
    lower-cased text; otherwise the score is 0. *)
Theorem gospel_iff_keyword (text : string) (self : GospelAnalyzer) :
  exists score,
    fst (calculate_gospel_score (JStr text) self) = Returned score /\
    (num_gtb score F64.c0_3 = true <->
     exists kw, kw ∈ all_keywords /\ PyStr.contains (PyStr.lower text) kw = true) /\
    (num_gtb score F64.c0_3 = false -> to_float score = F64.zero).
Proof.
  exists (score_value text). rewrite calculate_gospel_score_pair. split; [done |].
  pose proof (hit_count_pos (PyStr.lower text) all_keywords) as Hpos.
  rewrite <- Hpos. change (hit_count (PyStr.lower text) all_keywords) with (keyword_hits text).
  destruct (score_value_gospel text) as [(Hz & Hf & Hn)|(Hk & Hg)].
  - rewrite Hn. split; [split; [discriminate | intros; exfalso; lia] | intros _; exact Hf].
  - rewrite Hg. split; [split; [intros _; exact Hk | reflexivity] | discriminate].
Qed.

(** ** Lines as [main] reads them *)

Lemma lstrip_blank s : PyStrip.blank s = true -> PyStrip.lstrip s = EmptyString.
Proof.
  induction s as [|c t IH]; [done |]. cbn [PyStrip.blank PyStrip.lstrip].
  destruct (PyStrip.is_space c); [exact IH | discriminate].
Qed.

Lemma rstrip_blank s : PyStrip.blank s = true -> PyStrip.rstrip s = EmptyString.
Proof.
  induction s as [|c t IH]; [done |]. cbn [PyStrip.blank PyStrip.rstrip].
  destruct (PyStrip.is_space c); [| discriminate]. intros Hb. by rewrite (IH Hb).
Qed.

Lemma lstrip_app s t :
  PyStrip.lstrip (s ++ t)
  = if PyStrip.blank s then PyStrip.lstrip t else (PyStrip.lstrip s ++ t)%string.
Proof.
  induction s as [|c s IH]; [done |].
  change (String c s +:+ t)%string with (String c (s +:+ t)).
  cbn [PyStrip.lstrip PyStrip.blank].
  destruct (PyStrip.is_space c); [exact IH | done].
Qed.

Lemma rstrip_app_blank s t :
  PyStrip.blank t = true -> PyStrip.rstrip (s ++ t) = PyStrip.rstrip s.
Proof.
  intros Hb. induction s as [|c s IH]; [by apply rstrip_blank |].
  change (String c s +:+ t)%string with (String c (s +:+ t)).
  cbn [PyStrip.rstrip]. by rewrite IH.
Qed.

Lemma strip_blank s : PyStrip.blank s = true -> PyStrip.strip s = EmptyString.
Proof. intros Hb. unfold PyStrip.strip. by rewrite lstrip_blank. Qed.

Lemma strip_padded pad s pad' :
  PyStrip.blank pad = true -> PyStrip.blank pad' = true ->
  PyStrip.strip (pad ++ s ++ pad') = PyStrip.strip s.
Proof.
  intros Hp Hp'. unfold PyStrip.strip. rewrite lstrip_app, Hp, lstrip_app.
  destruct (PyStrip.blank s) eqn:Hs.
  - by rewrite (lstrip_blank pad' Hp'), (lstrip_blank s Hs).
  - by apply rstrip_app_blank.
Qed.

Section MainFacts.
Context `{PyBuiltins}.

Lemma process_message_returns now line self :
  fst (process_message now line self) = Returned tt.
Proof.
  unfold process_message, process_decoded, try_except.
  match goal with |- context [match ?c with _ => _ end] => by destruct c as [[[]|e] a] end.
Qed.

Lemma read_line_run now line self :
  read_line now line self = (Returned tt, run (new_records [(now, line)]) self).
Proof.
  unfold read_line, new_records. cbn [map List.filter fst snd].
  destruct (PyStrip.strip line) as [|c t] eqn:Hs; cbn [PyStr.is_empty negb when]; [done |].
  cbn [run fold_left fst snd].
  pose proof (process_message_returns now (String c t) self) as Hr.
  destruct (process_message now (String c t) self) as [o a]. cbn [fst snd] in *. by rewrite Hr.
Qed.

Lemma read_lines_run lines self :
  read_lines lines self = (Returned tt, run (new_records lines) self).
Proof.
  revert self. induction lines as [|call lines IH]; intros self; [done |].
  cbn [read_lines]. unfold mbind, M_bind. rewrite read_line_run, IH.
  f_equal. unfold new_records, run. cbn [map List.filter fst snd].
  by destruct (PyStr.is_empty (PyStrip.strip (snd call))).
Qed.

(** X10: [main] skips a line that is empty or all whitespace, leaving the
    analyzer as it was, and whitespace around a line makes no difference to
    what the line does. *)
Theorem blank_and_padded_lines (now : timestamp) (pad line pad' : string)
    (self : GospelAnalyzer) :
  PyStrip.blank pad = true -> PyStrip.blank pad' = true ->
  read_line now (pad ++ pad') self = (Returned tt, self) /\
  read_line now (pad ++ line ++ pad') self = read_line now line self.
Proof.
  intros Hp Hp'. unfold read_line. split.
  - rewrite strip_blank; [done |].
    clear -Hp Hp'. induction pad as [|c pad IH]; [done |].
    change (String c pad +:+ pad')%string with (String c (pad +:+ pad')).
    cbn [PyStrip.blank] in *. destruct (PyStrip.is_space c); [by apply IH | done].
  - by rewrite strip_padded.
Qed.

(** X11: one pass of [main] over any lines returns normally, and leaves the
    analyzer as after [process_message] on the stripped lines that are not
    empty, in their order; from a fresh analyzer, [total_messages] is then
    the number of those that are counted. *)
Theorem poll_processes_new_records (lines : list (timestamp * string)) :
  (forall self, poll lines self = (Returned tt, run (new_records lines) self)) /\
  (forall n, total_messages (snd (poll lines (init n)))
             = Z.of_nat (length (List.filter (fun call => counted (snd call))
                                   (new_records lines)))).
Proof.
  assert (Hpoll : forall self, poll lines self = (Returned tt, run (new_records lines) self)).
  { intros self. unfold poll, try_except. by rewrite read_lines_run. }
  split; [exact Hpoll |]. intros n. rewrite Hpoll. cbn [snd].
  apply (run_counted_series n (new_records lines)).
Qed.

End MainFacts.

(** X10 at a line of spaces and at a record between a tab and a line
    feed. *)
Lemma blank_and_padded_lines_witness :
  @read_line sample_builtins 1 "   " gospel_analyzer = (Returned tt, gospel_analyzer) /\
  @read_line sample_builtins 1 (String (ascii_of_nat 9) (line_empty ++ String (ascii_of_nat 10) ""))
      gospel_analyzer
  = @read_line sample_builtins 1 line_empty gospel_analyzer.
Proof.
  split.
  - apply (@blank_and_padded_lines sample_builtins 1 "  " line_empty " " gospel_analyzer
             eq_refl eq_refl).
  - apply (@blank_and_padded_lines sample_builtins 1 (String (ascii_of_nat 9) "") line_empty
             (String (ascii_of_nat 10) "") gospel_analyzer eq_refl eq_refl).
Defined.

(** ** The keywords shown in the chart *)

Lemma insert_desc_perm x l : insert_desc x l ≡ₚ x :: l.
Proof.
  induction l as [|y l IH]; [done |]. cbn [insert_desc].
  destruct (snd x <? snd y); [| done]. rewrite IH. apply Permutation_swap.
Qed.

Lemma sorted_desc_perm items : sorted_desc items ≡ₚ items.
Proof.
  induction items as [|x items IH]; [done |].
  cbn [sorted_desc foldr]. fold (sorted_desc items). by rewrite insert_desc_perm, IH.
Qed.

Lemma insert_desc_sorted x l :
  StronglySorted (fun a b => snd b <= snd a) l ->
  StronglySorted (fun a b => snd b <= snd a) (insert_desc x l).
Proof.
  induction 1 as [|y l Hs IH Hall]; cbn [insert_desc].
  - repeat constructor.
  - destruct (Z.ltb_spec (snd x) (snd y)) as [Hlt|Hge].
    + constructor; [exact IH |].
      rewrite insert_desc_perm. constructor; [lia | exact Hall].
    + constructor; [by constructor |].
      constructor; [lia |]. eapply Forall_impl; [exact Hall |]. cbn. intros z Hz. lia.
Qed.

Lemma sorted_desc_sorted items :
  StronglySorted (fun a b => snd b <= snd a) (sorted_desc items).
Proof.
  induction items as [|x items IH]; [constructor |].
  cbn [sorted_desc foldr]. by apply insert_desc_sorted.
Qed.

Lemma insert_desc_ties c x l :
  List.filter (fun y => snd y =? c) (insert_desc x l)
  = List.filter (fun y => snd y =? c) (x :: l).
Proof.
  induction l as [|y l IH]; [done |]. cbn [insert_desc].
  destruct (Z.ltb_spec (snd x) (snd y)) as [Hlt|Hge]; [| done].
  cbn [List.filter] in *. rewrite IH.
  destruct (Z.eqb_spec (snd x) c), (Z.eqb_spec (snd y) c); try done. lia.
Qed.

Lemma sorted_desc_ties c items :
  List.filter (fun y => snd y =? c) (sorted_desc items)
  = List.filter (fun y => snd y =? c) items.
Proof.
  induction items as [|x items IH]; [done |].
  cbn [sorted_desc foldr]. fold (sorted_desc items).
  rewrite insert_desc_ties. cbn [List.filter]. by rewrite IH.
Qed.

(** X12: the chart shows at most eight keywords, the larger counts first;
    every keyword left out has a count no larger than any shown; and
    keywords with the same count stay in the order the counter holds
    them. *)
Theorem top_keywords_largest (items : list (string * Z)) :
  length (top_keywords items) = Nat.min 8 (length items) /\
  StronglySorted (fun a b => snd b <= snd a) (top_keywords items) /\
  (exists rest, items ≡ₚ top_keywords items ++ rest /\
     forall x y, x ∈ top_keywords items -> y ∈ rest -> snd y <= snd x) /\
  (forall c, List.filter (fun y => snd y =? c) (top_keywords items)
             `prefix_of` List.filter (fun y => snd y =? c) items).
Proof.
  unfold top_keywords. pose proof (sorted_desc_sorted items) as Hs.
  pose proof (sorted_desc_perm items) as Hp.
  rewrite <- (take_drop 8 (sorted_desc items)) in Hs.
  split_and!.
  - rewrite length_take, (Permutation_length Hp). done.
  - by apply StronglySorted_app_1_l in Hs.
  - exists (drop 8 (sorted_desc items)). split; [by rewrite take_drop |].
    intros x y Hx Hy. exact (StronglySorted_app_1_elem_of _ _ _ _ _ Hs Hx Hy).
  - intros c. rewrite <- (sorted_desc_ties c items).
    rewrite <- (take_drop 8 (sorted_desc items)) at 2.
    rewrite List.filter_app. by apply prefix_app_r.
Qed.

(** ** A product with a score does not round above the other factor *)

Lemma divide_pow_split a b m :
  0 <= a -> 0 <= b -> (2 ^ (a + b) | m) -> (2 ^ a | m) /\ (2 ^ b | m / 2 ^ a).
Proof.
  intros Ha Hb [k Hk]. rewrite Z.pow_add_r in Hk by lia.
  assert (Hpos : 0 < 2 ^ a) by (apply Z.pow_pos_nonneg; lia).
  split.
  - exists (k * 2 ^ b). lia.
  - exists k. subst m. replace (k * (2 ^ a * 2 ^ b)) with (k * 2 ^ b * 2 ^ a) by ring.
    by rewrite Z.div_mul by lia.
Qed.

Lemma shr_1_exact mrs :
  (2 | shr_m mrs) -> shr_r mrs = false -> shr_s mrs = false ->
  shr_r (shr_1 mrs) = false /\ shr_s (shr_1 mrs) = false.
Proof.
  destruct mrs as [m r s]. cbn [shr_m shr_r shr_s]. intros [k Hk] -> ->.
  destruct m as [|[p|p|]|[p|p|]]; cbn; try done; lia.
Qed.

Lemma iter_shr_1_exact p mrs :
  0 <= shr_m mrs -> (2 ^ Z.pos p | shr_m mrs) -> shr_r mrs = false -> shr_s mrs = false ->
  shr_r (SpecFloat.iter_pos shr_1 p mrs) = false /\
  shr_s (SpecFloat.iter_pos shr_1 p mrs) = false.
Proof.
  revert mrs. induction p as [p IH|p IH|]; intros mrs Hm Hd Hr Hs; cbn [SpecFloat.iter_pos].
  - replace (Z.pos p~1) with (1 + (Z.pos p + Z.pos p)) in Hd by lia.
    apply divide_pow_split in Hd as [H1 Hd]; try lia. change (2 ^ 1) with 2 in *.
    apply divide_pow_split in Hd as [H2 H3]; try lia.
    destruct (shr_1_exact mrs H1 Hr Hs) as [Hr1 Hs1].
    assert (Hm1 : shr_m (shr_1 mrs) = shr_m mrs / 2) by (by apply shr_1_m).
    assert (Hp1 : 0 <= shr_m (shr_1 mrs)) by (rewrite Hm1; apply Z.div_pos; lia).
    rewrite <- Hm1 in H2, H3.
    destruct (IH (shr_1 mrs) Hp1 H2 Hr1 Hs1) as [Hr2 Hs2].
    apply IH; try done.
    + rewrite iter_shr_1_m by done. apply Z.div_pos; lia.
    + by rewrite iter_shr_1_m.
  - replace (Z.pos p~0) with (Z.pos p + Z.pos p) in Hd by lia.
    apply divide_pow_split in Hd as [H2 H3]; try lia.
    destruct (IH mrs Hm H2 Hr Hs) as [Hr2 Hs2].
    apply IH; try done.
    + rewrite iter_shr_1_m by done. apply Z.div_pos; lia.
    + by rewrite iter_shr_1_m.
  - by apply shr_1_exact.
Qed.

Lemma shr_exact mrs e n :
  0 <= shr_m mrs -> (2 ^ Z.max n 0 | shr_m mrs) -> shr_r mrs = false -> shr_s mrs = false ->
  loc_of_shr_record (fst (shr mrs e n)) = loc_Exact.
Proof.
  intros Hm Hd Hr Hs.
  assert (Hrs : shr_r (fst (shr mrs e n)) = false /\ shr_s (fst (shr mrs e n)) = false).
  { destruct n as [|p|p]; cbn [shr fst]; try done.
    by apply iter_shr_1_exact. }
  destruct (fst (shr mrs e n)) as [m r s]. cbn [shr_r shr_s] in Hrs. by destruct Hrs as [-> ->].
Qed.

(** The normal form again, for any location of the exact value above
    [m * 2^e], with the case where the first shift loses nothing. *)
Lemma binary_round_aux_cases s m e l :
  0 <= m ->
  let e1 := shift_exp m e in
  exists mr,
    m / 2 ^ (e1 - e) <= mr <= m / 2 ^ (e1 - e) + 1 /\
    (l = loc_Exact -> (2 ^ (e1 - e) | m) -> mr = m / 2 ^ (e1 - e)) /\
    binary_round_aux F64.prec F64.emax s m e l =
      round_result s (mr / 2 ^ (shift_exp mr e1 - e1)) (shift_exp mr e1).
Proof.
  intros Hm e1. unfold binary_round_aux, shr_fexp.
  pose proof (shr_spec (shr_record_of_loc m l) e
                (fexp F64.prec F64.emax (Zdigits2 m + e) - e)) as H1.
  pose proof (shr_exact (shr_record_of_loc m l) e
                (fexp F64.prec F64.emax (Zdigits2 m + e) - e)) as Hx.
  rewrite shr_record_of_loc_m in H1, Hx. specialize (H1 Hm). specialize (Hx Hm).
  destruct (shr (shr_record_of_loc m l) e _) as [mrs' e'] eqn:E1.
  cbn [fst snd] in H1, Hx. destruct H1 as [Hm' He'].
  set (mr := round_nearest_even (shr_m mrs') (loc_of_shr_record mrs')).
  assert (He1 : e' = e1) by (subst e1; unfold shift_exp; lia).
  assert (Hn : e1 - e = Z.max (fexp F64.prec F64.emax (Zdigits2 m + e) - e) 0)
    by (subst e1; unfold shift_exp; lia).
  assert (Hmr : shr_m mrs' <= mr <= shr_m mrs' + 1) by apply round_nearest_even_range.
  assert (Hm'0 : 0 <= shr_m mrs') by (rewrite Hm'; apply Z.div_pos; lia).
  pose proof (shr_spec (shr_record_of_loc mr loc_Exact) e'
                (fexp F64.prec F64.emax (Zdigits2 mr + e') - e')) as H2.
  rewrite shr_record_of_loc_m in H2. specialize (H2 ltac:(lia)).
  destruct (shr (shr_record_of_loc mr loc_Exact) e' _) as [mrs'' e''] eqn:E2.
  cbn [fst snd] in H2. destruct H2 as [Hm'' He''].
  exists mr. split; [| split].
  - rewrite Hn, <- Hm'. exact Hmr.
  - intros Hl Hd. rewrite Hn in Hd |- *. rewrite <- Hm'. subst mr l.
    by rewrite (Hx Hd eq_refl eq_refl).
  - rewrite He1 in He'', Hm''.
    assert (He2 : e'' = shift_exp mr e1) by (unfold shift_exp; lia).
    replace (shift_exp mr e1 - e1)
      with (Z.max (fexp F64.prec F64.emax (Zdigits2 mr + e1) - e1) 0)
      by (unfold shift_exp; lia).
    rewrite <- Hm'', <- He2. unfold round_result. reflexivity.
Qed.

Lemma bounded_canonical (mw : positive) ew :
  bounded F64.prec F64.emax mw ew = true ->
  Z.pos (digits2_pos mw) <= 53 /\ -1074 <= ew <= 971.
Proof.
  unfold bounded, canonical_mantissa. intros Hb.
  apply andb_prop in Hb as [Hc He]. apply Z.eqb_eq in Hc. apply Z.leb_le in He.
  rewrite fexp_unfold in Hc. unfold F64.emax, F64.prec in *. lia.
Qed.

(** The exact product of a binary64 number [w > 0] and a factor
    [ms * 2^es <= 1] does not round above [w]. *)
Lemma mul_unit_round_le (ms mw : positive) (es ew : Z) :
  es <= 0 -> Z.pos ms <= 2 ^ (- es) ->
  bounded F64.prec F64.emax mw ew = true ->
  F64.ltb (S754_finite false mw ew)
    (binary_round_aux F64.prec F64.emax false (Z.pos (ms * mw)) (es + ew) loc_Exact) = false.
Proof.
  intros Hes Hms Hb.
  destruct (bounded_canonical mw ew Hb) as [Hdw Hew].
  pose proof (digits2_bounds mw) as [_ Hmw].
  set (dw := Z.pos (digits2_pos mw)) in *.
  set (M := Z.pos (ms * mw)). set (E := es + ew).
  assert (Hpes : 0 < 2 ^ (- es)) by (apply Z.pow_pos_nonneg; lia).
  assert (HM : M <= Z.pos mw * 2 ^ (- es)) by (subst M; rewrite Pos2Z.inj_mul; nia).
  assert (HMlt : 0 <= M < 2 ^ (dw - es)).
  { split; [subst M; lia |]. replace (dw - es) with (dw + - es) by lia.
    rewrite Z.pow_add_r by lia.
    eapply Z.le_lt_trans; [exact HM |]. apply Z.mul_lt_mono_pos_r; [exact Hpes | exact Hmw]. }
  assert (HdM : Zdigits2 M <= dw - es) by (apply Zdigits2_le; lia).
  destruct (binary_round_aux_cases false M E loc_Exact ltac:(lia)) as (mr & Hmr & Hexact & ->).
  specialize (Hexact eq_refl). set (e1 := shift_exp M E) in *.
  assert (He1 : e1 = Z.max E (Z.max (Zdigits2 M + E - 53) (-1074)))
    by (subst e1; unfold shift_exp; rewrite fexp_unfold; lia).
  assert (He1w : E <= e1 <= ew) by lia.
  set (Y := Z.pos mw * 2 ^ (ew - e1)).
  assert (HY : Y * 2 ^ (e1 - E) = Z.pos mw * 2 ^ (- es)).
  { subst Y. rewrite <- Z.mul_assoc, <- Z.pow_add_r by lia. f_equal. f_equal. lia. }
  assert (Hpow : 0 < 2 ^ (e1 - E)) by (apply Z.pow_pos_nonneg; lia).
  assert (Hq : M / 2 ^ (e1 - E) <= Y) by (apply Z.div_le_upper_bound; lia).
  assert (Hq0 : 0 <= M / 2 ^ (e1 - E)) by (apply Z.div_pos; lia).
  assert (HmrY : mr <= Y).
  { destruct (Z.eq_dec (M / 2 ^ (e1 - E)) Y) as [Heq|Hne]; [| lia].
    rewrite Hexact; [lia |]. exists Y.
    pose proof (Z.mul_div_le M (2 ^ (e1 - E)) Hpow) as Hle. rewrite Heq in Hle. lia. }
  assert (Hpw : 0 < 2 ^ (ew - e1)) by (apply Z.pow_pos_nonneg; lia).
  assert (HYlt : Y < 2 ^ (dw + (ew - e1))).
  { subst Y. rewrite Z.pow_add_r by lia. apply Z.mul_lt_mono_pos_r; [exact Hpw | exact Hmw]. }
  assert (Hdmr : Zdigits2 mr <= dw + (ew - e1)) by (apply Zdigits2_le; lia).
  set (e2 := shift_exp mr e1) in *.
  assert (He2 : e2 = Z.max e1 (Z.max (Zdigits2 mr + e1 - 53) (-1074)))
    by (subst e2; unfold shift_exp; rewrite fexp_unfold; lia).
  assert (He2w : e1 <= e2 <= ew) by lia.
  assert (Hp : e2 = ew -> mr / 2 ^ (e2 - e1) <= Z.pos mw).
  { intros Heq. rewrite Heq. apply Z.div_le_upper_bound; [exact Hpw |]. subst Y. lia. }
  unfold round_result.
  destruct (mr / 2 ^ (e2 - e1)) as [|p|p] eqn:Hq2; try reflexivity.
  replace (e2 <=? F64.emax - F64.prec) with true
    by (symmetry; apply Z.leb_le; unfold F64.emax, F64.prec; lia).
  unfold F64.ltb, SFltb, SFcompare.
  destruct (Z.compare_spec ew e2) as [Heq|Hlt|Hgt]; try reflexivity; [| lia].
  specialize (Hp ltac:(lia)). rewrite Pos.compare_cont_spec. cbn [Pos.switch_Eq].
  destruct (Pos.compare_spec mw p); try reflexivity. lia.
Qed.

Lemma unit_score_le_one (ms : positive) es :
  unit_score (S754_finite false ms es) = true -> es <= 0 /\ Z.pos ms <= 2 ^ (- es).
Proof.
  cbn [unit_score]. intros Hs. repeat (apply andb_prop in Hs as [Hs ?]).
  apply Z.ltb_lt in H1. apply Z.leb_le in H0.
  apply orb_prop in H as [Hlt|Heq].
  - apply Z.ltb_lt in Hlt. split; [lia |].
    etrans; [apply Z.lt_le_incl; exact H1 |]. apply Z.pow_le_mono_r; lia.
  - apply andb_prop in Heq as [He Hm]. apply Z.eqb_eq in He, Hm. subst es. split; [lia |].
    rewrite Hm. reflexivity.
Qed.

(** A score times a binary64 number that is not negative is not above that
    number. *)
Lemma mul_unit_not_above s w :
  unit_score s = true -> F64.is_binary64 w -> F64.ltb w F64.zero = false ->
  F64.gtb (F64.mul s w) w = false.
Proof.
  intros Hs Hw Hnn. unfold F64.gtb.
  destruct s as [[]|[]| |[] ms es]; try discriminate.
  - by destruct w as [[]|[]| |[] mw ew].
  - destruct w as [[]|[]| |[] mw ew]; try done.
    destruct (unit_score_le_one ms es Hs) as [Hes Hms].
    unfold F64.mul, SFmul. cbn [xorb]. by apply mul_unit_round_le.
Qed.

Lemma gtb_finite_trans r (mc mw : positive) ec ew :
  F64.ltb (S754_finite false mc ec) r = true ->
  F64.ltb (S754_finite false mw ew) r = false ->
  F64.ltb (S754_finite false mc ec) (S754_finite false mw ew) = true.
Proof.
  destruct r as [[]|[]| |[] p e]; try discriminate.
  unfold F64.ltb, SFltb, SFcompare. rewrite !Pos.compare_cont_spec. cbn [Pos.switch_Eq].
  destruct (Z.compare_spec ec e), (Z.compare_spec ew e), (Z.compare_spec ec ew);
    try discriminate; try reflexivity; try lia;
    destruct (Pos.compare_spec mc p), (Pos.compare_spec mw p), (Pos.compare_spec mc mw);
    try discriminate; try reflexivity; intros; lia.
Qed.

Lemma floored_sentiment v :
  F64.is_binary64 v ->
  F64.is_binary64 (F64.py_max v F64.c0_3) /\
  F64.ltb (F64.py_max v F64.c0_3) F64.zero = false.
Proof.
  intros Hv. unfold F64.py_max, F64.gtb.
  destruct (F64.ltb v F64.c0_3) eqn:Hlt; [done |].
  split; [exact Hv |]. by destruct v as [[]|[]| |[] mv ev].
Qed.

Lemma impact_value_not_above text v :
  F64.is_binary64 v -> F64.gtb (impact_value text v) (F64.py_max v F64.c0_3) = false.
Proof.
  intros Hv. destruct (floored_sentiment v Hv) as [Hw Hnn].
  unfold impact_value, num_mul. apply mul_unit_not_above; [apply score_value_unit | done..].
Qed.

Lemma impact_value_bold text v :
  F64.is_binary64 v ->
  F64.gtb (impact_value text v) F64.c0_7 = true -> F64.gtb v F64.c0_7 = true.
Proof.
  intros Hv Hbold. pose proof (impact_value_not_above text v Hv) as Hle.
  unfold F64.gtb in *. unfold F64.py_max, F64.gtb in Hle.
  unfold impact_value, num_mul, F64.py_max, F64.gtb in Hbold, Hle.
  destruct (F64.ltb v F64.c0_3) eqn:Hlt.
  - pose proof (gtb_finite_trans _ _ _ _ _ Hbold Hle) as Habs. discriminate.
  - destruct v as [[]|[]| |[] mv ev]; try discriminate; try reflexivity.
    + by destruct (to_float (score_value text)) as [[]|[]| |[] ms es].
    + exact (gtb_finite_trans _ _ _ _ _ Hbold Hle).
Qed.

(** X13: the faith impact of a text never exceeds the sentiment floored at
    0.3, for every binary64 sentiment; so an impact above 0.7, the threshold
    of a bold witness, needs a sentiment above 0.7. *)
Theorem faith_impact_at_most_sentiment
    (text : string) (v : float) (self : GospelAnalyzer) (x : pynum) (impact : float) :
  F64.is_binary64 v ->
  fst (calculate_gospel_score (JStr text) self) = Returned x ->
  fst (calculate_faith_impact x v self) = Returned impact ->
  F64.gtb impact (F64.py_max v F64.c0_3) = false /\
  (F64.gtb impact F64.c0_7 = true -> F64.gtb v F64.c0_7 = true).
Proof.
  intros Hv Hx Hi. rewrite calculate_gospel_score_text in Hx. injection Hx as <-.
  cbn in Hi. injection Hi as <-. fold (impact_value text v).
  split; [by apply impact_value_not_above | by apply impact_value_bold].
Qed.

(** X13 at the score of "Jesus gives faith" and the sentiment 0.9. *)
Lemma faith_impact_at_most_sentiment_witness :
  F64.gtb (impact_value "Jesus gives faith" F64.c0_9) (F64.py_max F64.c0_9 F64.c0_3) = false /\
  (F64.gtb (impact_value "Jesus gives faith" F64.c0_9) F64.c0_7 = true ->
   F64.gtb F64.c0_9 F64.c0_7 = true).
Proof.
  apply (faith_impact_at_most_sentiment "Jesus gives faith" F64.c0_9 gospel_analyzer
           (score_value "Jesus gives faith") (impact_value "Jesus gives faith" F64.c0_9));
    reflexivity.
Defined.

Section BoldWitness.
Context `{PyBuiltins}.

(** X14: a valid record is counted as a bold witness only if its sentiment
    is above 0.7 and a keyword occurs in its text; it is then counted as a
    gospel message too. *)
Theorem bold_witness_needs_high_sentiment
    (now : timestamp) (line : string) (f : fields) (self : GospelAnalyzer) :
  line_fields line = Some f ->
  F64.is_binary64 (f_sentiment f) ->
  bold_witness_count (snd (process_message now line self)) <> bold_witness_count self ->
  F64.gtb (f_sentiment f) F64.c0_7 = true /\
  (exists kw, kw ∈ all_keywords /\ PyStr.contains (PyStr.lower (f_text f)) kw = true) /\
  gospel_messages (snd (process_message now line self)) = gospel_messages self + 1.
Proof.
  intros Hf Hv. rewrite (process_message_valid _ _ f _ Hf). cbn [snd].
  destruct (scored_frame_counters (JStr (f_text f)) self) as (Hg & _ & _ & _ & Hb & _).
  unfold after_valid. cbv zeta.
  destruct (F64.gtb (impact_value (f_text f) (f_sentiment f)) F64.c0_7) eqn:Hbold.
  - intros _. split; [by apply (impact_value_bold (f_text f)) |].
    assert (Hgospel : num_gtb (score_value (f_text f)) F64.c0_3 = true).
    { destruct (score_value_gospel (f_text f)) as [(_ & Hz & _)|(_ & Hgt)]; [| done].
      unfold impact_value, num_mul in Hbold. rewrite Hz, mul_zero_not_bold in Hbold.
      discriminate. }
    split.
    + apply hit_count_pos. destruct (score_value_gospel (f_text f)) as [(_ & _ & Hn)|(Hk & _)];
        [congruence | exact Hk].
    + rewrite Hgospel. destruct (opportunity_value _ _); cbn; lia.
  - intros Hne. exfalso. apply Hne.
    destruct (num_gtb _ _), (opportunity_value _ _); cbn; lia.
Qed.

End BoldWitness.

(** X14 at the record whose text scores 1.0 with the sentiment 2.0. *)
Lemma bold_witness_needs_high_sentiment_witness :
  F64.gtb F64.c2_0 F64.c0_7 = true /\
  (exists kw, kw ∈ all_keywords /\
     PyStr.contains (PyStr.lower "Jesus Christ is Lord, Savior and God") kw = true) /\
  gospel_messages (snd (@process_message sample_builtins 3 line_bold gospel_analyzer)) = 1.
Proof.
  apply (@bold_witness_needs_high_sentiment sample_builtins 3 line_bold fields_bold
           gospel_analyzer eq_refl eq_refl).
  vm_compute. discriminate.
Defined.

(** ** The rates are between 0 and 100 *)

Lemma Zdigits2_mono a b : 0 < a <= b -> Zdigits2 a <= Zdigits2 b.
Proof.
  intros [Ha Hab]. destruct (Zdigits2_pos_bounds a Ha) as (_ & Hlo & _).
  destruct (Zdigits2_pos_bounds b ltac:(lia)) as (Hdb & _ & Hhi).
  destruct (Z_le_gt_dec (Zdigits2 a) (Zdigits2 b)) as [|Hgt]; [done |].
  assert (2 ^ Zdigits2 b <= 2 ^ (Zdigits2 a - 1)) by (apply Z.pow_le_mono_r; lia). lia.
Qed.

Lemma new_location_zero n : new_location n 0 = loc_Exact.
Proof. unfold new_location, new_location_even, new_location_odd. by destruct (Z.even n). Qed.

(** The quotient and remainder [SFdiv] rounds, for [0 < g <= t]. *)
Lemma div_core_le_one (g t : positive) :
  (g <= t)%positive ->
  exists q e' l,
    SFdiv_core_binary F64.prec F64.emax (Z.pos g) 0 (Z.pos t) 0 = (q, e', l) /\
    e' <= -53 /\ 0 <= q <= 2 ^ (- e') /\ (q = 2 ^ (- e') -> l = loc_Exact) /\
    (g = t -> q = 2 ^ 53 /\ e' = -53).
Proof.
  intros Hgt. unfold SFdiv_core_binary.
  assert (Hd : Zdigits2 (Z.pos g) <= Zdigits2 (Z.pos t)) by (apply Zdigits2_mono; lia).
  set (d1 := Zdigits2 (Z.pos g)) in *. set (d2 := Zdigits2 (Z.pos t)) in *.
  rewrite fexp_unfold.
  set (e' := Z.min (Z.max (d1 + 0 - (d2 + 0) - 53) (-1074)) (0 - 0)).
  assert (He' : e' <= -53) by lia.
  assert (Hs : 0 - 0 - e' = - e') by lia. rewrite Hs.
  destruct (- e') as [|ps|ps] eqn:Hse; try lia. rewrite <- Hse.
  rewrite Z.shiftl_mul_pow2 by lia.
  assert (Hpow : 0 < 2 ^ (- e')) by (apply Z.pow_pos_nonneg; lia).
  pose proof (Z_div_mod (Z.pos g * 2 ^ (- e')) (Z.pos t) ltac:(lia)) as Hdm.
  destruct (Z.div_eucl (Z.pos g * 2 ^ (- e')) (Z.pos t)) as [q r]. destruct Hdm as [Heq Hr].
  exists q, e', (new_location (Z.pos t) r). split; [reflexivity |]. split; [exact He' |].
  assert (Hq : 0 <= q <= 2 ^ (- e')) by nia.
  split; [exact Hq |]. split.
  - intros Hqe. assert (r = 0) as -> by nia. apply new_location_zero.
  - intros ->. assert (e' = -53) as Hes by lia. split; [| exact Hes].
    rewrite Hes in *. change (- -53) with 53 in *. nia.
Qed.

(** A quotient of at most one rounds to zero or to a positive number of at
    most one. *)
Lemma round_quotient_le_one q e' l :
  0 <= q <= 2 ^ (- e') -> e' <= -53 -> (q = 2 ^ (- e') -> l = loc_Exact) ->
  binary_round_aux F64.prec F64.emax false q e' l = S754_zero false \/
  exists p e2, binary_round_aux F64.prec F64.emax false q e' l = S754_finite false p e2 /\
               e2 <= -52 /\ Z.pos p <= 2 ^ (- e2).
Proof.
  intros Hq He' Hexact.
  destruct (binary_round_aux_cases false q e' l ltac:(lia)) as (mr & Hmr & Hex & ->).
  set (e1 := shift_exp q e') in *.
  assert (Hpe : 0 < 2 ^ (- e')) by (apply Z.pow_pos_nonneg; lia).
  assert (Hdq : Zdigits2 q <= - e' + 1).
  { apply Zdigits2_le; [lia |]. rewrite Z.pow_add_r by lia. lia. }
  assert (He1 : e1 = Z.max e' (Z.max (Zdigits2 q + e' - 53) (-1074)))
    by (subst e1; unfold shift_exp; rewrite fexp_unfold; lia).
  assert (He1w : e' <= e1 <= -52) by lia.
  assert (Hpow : 0 < 2 ^ (e1 - e')) by (apply Z.pow_pos_nonneg; lia).
  assert (HY : 2 ^ (- e1) * 2 ^ (e1 - e') = 2 ^ (- e')).
  { rewrite <- Z.pow_add_r by lia. f_equal. lia. }
  assert (Hq1 : 0 <= q / 2 ^ (e1 - e') <= 2 ^ (- e1)).
  { split; [apply Z.div_pos; lia |]. apply Z.div_le_upper_bound; lia. }
  assert (HmrY : 0 <= mr <= 2 ^ (- e1)).
  { split; [lia |].
    destruct (Z.eq_dec (q / 2 ^ (e1 - e')) (2 ^ (- e1))) as [Heq|Hne]; [| lia].
    pose proof (Z.mul_div_le q (2 ^ (e1 - e')) Hpow) as Hle. rewrite Heq in Hle.
    assert (Hqe : q = 2 ^ (- e')) by lia.
    rewrite Hex; [lia | by apply Hexact |]. exists (2 ^ (- e1)). lia. }
  assert (Hdmr : Zdigits2 mr <= - e1 + 1).
  { apply Zdigits2_le; [lia |]. rewrite Z.pow_add_r by lia. lia. }
  set (e2 := shift_exp mr e1) in *.
  assert (He2 : e2 = Z.max e1 (Z.max (Zdigits2 mr + e1 - 53) (-1074)))
    by (subst e2; unfold shift_exp; rewrite fexp_unfold; lia).
  assert (He2w : e1 <= e2 <= -52) by lia.
  assert (Hpw2 : 0 < 2 ^ (e2 - e1)) by (apply Z.pow_pos_nonneg; lia).
  assert (Hp0 : 0 <= mr / 2 ^ (e2 - e1)) by (apply Z.div_pos; lia).
  assert (Hp : mr / 2 ^ (e2 - e1) <= 2 ^ (- e2)).
  { apply Z.div_le_upper_bound; [exact Hpw2 |].
    rewrite <- Z.pow_add_r by lia. replace (e2 - e1 + - e2) with (- e1) by lia. lia. }
  unfold round_result.
  destruct (mr / 2 ^ (e2 - e1)) as [|p|p] eqn:Hq2; [by left | | lia].
  right. exists p, e2.
  replace (e2 <=? F64.emax - F64.prec) with true
    by (symmetry; apply Z.leb_le; unfold F64.emax, F64.prec; lia).
  split; [reflexivity |]. split; [lia | exact Hp].
Qed.

Lemma div_same (t : positive) :
  F64.div (int_operand (Z.pos t)) (int_operand (Z.pos t)) = F64.c1_0.
Proof.
  cbn [int_operand]. unfold F64.div, SFdiv. cbn [xorb].
  destruct (div_core_le_one t t ltac:(lia)) as (q & e' & l & -> & _ & _ & Hl & Hsame).
  destruct (Hsame eq_refl) as [-> ->]. rewrite (Hl eq_refl). by vm_compute.
Qed.

Lemma hundred_bounded : bounded F64.prec F64.emax 7036874417766400 (-46) = true.
Proof. by vm_compute. Qed.

(** Rounding a value that is not negative gives zero, a positive number or
    the infinity. *)
Lemma round_nonneg_cases m e l :
  0 <= m ->
  binary_round_aux F64.prec F64.emax false m e l = S754_zero false \/
  binary_round_aux F64.prec F64.emax false m e l = S754_infinity false \/
  exists p e2, binary_round_aux F64.prec F64.emax false m e l = S754_finite false p e2.
Proof.
  intros Hm. destruct (binary_round_aux_cases false m e l Hm) as (mr & Hmr & _ & ->).
  assert (Hq : 0 <= m / 2 ^ (shift_exp m e - e)).
  { apply Z.div_pos; [lia |]. apply Z.pow_pos_nonneg; [lia |]. unfold shift_exp. lia. }
  assert (Hp : 0 <= mr / 2 ^ (shift_exp mr (shift_exp m e) - shift_exp m e)).
  { apply Z.div_pos; [lia |]. apply Z.pow_pos_nonneg; [lia |]. unfold shift_exp. lia. }
  unfold round_result. destruct (mr / _) as [|p|p]; [by left | | lia].
  destruct (_ <=? _); eauto.
Qed.

(** What is not above a positive number is at most that number, NaN
    apart. *)
Lemma not_above_leb (p mc : positive) e ec :
  F64.ltb (S754_finite false mc ec) (S754_finite false p e) = false ->
  F64.leb (S754_finite false p e) (S754_finite false mc ec) = true.
Proof.
  unfold F64.leb, SFleb, F64.ltb, SFltb, SFcompare. rewrite !Pos.compare_cont_spec.
  cbn [Pos.switch_Eq].
  destruct (Z.compare_spec ec e), (Z.compare_spec e ec); try discriminate; try reflexivity;
    try lia.
  destruct (Pos.compare_spec mc p), (Pos.compare_spec p mc); try discriminate;
    try reflexivity; lia.
Qed.

(** [count / total * 100] for [0 <= count <= total] and [0 < total]. *)
Lemma percentage_in_range count total :
  0 <= count <= total -> 0 < total ->
  is_rate (percentage count total) /\
  (count = 0 -> percentage count total = Quotient F64.zero) /\
  (count = total -> percentage count total = Quotient hundred).
Proof.
  intros Hc Ht. unfold percentage, int_truediv.
  destruct (Z.eqb_spec total 0) as [|_]; [lia |].
  destruct total as [|t|t]; try lia. destruct count as [|g|g]; try lia.
  - split; [| by split]. exists F64.zero. by vm_compute.
  - assert (Hsame : Z.pos g = Z.pos t -> percentage (Z.pos g) (Z.pos t) = Quotient hundred).
    { intros Heq. injection Heq as ->. unfold percentage, int_truediv.
      destruct (Z.eqb_spec (Z.pos t) 0) as [|_]; [lia |]. rewrite div_same. by vm_compute. }
    unfold percentage, int_truediv in Hsame.
    destruct (Z.eqb_spec (Z.pos t) 0) as [|_]; [lia |].
    split; [| split; [lia | exact Hsame]].
    cbn [int_operand]. unfold F64.div, SFdiv. cbn [xorb].
    destruct (div_core_le_one g t ltac:(lia)) as (q & e' & l & -> & He' & Hq & Hl & _).
    destruct (round_quotient_le_one q e' l Hq He' Hl) as [->|(p & e2 & -> & He2 & Hp)].
    + exists F64.zero. by vm_compute.
    + pose proof (mul_unit_round_le p 7036874417766400 e2 (-46) ltac:(lia) Hp hundred_bounded)
        as Hle.
      exists (F64.mul (S754_finite false p e2) hundred). split; [reflexivity |].
      unfold F64.mul, SFmul, hundred. cbn [xorb].
      destruct (round_nonneg_cases (Z.pos (p * 7036874417766400)) (e2 + -46) loc_Exact
                  ltac:(lia)) as [Hr|[Hr|(p' & e3 & Hr)]]; rewrite Hr in Hle |- *.
      * by vm_compute.
      * discriminate.
      * split; [reflexivity | by apply not_above_leb].
Qed.

Section Rates.
Context `{PyBuiltins}.

Lemma run_counters_ok n calls : counters_ok (run calls (init n)).
Proof.
  induction calls as [|call calls IH] using rev_ind; [apply counters_ok_init |].
  rewrite run_snoc. by apply process_message_counters_ok.
Qed.

(** X15: after any lines, from a fresh analyzer of any capacity, no rate
    divides by zero and every rate is a float between 0 and 100: the
    dashboard's [gospel_rate] whenever [create_dashboard] is called, and the
    chart's three rates, which [update_chart] computes exactly when it does
    not return early, that is with two scores buffered; [total_messages] is
    then at least 2, so that the test [total_messages > 0] never fails
    there.  The dashboard shows 0.0 when there is no gospel message and
    100.0 when every counted line is one. *)
Theorem rates_between_0_and_100 (n : nat) (calls : list (timestamp * string)) :
  is_rate (dashboard_rate (run calls (init n))) /\
  match chart_rates (run calls (init n)) with
  | None => (length (items (gospel_scores (run calls (init n)))) < 2)%nat
  | Some None => False
  | Some (Some (gospel_rate, witness_rate, opportunity_rate)) =>
      (2 <= length (items (gospel_scores (run calls (init n)))))%nat /\
      2 <= total_messages (run calls (init n)) /\
      is_rate gospel_rate /\ is_rate witness_rate /\ is_rate opportunity_rate
  end /\
  (gospel_messages (run calls (init n)) = 0 ->
   dashboard_rate (run calls (init n)) = Quotient F64.zero) /\
  (0 < total_messages (run calls (init n)) ->
   gospel_messages (run calls (init n)) = total_messages (run calls (init n)) ->
   dashboard_rate (run calls (init n)) = Quotient hundred).
Proof.
  destruct (run_counters_ok n calls) as [Hg Hb _ Ho _ _ _].
  destruct (run_counted_series n calls) as (_ & Hlen & Htot & _).
  set (a := run calls (init n)) in *.
  assert (Hmax : 0 <= gospel_messages a <= Z.max (total_messages a) 1 /\
                 0 < Z.max (total_messages a) 1) by lia.
  destruct Hmax as [Hgm Hm1].
  destruct (percentage_in_range _ _ Hgm Hm1) as (Hrate & Hzero & Hall).
  split; [exact Hrate |]. split; [| split].
  - unfold chart_rates, chart_inputs.
    destruct (Nat.ltb_spec (length (items (gospel_scores a))) 2) as [Hlt|Hge]; [exact Hlt |].
    cbn [chart_total chart_gospel chart_bold chart_opportunities].
    assert (Htwo : 2 <= total_messages a) by lia.
    destruct (Z.ltb_spec 0 (total_messages a)) as [Hpos|Hnone]; [| lia].
    split; [exact Hge |]. split; [exact Htwo |]. split_and!.
    + apply percentage_in_range; lia.
    + apply percentage_in_range; lia.
    + apply percentage_in_range; lia.
  - exact Hzero.
  - intros Hpos Heq. unfold dashboard_rate in *. apply Hall. lia.
Qed.

End Rates.

(** ** The ticks of the time axis *)

Lemma every_length {A} step skip (l : list A) :
  (1 <= step)%nat ->
  length (every step skip l)
  = if (skip <? length l)%nat then ((length l - skip + step - 1) / step)%nat else 0%nat.
Proof.
  intros Hstep. revert skip. induction l as [|x l IH]; intros skip; [done |].
  cbn [every length]. destruct skip as [|skip].
  - cbn [length]. rewrite IH. change (0 <? S (length l))%nat with true. cbv iota.
    replace (S (length l) - 0 + step - 1)%nat with (length l + 1 * step)%nat by lia.
    rewrite Nat.div_add by lia.
    destruct (Nat.ltb_spec (step - 1) (length l)) as [Hlt|Hge].
    + replace (length l - (step - 1) + step - 1)%nat with (length l) by lia. lia.
    + rewrite Nat.div_small by lia. lia.
  - rewrite IH. change (S skip <? S (length l))%nat with (skip <? length l)%nat.
    destruct (skip <? length l)%nat; reflexivity.
Qed.

Lemma every_sublist {A} step skip (l : list A) : every step skip l `sublist_of` l.
Proof.
  revert skip. induction l as [|x l IH]; intros skip; [done |].
  cbn [every]. destruct skip; [apply sublist_skip | apply sublist_cons]; apply IH.
Qed.

(** X16: when more than ten times are buffered the time axis gets between
    five and seven ticks, taken from the buffered times in their order and
    starting with the oldest; with ten or fewer, no ticks are set. *)
Theorem xticks_five_to_seven (timestamps : list timestamp) :
  match xticks timestamps with
  | Some ticks =>
      (10 < length timestamps)%nat /\
      (5 <= length ticks <= 7)%nat /\
      ticks `sublist_of` timestamps /\
      head ticks = head timestamps
  | None => (length timestamps <= 10)%nat
  end.
Proof.
  unfold xticks. destruct (Nat.ltb_spec 10 (length timestamps)) as [Hlt|Hge]; [| lia].
  split; [exact Hlt |]. split; [| split].
  - rewrite every_length by lia.
    destruct (Nat.ltb_spec 0 (length timestamps)) as [_|?]; [| lia].
    pose proof (Nat.div_mod_eq (length timestamps) 5) as Hdm.
    pose proof (Nat.mod_upper_bound (length timestamps) 5 ltac:(lia)) as Hr.
    set (q := (length timestamps / 5)%nat) in *.
    set (r := (length timestamps mod 5)%nat) in *.
    assert (Hq : (2 <= q)%nat) by lia.
    replace (Nat.max 1 q) with q by lia.
    replace (length timestamps - 0 + q - 1)%nat with ((r + q - 1) + 5 * q)%nat by lia.
    rewrite Nat.div_add by lia.
    assert (((r + q - 1) / q < 3)%nat); [| lia].
    apply Nat.Div0.div_lt_upper_bound; lia.
  - apply every_sublist.
  - by destruct timestamps.
Qed.


(** ** Lines that are not JSON and are processed all the same *)

(** The recogniser on the sample lines: the four fields, the empty object,
    an array and a sentiment in a string are JSON texts; free text is
    not. *)
Lemma rfc8259_samples :
  Rfc8259.accepts 40 line_faith = true /\ Rfc8259.accepts 40 line_empty = true /\
  Rfc8259.accepts 40 line_array = true /\ Rfc8259.accepts 40 line_high = true /\
  Rfc8259.accepts 40 line_bold = true /\ Rfc8259.accepts 40 line_garbage = false.
Proof. vm_compute. repeat split; reflexivity. Qed.

(** C7, counterexample: the line [{"message": "jesus", "sentiment": NaN}]
    is not valid JSON, whatever the fuel; [json.loads] decodes it all the
    same, to an object of none of the three rejected kinds, and
    [process_message] does not skip it: the analyzer changes and
    [total_messages] becomes 1. *)
Lemma nan_line_not_json_is_counted :
  ~ Rfc8259.valid_json line_nan /\
  @json_loads sample_builtins line_nan = Returned (JObj dict_nan) /\
  ~ @rejected sample_builtins line_nan /\
  @process_message sample_builtins 1 line_nan gospel_analyzer <> (Returned tt, gospel_analyzer) /\
  total_messages (snd (@process_message sample_builtins 1 line_nan gospel_analyzer)) = 1.
Proof.
  split_and!.
  - intros [fuel Hacc]. destruct fuel as [|[|[|[|fuel]]]]; vm_compute in Hacc; discriminate.
  - reflexivity.
  - intros [(e & He) | [(v & Hv & Hno) | (d & e & Hd & Hs)]].
    + discriminate.
    + injection Hv as <-. by destruct (Hno dict_nan).
    + injection Hd as <-. discriminate.
  - intros Heq. apply (f_equal (fun p => total_messages (snd p))) in Heq.
    vm_compute in Heq. discriminate.
  - reflexivity.
Qed.
